(** * astrbot_plugin_fund_analyzer: data acquisition and technical indicators

    A shallow embedding of the parts of [main.py] and [stock/analyzer.py]
    that the specification talks about:

    - [_safe_float], the normalisation applied to every numeric cell;
    - [FundAnalyzer._get_lof_data] and [FundAnalyzer.get_lof_history];
    - [FundAnalyzer.calculate_technical_indicators];
    - [StockAnalyzer._get_stock_data_with_retry] and
      [StockAnalyzer._get_stock_data].

    Modelling conventions.

    - A Python exception is a value of [exn]; a computation that may raise
      returns [result A].  [try ... except] is [try_except].
    - A Python [float] is a [pyfloat]: the rational value of a binary64
      number, NaN or an infinity.  Every arithmetic operation rounds its
      exact result to binary64 ([round64]) and overflows to an infinity;
      NaN and the infinities follow IEEE 754 as Python exposes it, dividing
      by zero raises [ZeroDivisionError] and a power that overflows raises
      [OverflowError].
    - A Python [dict] with string keys is a [gmap string _].
    - The network providers and the clock are inputs of the functions that
      use them; the mutable attributes of an analyzer object are an explicit
      state record that each coroutine threads through. *)

From Stdlib Require Import QArith Qabs Qpower ZArith Lia Lqa.
From stdpp Require Import gmap strings list fin_maps.

Open Scope string_scope.
Open Scope list_scope.

(** ** Python runtime *)

Module Py.

(** The exception classes that the modelled code raises, catches or lets
    through.  [asyncio.TimeoutError] is [AsyncioTimeoutError]; the builtin
    [TimeoutError] that the fetchers raise themselves is [TimeoutError]
    (from Python 3.11 on the two are one class: a provider that raises the
    builtin one is then the [TimedOut] outcome below).  [ProviderError]
    stands for whatever else a provider raises.  Every constructor is a
    subclass of [Exception]. *)
Inductive exn : Type :=
  | ZeroDivisionError
  | ValueError
  | TypeError
  | OverflowError
  | IndexError
  | ImportError
  | AttributeError
  | AsyncioTimeoutError
  | TimeoutError (msg : string)
  | ProviderError (msg : string).

Inductive result (A : Type) : Type :=
  | Ok (a : A)
  | Raise (e : exn).
Arguments Ok {A} a.
Arguments Raise {A} e.

#[global] Instance result_ret : MRet result := fun A a => Ok a.
#[global] Instance result_bind : MBind result := fun A B k m =>
  match m with
  | Ok a => k a
  | Raise e => Raise e
  end.

(** [try: body except handler]: the handler sees the exception and either
    produces a value or raises (re-raising what it does not catch). *)
Definition try_except {A : Type} (body : result A) (handler : exn -> result A)
  : result A :=
  match body with
  | Ok a => Ok a
  | Raise e => handler e
  end.

(** *** Floats

    [Finite q] is the binary64 number whose value is the rational [q].  The
    sign of a zero is not kept: nothing the modelled code does tells the two
    zeros apart. *)

Inductive pyfloat : Type :=
  | Finite (q : Q)
  | NaN
  | PInf
  | NInf.

(** An integer written in the code (0, 100, a window length) as a float:
    exact, all of them being far below 2^53. *)
Definition of_Z (z : Z) : pyfloat := Finite (inject_Z z).
Definition of_nat (n : nat) : pyfloat := of_Z (Z.of_nat n).

Definition Qltb (a b : Q) : bool := negb (Qle_bool b a).

Definition isnan (x : pyfloat) : bool :=
  match x with NaN => true | _ => false end.

(** [x == 0.0] *)
Definition is_zero (x : pyfloat) : bool :=
  match x with Finite q => Qeq_bool q 0 | _ => false end.

(** [bool(x)]: every float but zero is true, NaN included. *)
Definition truthy (x : pyfloat) : bool := negb (is_zero x).

(** Nearest integer to [q], ties to the even one. *)
Definition round_half_even (q : Q) : Z :=
  let f := (Qnum q / Z.pos (Qden q))%Z in
  let r := (Qnum q mod Z.pos (Qden q))%Z in
  match (2 * r ?= Z.pos (Qden q))%Z with
  | Lt => f
  | Gt => (f + 1)%Z
  | Eq => if Z.even f then f else (f + 1)%Z
  end.

Definition pow2 (e : Z) : Q := (2 ^ e)%Q.

(** The integer [k] with [2^k <= a < 2^(k+1)], for a rational [a > 0]. *)
Definition binade (a : Q) : Z :=
  let k := (Z.log2 (Qnum a) - Z.log2 (Z.pos (Qden a)))%Z in
  if Qle_bool (pow2 k) a then k else (k - 1)%Z.

(** What a binary64 operation makes of its exact result [q]: the nearest
    number with a significand of 53 bits and an exponent from -1074 on
    (the subnormal numbers included), ties to the even significand, and
    an infinity from 2^1024 - 2^970 on. *)
Definition round64 (q : Q) : pyfloat :=
  if Qeq_bool q 0 then Finite 0 else
  let a := Qabs q in
  let e := Z.max (binade a - 52) (-1074) in
  let m := round_half_even (a / pow2 e) in
  if (971 <? e)%Z || ((e =? 971)%Z && (2 ^ 53 <=? m)%Z)
  then (if Qle_bool 0 q then PInf else NInf)
  else Finite (Qred (if Qle_bool 0 q then inject_Z m * pow2 e
                     else - (inject_Z m * pow2 e))).

Definition fneg (x : pyfloat) : pyfloat :=
  match x with
  | Finite q => Finite (Qred (- q))
  | NaN => NaN
  | PInf => NInf
  | NInf => PInf
  end.

(** [x + y]: a finite sum is rounded, and overflows to an infinity without
    an exception. *)
Definition fadd (x y : pyfloat) : pyfloat :=
  match x, y with
  | NaN, _ | _, NaN => NaN
  | Finite a, Finite b => round64 (a + b)
  | PInf, NInf | NInf, PInf => NaN
  | PInf, _ | _, PInf => PInf
  | NInf, _ | _, NInf => NInf
  end.

Definition fsub (x y : pyfloat) : pyfloat := fadd x (fneg y).

(** Sign of a non-NaN float: [Lt], [Eq] (zero) or [Gt]. *)
Definition fsign (x : pyfloat) : comparison :=
  match x with
  | Finite q => (0 ?= q)%Q
  | PInf => Lt
  | NInf => Gt
  | NaN => Eq
  end.

(** [x * y] *)
Definition fmul (x y : pyfloat) : pyfloat :=
  match x, y with
  | NaN, _ | _, NaN => NaN
  | Finite a, Finite b => round64 (a * b)
  | _, _ =>
      match fsign x, fsign y with
      | Eq, _ | _, Eq => NaN
      | Lt, Lt | Gt, Gt => PInf
      | _, _ => NInf
      end
  end.

(** The quotient [x / y] for a divisor that is not zero. *)
Definition fquot (x y : pyfloat) : pyfloat :=
  match x, y with
  | NaN, _ | _, NaN => NaN
  | Finite a, Finite b => round64 (a / b)
  | Finite _, _ => Finite 0
  | _, Finite b =>
      match fsign x, (0 ?= b)%Q with
      | Lt, Lt | Gt, Gt => PInf
      | _, _ => NInf
      end
  | _, _ => NaN
  end.

(** [x / y]; Python raises for a zero divisor whatever the dividend. *)
Definition fdiv (x y : pyfloat) : result pyfloat :=
  if is_zero y then Raise ZeroDivisionError else Ok (fquot x y).

(** [x < y] and [x > y]; any comparison with NaN is false. *)
Definition flt (x y : pyfloat) : bool :=
  match x, y with
  | NaN, _ | _, NaN => false
  | Finite a, Finite b => Qltb a b
  | NInf, NInf | PInf, _ | _, NInf => false
  | _, _ => true
  end.

Definition fgt (x y : pyfloat) : bool := flt y x.

(** [round(x, ndigits)] on a float: the decimal with [ndigits] places
    nearest to the value of [x], ties to the even last digit, as the
    float nearest to that decimal.  NaN and the infinities come back
    unchanged. *)
Definition round_ndigits (x : pyfloat) (ndigits : nat) : pyfloat :=
  match x with
  | Finite q =>
      let scale := (10 ^ Z.of_nat ndigits)%Z in
      round64 (inject_Z (round_half_even (q * inject_Z scale))
               / inject_Z scale)
  | _ => x
  end.

(** [x ** 2]: the square, rounded as a product is (the C library's [pow]
    taken to round to nearest).  Where a finite base gives an infinite
    power CPython raises [OverflowError]; a power that underflows is 0. *)
Definition fsquare (x : pyfloat) : result pyfloat :=
  match x with
  | Finite q =>
      match round64 (q * q) with
      | Finite r => Ok (Finite r)
      | _ => Raise OverflowError
      end
  | NaN => Ok NaN
  | PInf | NInf => Ok PInf
  end.

(** [v ** 0.5].  The square root of a rational is irrational in general, so
    the value is kept as the root of its radicand; what the code does with
    it (truth test, [round]) is computed from the radicand, the power being
    taken for the root itself. *)
Inductive pyroot : Type := RootOf (radicand : pyfloat).

Definition pow_half (v : pyfloat) : pyroot := RootOf v.

(** [bool(v ** 0.5)]: a root is zero exactly when its radicand is. *)
Definition root_truthy (r : pyroot) : bool :=
  match r with RootOf v => truthy v end.

(** Nearest integer to [√(n/d)] for [n/d >= 0], ties to even. *)
Definition round_sqrt_half_even (q : Q) : Z :=
  let n := Qnum q in
  let d := Z.pos (Qden q) in
  let k := Z.sqrt (n / d) in
  match (4 * n ?= d * ((2 * k + 1) * (2 * k + 1)))%Z with
  | Lt => k
  | Gt => (k + 1)%Z
  | Eq => if Z.even k then k else (k + 1)%Z
  end.

(** [round(v ** 0.5, ndigits)].  A negative base gives a complex power in
    Python, which [round] rejects with [TypeError]; [(-inf) ** 0.5] is
    [inf]. *)
Definition round_root (r : pyroot) (ndigits : nat) : result pyfloat :=
  match r with
  | RootOf (Finite q) =>
      if Qltb q 0 then Raise TypeError else
      let scale := (10 ^ Z.of_nat ndigits)%Z in
      Ok (round64 (inject_Z
                     (round_sqrt_half_even (q * inject_Z (scale * scale)))
                   / inject_Z scale))
  | RootOf NaN => Ok NaN
  | RootOf _ => Ok PInf
  end.

(** [sum(data)]: left to right from the integer 0, each partial sum
    rounded (the summation of CPython up to 3.11; from 3.12 on [sum]
    carries a correction term, which can change the last bit). *)
Definition fsum (data : list pyfloat) : pyfloat :=
  fold_left fadd data (of_Z 0).

(** [max(data)] and [min(data)] keep the first element unless a later one
    compares strictly greater (smaller); [ValueError] on an empty list. *)
Definition py_max (data : list pyfloat) : result pyfloat :=
  match data with
  | [] => Raise ValueError
  | x :: rest => Ok (fold_left (fun m y => if fgt y m then y else m) rest x)
  end.

Definition py_min (data : list pyfloat) : result pyfloat :=
  match data with
  | [] => Raise ValueError
  | x :: rest => Ok (fold_left (fun m y => if flt y m then y else m) rest x)
  end.

(** [data[-k:]]: the last [k] elements, the whole list when [k] exceeds the
    length, and (since [-0] is [0]) the whole list when [k] is 0. *)
Definition slice_last {A : Type} (k : nat) (data : list A) : list A :=
  match k with
  | O => data
  | _ => drop (length data - k) data
  end.

(** [data[-k]] for [k >= 1]; [IndexError] outside the list. *)
Definition index_from_end {A : Type} (data : list A) (k : nat) : result A :=
  if (k =? 0)%nat || (length data <? k)%nat then Raise IndexError else
  match data !! (length data - k)%nat with
  | Some x => Ok x
  | None => Raise IndexError
  end.

End Py.
Export Py.

(** *** Objects, tables and coroutines *)

Module PyData.

(** The values a table cell (or any argument typed [Any]) may hold. *)
Inductive pyobj : Type :=
  | PyNone
  | PyFloat (f : pyfloat)
  | PyInt (z : Z)
  | PyStr (s : string)
  | PyObject (repr : string).

(** The values stored in the dictionaries the analyzer returns. *)
Inductive pyval : Type :=
  | VNone
  | VFloat (f : pyfloat)
  | VStr (s : string).

(** [isinstance(value, float)] *)
Definition isinstance_float (value : pyobj) : bool :=
  match value with PyFloat _ => true | _ => false end.

(** Integers from this magnitude on round to 2^1024 and do not fit a
    binary64 float. *)
Definition int_overflow_bound : Z := (2 ^ 1024 - 2 ^ 970)%Z.

(** [float(value)].  An integer is rounded to the nearest float.  The
    interpreter's parser of float literals is the argument [parse_float]:
    [None] stands for a string it rejects. *)
Definition builtin_float (parse_float : string -> option pyfloat)
    (value : pyobj) : result pyfloat :=
  match value with
  | PyFloat f => Ok f
  | PyInt z =>
      if (int_overflow_bound <=? Z.abs z)%Z then Raise OverflowError
      else Ok (round64 (inject_Z z))
  | PyStr s =>
      match parse_float s with
      | Some f => Ok f
      | None => Raise ValueError
      end
  | PyNone | PyObject _ => Raise TypeError
  end.

(** A pandas [DataFrame]: column labels and rows of cells.  A row handed out
    by [iterrows] is a [Series] indexed by the column labels. *)
Record DataFrame : Type := {
  columns : list string;
  cells : list (list pyobj)
}.

Definition Series : Type := gmap string pyobj.

(** [len(df)] *)
Definition df_len (df : DataFrame) : nat := length (cells df).

(** [df.empty]: some axis has length 0. *)
Definition df_empty (df : DataFrame) : bool :=
  (length (cells df) =? 0)%nat || (length (columns df) =? 0)%nat.

(** [df.tail(n)]: the last [n] rows; for negative [n] every row but the
    first [|n|]. *)
Definition df_tail (n : Z) (df : DataFrame) : DataFrame :=
  {| columns := columns df;
     cells :=
       if (0 <=? n)%Z
       then drop (length (cells df) - Z.to_nat n) (cells df)
       else drop (Z.to_nat (- n)) (cells df) |}.

(** [df.iterrows()], without the index labels. *)
Definition iterrows (df : DataFrame) : list Series :=
  map (fun row => list_to_map (zip (columns df) row)) (cells df).

(** [row[name] if name in row.index else 0] *)
Definition cell_or_zero (row : Series) (name : string) : pyobj :=
  match row !! name with
  | Some v => v
  | None => PyInt 0
  end.

(** What awaiting [asyncio.wait_for(asyncio.to_thread(provider), timeout)]
    can do: deliver the provider's value, raise [asyncio.TimeoutError], or
    raise the exception the provider raised. *)
Inductive fetch_outcome (A : Type) : Type :=
  | Fetched (a : A)
  | TimedOut
  | Failed (e : exn).
Arguments Fetched {A} a.
Arguments TimedOut {A}.
Arguments Failed {A} e.

Definition await_fetch {A : Type} (o : fetch_outcome A) : result A :=
  match o with
  | Fetched a => Ok a
  | TimedOut => Raise AsyncioTimeoutError
  | Failed e => Raise e
  end.

(** [datetime] values and differences, in microseconds. *)
Definition datetime : Type := Z.

(** [(now - then).total_seconds() < ttl] for a whole number of seconds. *)
Definition age_below (now then_ : datetime) (ttl : Z) : bool :=
  (now - then_ <? ttl * 1000000)%Z.

(** What a coroutine does that the caller can observe besides its result:
    the provider calls it awaits and the sleeps it takes, oldest first. *)
Inductive event : Type :=
  | Called (provider : string)
  | Slept (seconds : Z).

#[global] Instance event_eq_dec : EqDecision event.
Proof. solve_decision. Defined.

(** A running coroutine sees the object it is a method of and extends the
    log of what it awaited. *)
Record process (Obj : Type) : Type := {
  self : Obj;
  trace : list event
}.
Arguments self {Obj} p.
Arguments trace {Obj} p.

(** A coroutine of an object of class [Obj]: it may update the attributes
    and then return or raise; updates made before a raise stay. *)
Definition coro (Obj A : Type) : Type :=
  process Obj -> result A * process Obj.

Definition coro_ret {Obj A : Type} (a : A) : coro Obj A :=
  fun w => (Ok a, w).
Definition coro_raise {Obj A : Type} (e : exn) : coro Obj A :=
  fun w => (Raise e, w).
Definition coro_bind {Obj A B : Type} (m : coro Obj A) (k : A -> coro Obj B)
  : coro Obj B :=
  fun w =>
    match m w with
    | (Ok a, w') => k a w'
    | (Raise e, w') => (Raise e, w')
    end.
Definition coro_try {Obj A : Type} (body : coro Obj A)
    (handler : exn -> coro Obj A) : coro Obj A :=
  fun w =>
    match body w with
    | (Ok a, w') => (Ok a, w')
    | (Raise e, w') => handler e w'
    end.
Definition get_self {Obj : Type} : coro Obj Obj :=
  fun w => (Ok (self w), w).
Definition set_self {Obj : Type} (s : Obj) : coro Obj unit :=
  fun w => (Ok tt, {| self := s; trace := trace w |}).
Definition coro_lift {Obj A : Type} (r : result A) : coro Obj A :=
  fun w => (r, w).

#[global] Instance coro_mret {Obj : Type} : MRet (coro Obj) :=
  fun A a => coro_ret a.
#[global] Instance coro_mbind {Obj : Type} : MBind (coro Obj) :=
  fun A B k m => coro_bind m k.

(** A provider, as the network makes it behave during one request: the
    outcome of its first call, of its second call, and so on. *)
Definition provider (A : Type) : Type := nat -> fetch_outcome A.

(** How many times [name] was called so far. *)
Definition attempts (name : string) (tr : list event) : nat :=
  length (filter (fun ev => ev = Called name) tr).

(** [await asyncio.wait_for(asyncio.to_thread(p), timeout)] *)
Definition await_provider {Obj A : Type} (name : string) (p : provider A)
  : coro Obj A :=
  fun w =>
    (await_fetch (p (attempts name (trace w))),
     {| self := self w; trace := trace w ++ [Called name] |}).

(** [await asyncio.sleep(seconds)] *)
Definition asyncio_sleep {Obj : Type} (seconds : Z) : coro Obj unit :=
  fun w => (Ok tt, {| self := self w; trace := trace w ++ [Slept seconds] |}).

End PyData.
Export PyData.


(** ** main.py *)

Module FundAnalyzer.

(** 默认超时时间（秒） and 数据缓存有效期（秒） *)
Definition DEFAULT_TIMEOUT : Z := 120.
Definition CACHE_TTL : Z := 300.

Definition DEFAULT_FUND_CODE : string := "161226".

(** One entry of the list [get_lof_history] returns: the dictionary literal
    with the keys date, open, close, high, low, volume, amount and
    change_rate. *)
Record bar : Type := {
  date : string;
  open : pyfloat;
  close : pyfloat;
  high : pyfloat;
  low : pyfloat;
  volume : pyfloat;
  amount : pyfloat;
  change_rate : pyfloat
}.

(** The attributes of a [FundAnalyzer] object.  [_ak] and [_pd] are set
    together with [_initialized] and not kept apart. *)
Record self_t : Type := {
  _initialized : bool;
  _lof_cache : option DataFrame;
  _lof_cache_time : option datetime
}.

(** [FundAnalyzer.__init__] *)
Definition __init__ : self_t :=
  {| _initialized := false; _lof_cache := None; _lof_cache_time := None |}.

Section WithRuntime.

(** The interpreter's parser of float literals (for [float(str)]), [str()]
    on a cell and [str.strip]. *)
Variable parse_float : string -> option pyfloat.
Variable builtin_str : pyobj -> string.
Variable strip : string -> string.

(** [_ensure_init]: imports akshare and pandas on first use;
    [akshare_importable] tells whether the import succeeds. *)
Definition _ensure_init (akshare_importable : bool) : coro self_t unit :=
  this ← get_self;
  if _initialized this then coro_ret tt
  else if akshare_importable
  then set_self {| _initialized := true;
                   _lof_cache := _lof_cache this;
                   _lof_cache_time := _lof_cache_time this |}
  else coro_raise ImportError.

(** [_safe_float(value, default)] *)
Definition _safe_float (value : pyobj) (default : pyfloat) : result pyfloat :=
  match value with
  | PyNone => Ok default
  | _ =>
      try_except
        (if isinstance_float value
            && match value with PyFloat f => isnan f | _ => false end
         then Ok default
         else
           result ← builtin_float parse_float value;
           if isnan result then Ok default else Ok result)
        (fun e =>
           match e with
           | ValueError | TypeError => Ok default
           | _ => Raise e
           end)
  end.

(** The default of the [default] argument. *)
Definition default_float : pyfloat := Finite 0.

(** The cache test that opens [_get_lof_data]. *)
Definition lof_cache_valid (self : self_t) (now : datetime)
  : option DataFrame :=
  match _lof_cache self, _lof_cache_time self with
  | Some cache, Some t =>
      if age_below now t CACHE_TTL then Some cache else None
  | _, _ => None
  end.

(** [_get_lof_data]; [now] is [datetime.now()].  Looking the provider up
    on [self._ak] fails before [_ensure_init] has run. *)
Definition _get_lof_data (now : datetime)
    (fund_lof_spot_em : provider DataFrame) : coro self_t DataFrame :=
  this ← get_self;
  match lof_cache_valid this now with
  | Some cache => coro_ret cache
  | None =>
      coro_try
        (df ← (if _initialized this
               then await_provider "fund_lof_spot_em" fund_lof_spot_em
               else coro_raise AttributeError);
         set_self {| _initialized := _initialized this;
                     _lof_cache := Some df;
                     _lof_cache_time := Some now |};;
         coro_ret df)
        (fun e =>
           match e with
           | AsyncioTimeoutError =>
               this ← get_self;
               match _lof_cache this with
               | Some cache => coro_ret cache
               | None => coro_raise (TimeoutError "数据获取超时，请稍后重试")
               end
           | _ => coro_raise e
           end)
  end.

(** The dictionary built for one row of the history table, its entries
    evaluated in the order they are written. *)
Definition history_record (row : Series) : result bar :=
  let date_ :=
    match row !! "日期" with Some v => builtin_str v | None => "" end in
  open_ ← _safe_float (cell_or_zero row "开盘") default_float;
  close_ ← _safe_float (cell_or_zero row "收盘") default_float;
  high_ ← _safe_float (cell_or_zero row "最高") default_float;
  low_ ← _safe_float (cell_or_zero row "最低") default_float;
  volume_ ← _safe_float (cell_or_zero row "成交量") default_float;
  amount_ ← _safe_float (cell_or_zero row "成交额") default_float;
  change_rate_ ← _safe_float (cell_or_zero row "涨跌幅") default_float;
  Ok {| date := date_; open := open_; close := close_; high := high_;
        low := low_; volume := volume_; amount := amount_;
        change_rate := change_rate_ |}.

(** The loop [for _, row in df.iterrows(): result.append(...)]. *)
Fixpoint history_records (rows : list Series) : result (list bar) :=
  match rows with
  | [] => Ok []
  | row :: rest =>
      b ← history_record row;
      bs ← history_records rest;
      Ok (b :: bs)
  end.

(** [get_lof_history(fund_code, days, adjust)].  [fund_lof_hist_em] stands
    for the [try] block up to the assignment of [df]: computing the date
    window from [days * 2] and awaiting the provider for the stripped
    code. *)
Definition get_lof_history (akshare_importable : bool)
    (fund_lof_hist_em : string -> Z -> string -> provider (option DataFrame))
    (fund_code : option string) (days : Z) (adjust : string)
  : coro self_t (option (list bar)) :=
  _ensure_init akshare_importable;;
  let fund_code := strip (default DEFAULT_FUND_CODE fund_code) in
  coro_try
    (df ← await_provider "fund_lof_hist_em"
            (fund_lof_hist_em fund_code (days * 2)%Z adjust);
     match df with
     | None => coro_ret None
     | Some df =>
         if df_empty df then coro_ret None
         else
           result ← coro_lift (history_records (iterrows (df_tail days df)));
           coro_ret (Some result)
     end)
    (fun _ => coro_ret None).

End WithRuntime.

(** *** Technical indicators *)

(** 计算简单移动平均 *)
Definition sma (data : list pyfloat) (period : nat)
  : result (option pyfloat) :=
  if (length data <? period)%nat then Ok None
  else
    mean ← fdiv (fsum (slice_last period data)) (of_nat period);
    Ok (Some mean).

(** 计算最近收益率 *)
Definition calculate_return (data : list pyfloat) (days : nat)
  : result (option pyfloat) :=
  if (length data <? days + 1)%nat then Ok None
  else
    last_ ← index_from_end data 1;
    base ← index_from_end data (days + 1);
    ratio ← fdiv (fsub last_ base) base;
    Ok (Some (fmul ratio (of_Z 100))).

(** The generator [(x - mean) ** 2 for x in recent], consumed by [sum]:
    the squares in order, up to the first that raises. *)
Fixpoint squared_deviations (recent : list pyfloat) (mean : pyfloat)
  : result (list pyfloat) :=
  match recent with
  | [] => Ok []
  | x :: rest =>
      d ← fsquare (fsub x mean);
      ds ← squared_deviations rest mean;
      Ok (d :: ds)
  end.

(** 计算波动率 (标准差) *)
Definition calculate_volatility (data : list pyfloat) (period : nat)
  : result (option pyroot) :=
  if (length data <? period)%nat then Ok None
  else
    let recent := slice_last period data in
    mean ← fdiv (fsum recent) (of_nat (length recent));
    squares ← squared_deviations recent mean;
    variance ← fdiv (fsum squares) (of_nat (length recent));
    Ok (Some (pow_half variance)).

(** Truth value of an optional float: [None] and [0.0] are false. *)
Definition opt_truthy (x : option pyfloat) : bool :=
  match x with
  | Some f => truthy f
  | None => false
  end.

(** 判断趋势 *)
Definition classify_trend (current_price : pyfloat)
    (ma5 ma10 ma20 : option pyfloat) : string :=
  match ma5, ma10, ma20 with
  | Some m5, Some m10, Some m20 =>
      if truthy m5 && truthy m10 && truthy m20 then
        if fgt current_price m5 && fgt m5 m10 && fgt m10 m20
        then "强势上涨"
        else if fgt current_price m5 && fgt m5 m10
        then "上涨趋势"
        else if flt current_price m5 && flt m5 m10 && flt m10 m20
        then "强势下跌"
        else if flt current_price m5 && flt m5 m10
        then "下跌趋势"
        else "震荡"
      else "震荡"
  | _, _, _ => "震荡"
  end.

(** [round(ma, 4) if ma else None] *)
Definition ma_field (ma : option pyfloat) : pyval :=
  match ma with
  | Some m => if truthy m then VFloat (round_ndigits m 4) else VNone
  | None => VNone
  end.

(** [round(calculate_return(closes, d), 2) if calculate_return(closes, d)
    else None]: the condition is evaluated first, then the value. *)
Definition return_field (closes : list pyfloat) (d : nat) : result pyval :=
  cond ← calculate_return closes d;
  if opt_truthy cond then
    value ← calculate_return closes d;
    match value with
    | Some r => Ok (VFloat (round_ndigits r 2))
    | None => Raise TypeError
    end
  else Ok VNone.

(** [round(calculate_volatility(closes, 20), 4)
    if calculate_volatility(closes, 20) else None] *)
Definition volatility_field (closes : list pyfloat) : result pyval :=
  cond ← calculate_volatility closes 20;
  if match cond with Some r => root_truthy r | None => false end then
    value ← calculate_volatility closes 20;
    match value with
    | Some r => v ← round_root r 4; Ok (VFloat v)
    | None => Raise TypeError
    end
  else Ok VNone.

(** [max(closes[-20:]) if len(closes) >= 20 else max(closes)] and the same
    with [min]. *)
Definition high_20d_field (closes : list pyfloat) : result pyval :=
  m ← (if (20 <=? length closes)%nat
       then py_max (slice_last 20 closes) else py_max closes);
  Ok (VFloat m).

Definition low_20d_field (closes : list pyfloat) : result pyval :=
  m ← (if (20 <=? length closes)%nat
       then py_min (slice_last 20 closes) else py_min closes);
  Ok (VFloat m).

(** [calculate_technical_indicators(history_data)] *)
Definition calculate_technical_indicators (history_data : list bar)
  : result (gmap string pyval) :=
  if (length history_data =? 0)%nat || (length history_data <? 5)%nat
  then Ok ∅
  else
    let closes := map close history_data in
    ma5 ← sma closes 5;
    ma10 ← sma closes 10;
    ma20 ← sma closes 20;
    current_price ← (match closes with
                     | [] => Ok (of_Z 0)
                     | _ => index_from_end closes 1
                     end);
    let trend := classify_trend current_price ma5 ma10 ma20 in
    return_5d ← return_field closes 5;
    return_10d ← return_field closes 10;
    return_20d ← return_field closes 20;
    volatility_ ← volatility_field closes;
    high_20d ← high_20d_field closes;
    low_20d ← low_20d_field closes;
    Ok (<["ma5" := ma_field ma5]>
        (<["ma10" := ma_field ma10]>
        (<["ma20" := ma_field ma20]>
        (<["return_5d" := return_5d]>
        (<["return_10d" := return_10d]>
        (<["return_20d" := return_20d]>
        (<["volatility" := volatility_]>
        (<["high_20d" := high_20d]>
        (<["low_20d" := low_20d]>
        (<["trend" := VStr trend]>
        (<["current_price" := VFloat current_price]> ∅))))))))))).

End FundAnalyzer.

(** ** stock/analyzer.py *)

Module StockAnalyzer.

(** 默认超时时间（秒）, A股实时行情缓存有效期（秒）, 网络请求最大重试次数 and
    重试间隔（秒） *)
Definition DEFAULT_TIMEOUT : Z := 60.
Definition STOCK_CACHE_TTL : Z := 600.
Definition MAX_RETRIES : nat := 3.
Definition RETRY_DELAY : Z := 2.

(** The attributes of a [StockAnalyzer] object. *)
Record self_t : Type := {
  _initialized : bool;
  _stock_cache : option DataFrame;
  _stock_cache_time : option datetime;
  _current_source : string
}.

(** [StockAnalyzer.__init__] *)
Definition __init__ : self_t :=
  {| _initialized := false; _stock_cache := None;
     _stock_cache_time := None; _current_source := "eastmoney" |}.

(** [_ensure_init] *)
Definition _ensure_init (akshare_importable : bool) : coro self_t unit :=
  this ← get_self;
  if _initialized this then coro_ret tt
  else if akshare_importable
  then set_self {| _initialized := true;
                   _stock_cache := _stock_cache this;
                   _stock_cache_time := _stock_cache_time this;
                   _current_source := _current_source this |}
  else coro_raise ImportError.

(** [_safe_float] is the function of [main.py], word for word. *)
Definition _safe_float := FundAnalyzer._safe_float.

(** The two providers of the A-share table, primary first. *)
Record providers : Type := {
  stock_zh_a_spot_em : provider DataFrame;
  stock_zh_a_spot : provider DataFrame
}.

(** [_fetch_stock_data_eastmoney] and [_fetch_stock_data_sina] *)
Definition _fetch_stock_data_eastmoney (net : providers)
  : coro self_t DataFrame :=
  this ← get_self;
  if _initialized this
  then await_provider "stock_zh_a_spot_em" (stock_zh_a_spot_em net)
  else coro_raise AttributeError.

Definition _fetch_stock_data_sina (net : providers) : coro self_t DataFrame :=
  this ← get_self;
  if _initialized this
  then await_provider "stock_zh_a_spot" (stock_zh_a_spot net)
  else coro_raise AttributeError.

(** [self._current_source = source] *)
Definition set_current_source (source : string) : coro self_t unit :=
  this ← get_self;
  set_self {| _initialized := _initialized this;
              _stock_cache := _stock_cache this;
              _stock_cache_time := _stock_cache_time this;
              _current_source := source |}.

(** What the two [except] clauses of a retry loop assign to [last_error]:
    a fresh [TimeoutError] for [asyncio.TimeoutError], the exception itself
    otherwise. *)
Definition caught_error (timeout_message : string) (e : exn) : exn :=
  match e with
  | AsyncioTimeoutError => TimeoutError timeout_message
  | _ => e
  end.

(** One [for attempt in range(MAX_RETRIES)] loop of
    [_get_stock_data_with_retry], over the attempt numbers still to run.
    It leaves either the table (the [return df] inside the loop) or the
    value of [last_error] when the range is used up. *)
Fixpoint retry_loop (fetch : coro self_t DataFrame) (source : string)
    (timeout_message : string) (range : list nat) (last_error : option exn)
  : coro self_t (DataFrame + option exn) :=
  match range with
  | [] => coro_ret (inr last_error)
  | attempt :: range' =>
      fun w =>
        match fetch w with
        | (Ok df, w1) =>
            (set_current_source source;; coro_ret (inl df)) w1
        | (Raise e, w1) =>
            let last_error := Some (caught_error timeout_message e) in
            ((if (attempt <? MAX_RETRIES - 1)%nat
              then asyncio_sleep RETRY_DELAY else coro_ret tt);;
             retry_loop fetch source timeout_message range' last_error) w1
        end
  end.

(** [_get_stock_data_with_retry] *)
Definition _get_stock_data_with_retry (net : providers)
  : coro self_t DataFrame :=
  r ← retry_loop (_fetch_stock_data_eastmoney net) "eastmoney"
        "东方财富数据获取超时" (seq 0 MAX_RETRIES) None;
  match r with
  | inl df => coro_ret df
  | inr last_error =>
      r ← retry_loop (_fetch_stock_data_sina net) "sina"
            "新浪数据获取超时" (seq 0 MAX_RETRIES) last_error;
      match r with
      | inl df => coro_ret df
      | inr (Some e) => coro_raise e
      | inr None => coro_raise (ProviderError "所有数据源均不可用")
      end
  end.

(** The cache test that opens [_get_stock_data]. *)
Definition stock_cache_valid (this : self_t) (now : datetime)
  : option DataFrame :=
  match _stock_cache this, _stock_cache_time this with
  | Some cache, Some t =>
      if age_below now t STOCK_CACHE_TTL then Some cache else None
  | _, _ => None
  end.

(** [_get_stock_data] *)
Definition _get_stock_data (akshare_importable : bool) (now : datetime)
    (net : providers) : coro self_t DataFrame :=
  _ensure_init akshare_importable;;
  this ← get_self;
  match stock_cache_valid this now with
  | Some cache => coro_ret cache
  | None =>
      coro_try
        (df ← _get_stock_data_with_retry net;
         this ← get_self;
         set_self {| _initialized := _initialized this;
                     _stock_cache := Some df;
                     _stock_cache_time := Some now;
                     _current_source := _current_source this |};;
         coro_ret df)
        (fun e =>
           this ← get_self;
           match _stock_cache this with
           | Some cache => coro_ret cache
           | None => coro_raise e
           end)
  end.

End StockAnalyzer.

(** ** Notions used to state the properties *)

Module Notions.

(** The arithmetic mean of the last [w] entries, as [sma] computes it. *)
Definition window_mean (data : list pyfloat) (w : nat) : pyfloat :=
  fquot (fsum (slice_last w data)) (of_nat w).

(** The moving average that [calculate_technical_indicators] binds for
    window [w]: nothing under [w] bars, the mean of the last [w] otherwise. *)
Definition sma_value (data : list pyfloat) (w : nat) : option pyfloat :=
  if (length data <? w)%nat then None else Some (window_mean data w).

(** The mapping built by the final [return] of
    [calculate_technical_indicators]. *)
Definition indicator_mapping (closes : list pyfloat) (current_price : pyfloat)
    (r5 r10 r20 vol hi lo : pyval) : gmap string pyval :=
  <["ma5" := FundAnalyzer.ma_field (sma_value closes 5)]>
  (<["ma10" := FundAnalyzer.ma_field (sma_value closes 10)]>
  (<["ma20" := FundAnalyzer.ma_field (sma_value closes 20)]>
  (<["return_5d" := r5]>
  (<["return_10d" := r10]>
  (<["return_20d" := r20]>
  (<["volatility" := vol]>
  (<["high_20d" := hi]>
  (<["low_20d" := lo]>
  (<["trend" := VStr (FundAnalyzer.classify_trend current_price
                        (sma_value closes 5) (sma_value closes 10)
                        (sma_value closes 20))]>
  (<["current_price" := VFloat current_price]> ∅)))))))))).

(** Sum of rationals, left to right. *)
Definition Qsum (qs : list Q) : Q := fold_left Qplus qs 0%Q.

(** A field of a returned mapping is absent when the key is missing or
    holds [None]. *)
Definition is_absent (m : gmap string pyval) (key : string) : Prop :=
  m !! key = None \/ m !! key = Some VNone.

(** The key of the moving average over [w] bars. *)
Definition ma_key (w : nat) : string :=
  match w with
  | 5 => "ma5"
  | 10 => "ma10"
  | _ => "ma20"
  end.

(** The key of the return over [d] days. *)
Definition return_key (d : nat) : string :=
  match d with
  | 5 => "return_5d"
  | 10 => "return_10d"
  | _ => "return_20d"
  end.

(** The entry [b] holds, field by field, what the dictionary literal of
    [get_lof_history] evaluates to on [row]. *)
Definition converts_to (parse_float : string -> option pyfloat)
    (builtin_str : pyobj -> string) (row : Series) (b : FundAnalyzer.bar)
  : Prop :=
  let cell name :=
    FundAnalyzer._safe_float parse_float (cell_or_zero row name)
      FundAnalyzer.default_float in
  FundAnalyzer.date b
    = match row !! "日期" with Some v => builtin_str v | None => "" end
  /\ cell "开盘" = Ok (FundAnalyzer.open b)
  /\ cell "收盘" = Ok (FundAnalyzer.close b)
  /\ cell "最高" = Ok (FundAnalyzer.high b)
  /\ cell "最低" = Ok (FundAnalyzer.low b)
  /\ cell "成交量" = Ok (FundAnalyzer.volume b)
  /\ cell "成交额" = Ok (FundAnalyzer.amount b)
  /\ cell "涨跌幅" = Ok (FundAnalyzer.change_rate b).

(** Every numeric field of a history entry is a float that is not NaN. *)
Definition normalised (b : FundAnalyzer.bar) : Prop :=
  isnan (FundAnalyzer.open b) = false
  /\ isnan (FundAnalyzer.close b) = false
  /\ isnan (FundAnalyzer.high b) = false
  /\ isnan (FundAnalyzer.low b) = false
  /\ isnan (FundAnalyzer.volume b) = false
  /\ isnan (FundAnalyzer.amount b) = false
  /\ isnan (FundAnalyzer.change_rate b) = false.

(** A fetch attempt fails when it does not deliver a table. *)
Definition fails {A : Type} (o : fetch_outcome A) : Prop :=
  match o with
  | Fetched _ => False
  | _ => True
  end.

(** The names under which the three providers are called. *)
Definition EM : string := "stock_zh_a_spot_em".
Definition SINA : string := "stock_zh_a_spot".
Definition LOF : string := "fund_lof_spot_em".

(** What a request for the A-share table awaits when no attempt succeeds:
    three calls of the primary provider two seconds apart, then three calls
    of the secondary one two seconds apart. *)
Definition retry_schedule : list event :=
  [Called EM; Slept 2; Called EM; Slept 2; Called EM;
   Called SINA; Slept 2; Called SINA; Slept 2; Called SINA].

(** The first three outcomes of both providers of a request that starts
    with the log [tr] are failures. *)
Definition all_attempts_fail (net : StockAnalyzer.providers)
    (tr : list event) : Prop :=
  forall i, (i < 3)%nat ->
    fails (StockAnalyzer.stock_zh_a_spot_em net (attempts EM tr + i))
    /\ fails (StockAnalyzer.stock_zh_a_spot net (attempts SINA tr + i)).

(** A [StockAnalyzer] after [self._current_source = source]. *)
Definition with_source (this : StockAnalyzer.self_t) (source : string)
  : StockAnalyzer.self_t :=
  {| StockAnalyzer._initialized := StockAnalyzer._initialized this;
     StockAnalyzer._stock_cache := StockAnalyzer._stock_cache this;
     StockAnalyzer._stock_cache_time := StockAnalyzer._stock_cache_time this;
     StockAnalyzer._current_source := source |}.

(** A [FundAnalyzer] after a table fetched at [now] was cached. *)
Definition with_lof_cache (this : FundAnalyzer.self_t) (df : DataFrame)
    (now : datetime) : FundAnalyzer.self_t :=
  {| FundAnalyzer._initialized := FundAnalyzer._initialized this;
     FundAnalyzer._lof_cache := Some df;
     FundAnalyzer._lof_cache_time := Some now |}.

(** The events one retry loop over provider [name] adds when its first
    [k] attempts are made. *)
Fixpoint loop_events (name : string) (k : nat) : list event :=
  match k with
  | O => []
  | 1%nat => [Called name]
  | S k' => Called name :: Slept StockAnalyzer.RETRY_DELAY :: loop_events name k'
  end.

(** A one-row table, an initialised [FundAnalyzer] that cached it at time
    0, and one that cached nothing. *)
Definition sample_table : DataFrame :=
  {| columns := ["代码"; "名称"];
     cells := [[PyStr "161226"; PyStr "国投瑞银白银期货(LOF)A"]] |}.

(** A history table of one row, with a date and a closing price and no
    other column, and the entry [get_lof_history] makes of that row. *)
Definition history_table : DataFrame :=
  {| columns := ["日期"; "收盘"];
     cells := [[PyStr "2024-01-02"; PyFloat (Finite 1.5)]] |}.

Definition history_entry : FundAnalyzer.bar :=
  {| FundAnalyzer.date := "2024-01-02";
     FundAnalyzer.open := Finite 0;
     FundAnalyzer.close := Finite 1.5;
     FundAnalyzer.high := Finite 0;
     FundAnalyzer.low := Finite 0;
     FundAnalyzer.volume := Finite 0;
     FundAnalyzer.amount := Finite 0;
     FundAnalyzer.change_rate := Finite 0 |}.

(** [str] on the cells of [history_table]. *)
Definition str_of_cell (v : pyobj) : string :=
  match v with
  | PyStr s => s
  | _ => ""
  end.

Definition lof_with_cache : process FundAnalyzer.self_t :=
  {| self := {| FundAnalyzer._initialized := true;
                FundAnalyzer._lof_cache := Some sample_table;
                FundAnalyzer._lof_cache_time := Some 0%Z |};
     trace := [] |}.

Definition lof_without_cache : process FundAnalyzer.self_t :=
  {| self := {| FundAnalyzer._initialized := true;
                FundAnalyzer._lof_cache := None;
                FundAnalyzer._lof_cache_time := None |};
     trace := [] |}.

(** An initialised [StockAnalyzer] that cached the table at time 0, and
    providers whose every call times out. *)
Definition stock_with_cache : process StockAnalyzer.self_t :=
  {| self := {| StockAnalyzer._initialized := true;
                StockAnalyzer._stock_cache := Some sample_table;
                StockAnalyzer._stock_cache_time := Some 0%Z;
                StockAnalyzer._current_source := "eastmoney" |};
     trace := [] |}.

Definition dead_network : StockAnalyzer.providers :=
  {| StockAnalyzer.stock_zh_a_spot_em := fun _ => TimedOut;
     StockAnalyzer.stock_zh_a_spot := fun _ => TimedOut |}.

(** A float that is not negative: what a variance is. *)
Definition nonneg (x : pyfloat) : Prop :=
  match x with
  | Finite q => (0 <= q)%Q
  | NaN | PInf => True
  | NInf => False
  end.

(** A history entry whose prices are all [c], and a series of [n] of them. *)
Definition bar_at (c : Q) : FundAnalyzer.bar :=
  {| FundAnalyzer.date := "";
     FundAnalyzer.open := Finite c;
     FundAnalyzer.close := Finite c;
     FundAnalyzer.high := Finite c;
     FundAnalyzer.low := Finite c;
     FundAnalyzer.volume := Finite 0;
     FundAnalyzer.amount := Finite 0;
     FundAnalyzer.change_rate := Finite 0 |}.

Definition series (closes : list Q) : list FundAnalyzer.bar :=
  map bar_at closes.

End Notions.
Import Notions.

(** * Further parts of the plugin

    More of the two analyzers, the quote records, the formatter of the
    indicators and the table of influence factors:

    - [StockAnalyzer.clear_cache] and [StockAnalyzer.get_cache_info];
    - [FundInfo] and [StockInfo] with their [change_symbol] and
      [trend_emoji];
    - [FundAnalyzer.get_lof_realtime], [StockAnalyzer.get_stock_realtime]
      and the two row parsers;
    - [FundAnalyzer.search_fund] and [StockAnalyzer.search_stock];
    - [FundAnalyzerPlugin._format_analysis];
    - [FundInfluenceFactors.get_factors] and [get_search_keywords].

    Further conventions.

    - [KeyError] is not among [exn].  Every place that can raise it sits in
      a [try] whose [except Exception] returns a fixed value; the lookup
      is an [option] and the function returns that value on [None].
    - What the interpreter and pandas compute on strings ([format], [str],
      [re.search], [str.contains]) is a parameter of the function that uses
      it, so every property holds whatever they answer.
    - A float literal in decimal notation denotes that decimal.  The only
      such literals are the thresholds 9.9 and -9.9 of
      [StockInfo.trend_emoji], which a rate is compared with: no binary64
      number lies between 9.9 and the float nearest to it, so on floats the
      comparisons come out as in the code. *)

Module IndicatorNotions.

(** The closes a 20-day high or low is taken over: the last 20, or all of
    them when there are fewer. *)
Definition high_low_window (qs : list Q) : list Q := slice_last 20 qs.

(** The five labels [calculate_technical_indicators] can give a trend. *)
Definition trend_labels : list string :=
  ["强势上涨"; "上涨趋势"; "强势下跌"; "下跌趋势"; "震荡"].

(** The close of the bar [k] places from the end of a series. *)
Definition close_from_end (history_data : list FundAnalyzer.bar) (k : nat)
  : option pyfloat :=
  FundAnalyzer.close <$> history_data !! (length history_data - k)%nat.

(** Some return of [calculate_technical_indicators] has a base close of
    zero within the series. *)
Definition zero_base (history_data : list FundAnalyzer.bar) : Prop :=
  exists d base,
    (d = 5 \/ d = 10 \/ d = 20)%nat
    /\ (d + 1 <= length history_data)%nat
    /\ close_from_end history_data (d + 1) = Some base
    /\ is_zero base = true.

(** Among the last 20 closes one lies so far from their mean that the
    square of its deviation is beyond the floats. *)
Definition deviation_overflows (history_data : list FundAnalyzer.bar)
  : Prop :=
  (20 <= length history_data)%nat
  /\ let recent := slice_last 20 (map FundAnalyzer.close history_data) in
     let mean := fquot (fsum recent) (of_nat 20) in
     exists x, x ∈ recent /\ fsquare (fsub x mean) = Raise OverflowError.

(** The prices the statements on accuracy are about: closes from a
    thousandth to a million. *)
Definition price_min : Q := 1 # 1000.
Definition price_max : Q := 1000000.

Definition priced (qs : list Q) : Prop :=
  forall q, q ∈ qs -> (price_min <= q <= price_max)%Q.

(** Each close is above (below) the one before it by a millionth or
    more. *)
Definition price_step : Q := 1 # 1000000.

Definition rising (qs : list Q) : Prop :=
  forall i x y, qs !! i = Some x -> qs !! S i = Some y ->
    (x + price_step <= y)%Q.

Definition falling (qs : list Q) : Prop :=
  forall i x y, qs !! i = Some x -> qs !! S i = Some y ->
    (y + price_step <= x)%Q.

(** The arithmetic mean of the last [w] of a list of rationals. *)
Definition exact_mean (qs : list Q) (w : nat) : Q :=
  (Qsum (slice_last w qs) / inject_Z (Z.of_nat w))%Q.

(** The percentage by which [a] exceeds [b]. *)
Definition percent_change (a b : Q) : Q := ((a - b) / b * 100)%Q.

End IndicatorNotions.
Export IndicatorNotions.

(** ** stock/analyzer.py: cache maintenance *)

Module StockCache.
Import StockAnalyzer.

(** [clear_cache] *)
Definition clear_cache (this : self_t) : self_t :=
  {| _initialized := _initialized this;
     _stock_cache := None;
     _stock_cache_time := None;
     _current_source := _current_source this |}.

(** The dictionary [get_cache_info] returns: [{"cached": False}], or the
    one with the keys cached (true), cache_age_seconds, cache_ttl_seconds,
    stock_count and data_source. *)
Inductive cache_info : Type :=
  | NotCached
  | Cached (cache_age_seconds : Z) (cache_ttl_seconds : Z)
           (stock_count : nat) (data_source : string).

(** [int((now - then).total_seconds())]: [int] truncates towards zero. *)
Definition whole_seconds (now then_ : datetime) : Z :=
  ((now - then_) ÷ 1000000)%Z.

(** [get_cache_info]; [now] is [datetime.now()].  A [datetime] is always
    true, so the age is 0 only when no time is stored. *)
Definition get_cache_info (now : datetime) (this : self_t) : cache_info :=
  match _stock_cache this with
  | None => NotCached
  | Some cache =>
      let cache_age :=
        match _stock_cache_time this with
        | Some t => whole_seconds now t
        | None => 0%Z
        end in
      Cached cache_age STOCK_CACHE_TTL (df_len cache) (_current_source this)
  end.

End StockCache.

Module FetchNotions.

(** Some attempt of the request that starts with the log [tr] delivers
    the table [df]. *)
Definition delivered_by (net : StockAnalyzer.providers) (tr : list event)
    (df : DataFrame) : Prop :=
  exists i, (i < 3)%nat
    /\ (StockAnalyzer.stock_zh_a_spot_em net (attempts EM tr + i) = Fetched df
        \/ StockAnalyzer.stock_zh_a_spot net (attempts SINA tr + i)
           = Fetched df).

(** A provider whose first call delivers the sample table and whose later
    calls time out. *)
Definition once (df : DataFrame) : provider DataFrame :=
  fun n => match n with O => Fetched df | _ => TimedOut end.

Definition live_network : StockAnalyzer.providers :=
  {| StockAnalyzer.stock_zh_a_spot_em := once sample_table;
     StockAnalyzer.stock_zh_a_spot := fun _ => TimedOut |}.

(** A [StockAnalyzer] whose first use is still to come. *)
Definition fresh_stock : process StockAnalyzer.self_t :=
  {| self := StockAnalyzer.__init__; trace := [] |}.

End FetchNotions.
Export FetchNotions.

(** ** Float comparisons and table selections used by the quote functions *)

Module PyMore.

(** [x <= y] and [x >= y]; any comparison with NaN is false. *)
Definition fle (x y : pyfloat) : bool :=
  match x, y with
  | NaN, _ | _, NaN => false
  | Finite a, Finite b => Qle_bool a b
  | _, _ => negb (flt y x)
  end.

Definition fge (x y : pyfloat) : bool := fle y x.

(** A float literal written in decimal notation denotes that decimal. *)
Definition of_Q (q : Q) : pyfloat := Finite q.

(** The row with cells [row] of a table with the column labels of [df], as
    [iterrows] and [iloc] hand it out. *)
Definition row_series (df : DataFrame) (row : list pyobj) : Series :=
  list_to_map (zip (columns df) row).

(** [cell == value] for a string [value]: a cell that is not a string is
    not equal to one. *)
Definition cell_eq_str (cell : option pyobj) (value : string) : bool :=
  match cell with
  | Some (PyStr s) => String.eqb s value
  | _ => false
  end.

(** [df[df[name] == value]] for a string [value]: the rows whose cell under
    [name] is that string.  [None] stands for the [KeyError] that a table
    without the column [name] raises. *)
Definition df_where_eq (df : DataFrame) (name value : string)
  : option DataFrame :=
  if bool_decide (name ∈ columns df) then
    Some {| columns := columns df;
            cells := List.filter
                       (fun row => cell_eq_str (row_series df row !! name) value)
                       (cells df) |}
  else None.

(** [df.iloc[0]]; [IndexError] on a table without rows. *)
Definition iloc0 (df : DataFrame) : result Series :=
  match cells df with
  | row :: _ => Ok (row_series df row)
  | [] => Raise IndexError
  end.

(** [row.get(name, fallback)] *)
Definition row_get (row : Series) (name : string) (fallback : pyobj) : pyobj :=
  default fallback (row !! name).

End PyMore.
Export PyMore.

(** ** main.py: [FundInfo] and the realtime quote *)

Module FundInfo.

Record t : Type := {
  code : string;
  name : string;
  latest_price : pyfloat;
  change_amount : pyfloat;
  change_rate : pyfloat;
  open_price : pyfloat;
  high_price : pyfloat;
  low_price : pyfloat;
  prev_close : pyfloat;
  volume : pyfloat;
  amount : pyfloat;
  turnover_rate : pyfloat
}.

(** 涨跌符号 *)
Definition change_symbol (this : t) : string :=
  if fgt (change_rate this) (of_Z 0) then "📈"
  else if flt (change_rate this) (of_Z 0) then "📉"
  else "➡️".

(** 趋势表情 *)
Definition trend_emoji (this : t) : string :=
  if fge (change_rate this) (of_Z 3) then "🚀"
  else if fge (change_rate this) (of_Z 1) then "↗️"
  else if fgt (change_rate this) (of_Z 0) then "↑"
  else if fle (change_rate this) (of_Z (-3)) then "💥"
  else if fle (change_rate this) (of_Z (-1)) then "↘️"
  else if flt (change_rate this) (of_Z 0) then "↓"
  else "➡️".

End FundInfo.

Module FundQuotes.
Import FundAnalyzer.

Section WithRuntime.

Variable parse_float : string -> option pyfloat.
Variable builtin_str : pyobj -> string.
Variable strip : string -> string.

(** The [FundInfo(...)] call of [get_lof_realtime], its arguments evaluated
    in the order they are written. *)
Definition fund_info_of_row (row : Series) (fund_code : string)
  : result FundInfo.t :=
  let code_ :=
    match row !! "代码" with Some v => builtin_str v | None => fund_code end in
  let name_ :=
    match row !! "名称" with Some v => builtin_str v | None => "" end in
  latest_price_ ← _safe_float parse_float (cell_or_zero row "最新价")
                     default_float;
  change_amount_ ← _safe_float parse_float (cell_or_zero row "涨跌额")
                      default_float;
  change_rate_ ← _safe_float parse_float (cell_or_zero row "涨跌幅")
                    default_float;
  open_price_ ← _safe_float parse_float (cell_or_zero row "开盘价")
                   default_float;
  high_price_ ← _safe_float parse_float (cell_or_zero row "最高价")
                   default_float;
  low_price_ ← _safe_float parse_float (cell_or_zero row "最低价")
                  default_float;
  prev_close_ ← _safe_float parse_float (cell_or_zero row "昨收")
                   default_float;
  volume_ ← _safe_float parse_float (cell_or_zero row "成交量") default_float;
  amount_ ← _safe_float parse_float (cell_or_zero row "成交额") default_float;
  turnover_rate_ ← _safe_float parse_float (cell_or_zero row "换手率")
                      default_float;
  Ok {| FundInfo.code := code_;
        FundInfo.name := name_;
        FundInfo.latest_price := latest_price_;
        FundInfo.change_amount := change_amount_;
        FundInfo.change_rate := change_rate_;
        FundInfo.open_price := open_price_;
        FundInfo.high_price := high_price_;
        FundInfo.low_price := low_price_;
        FundInfo.prev_close := prev_close_;
        FundInfo.volume := volume_;
        FundInfo.amount := amount_;
        FundInfo.turnover_rate := turnover_rate_ |}.

(** [get_lof_realtime(fund_code)]; [now] is the [datetime.now()] of
    [_get_lof_data].  A table without the column 代码 raises [KeyError]
    inside the [try], which the [except Exception] below it answers with
    [None]: that branch returns [None] directly. *)
Definition get_lof_realtime (akshare_importable : bool) (now : datetime)
    (fund_lof_spot_em : provider DataFrame) (fund_code : option string)
  : coro self_t (option FundInfo.t) :=
  _ensure_init akshare_importable;;
  let fund_code := default DEFAULT_FUND_CODE fund_code in
  coro_try
    (df ← _get_lof_data now fund_lof_spot_em;
     let fund_code := strip fund_code in
     match df_where_eq df "代码" fund_code with
     | None => coro_ret None
     | Some fund_data =>
         if df_empty fund_data then coro_ret None
         else
           row ← coro_lift (iloc0 fund_data);
           info ← coro_lift (fund_info_of_row row fund_code);
           coro_ret (Some info)
     end)
    (fun _ => coro_ret None).

End WithRuntime.

End FundQuotes.

(** ** stock/models.py and the realtime quote of stock/analyzer.py *)

Module StockInfo.

Record t : Type := {
  code : string;
  name : string;
  latest_price : pyfloat;
  change_amount : pyfloat;
  change_rate : pyfloat;
  open_price : pyfloat;
  high_price : pyfloat;
  low_price : pyfloat;
  prev_close : pyfloat;
  volume : pyfloat;
  amount : pyfloat;
  amplitude : pyfloat;
  turnover_rate : pyfloat;
  pe_ratio : pyfloat;
  pb_ratio : pyfloat;
  total_market_cap : pyfloat;
  circulating_market_cap : pyfloat
}.

(** 涨跌符号 *)
Definition change_symbol (this : t) : string :=
  if fgt (change_rate this) (of_Z 0) then "📈"
  else if flt (change_rate this) (of_Z 0) then "📉"
  else "➡️".

(** 趋势表情 *)
Definition trend_emoji (this : t) : string :=
  if fge (change_rate this) (of_Q (99 # 10)) then "🔥涨停"
  else if fge (change_rate this) (of_Z 5) then "🚀"
  else if fge (change_rate this) (of_Z 2) then "↗️"
  else if fgt (change_rate this) (of_Z 0) then "↑"
  else if fle (change_rate this) (of_Q (- 99 # 10)) then "💀跌停"
  else if fle (change_rate this) (of_Z (-5)) then "💥"
  else if fle (change_rate this) (of_Z (-2)) then "↘️"
  else if flt (change_rate this) (of_Z 0) then "↓"
  else "➡️".

End StockInfo.

Module StockQuotes.
Import StockAnalyzer.

Section WithRuntime.

Variable parse_float : string -> option pyfloat.
Variable builtin_str : pyobj -> string.
Variable strip : string -> string.

(** [self._safe_float(row[name] if name in row.index else 0)] *)
Definition cell_float (row : Series) (name : string) : result pyfloat :=
  _safe_float parse_float (cell_or_zero row name) FundAnalyzer.default_float.

(** [self._safe_float(row.get(name, row.get(other, 0)))] *)
Definition cell_float_either (row : Series) (name other : string)
  : result pyfloat :=
  _safe_float parse_float (row_get row name (row_get row other (PyInt 0)))
    FundAnalyzer.default_float.

(** 解析东方财富数据格式 *)
Definition _parse_stock_row_eastmoney (row : Series) (stock_code : string)
  : result StockInfo.t :=
  let code_ :=
    match row !! "代码" with Some v => builtin_str v | None => stock_code end in
  let name_ :=
    match row !! "名称" with Some v => builtin_str v | None => "" end in
  latest_price_ ← cell_float row "最新价";
  change_amount_ ← cell_float row "涨跌额";
  change_rate_ ← cell_float row "涨跌幅";
  open_price_ ← cell_float row "今开";
  high_price_ ← cell_float row "最高";
  low_price_ ← cell_float row "最低";
  prev_close_ ← cell_float row "昨收";
  volume_ ← cell_float row "成交量";
  amount_ ← cell_float row "成交额";
  amplitude_ ← cell_float row "振幅";
  turnover_rate_ ← cell_float row "换手率";
  pe_ratio_ ← cell_float row "市盈率-动态";
  pb_ratio_ ← cell_float row "市净率";
  total_market_cap_ ← cell_float row "总市值";
  circulating_market_cap_ ← cell_float row "流通市值";
  Ok {| StockInfo.code := code_;
        StockInfo.name := name_;
        StockInfo.latest_price := latest_price_;
        StockInfo.change_amount := change_amount_;
        StockInfo.change_rate := change_rate_;
        StockInfo.open_price := open_price_;
        StockInfo.high_price := high_price_;
        StockInfo.low_price := low_price_;
        StockInfo.prev_close := prev_close_;
        StockInfo.volume := volume_;
        StockInfo.amount := amount_;
        StockInfo.amplitude := amplitude_;
        StockInfo.turnover_rate := turnover_rate_;
        StockInfo.pe_ratio := pe_ratio_;
        StockInfo.pb_ratio := pb_ratio_;
        StockInfo.total_market_cap := total_market_cap_;
        StockInfo.circulating_market_cap := circulating_market_cap_ |}.

(** 解析新浪数据格式 *)
Definition _parse_stock_row_sina (row : Series) (stock_code : string)
  : result StockInfo.t :=
  let code_ :=
    match row !! "代码" with Some v => builtin_str v | None => stock_code end in
  let name_ :=
    match row !! "名称" with Some v => builtin_str v | None => "" end in
  latest_price_ ← cell_float_either row "最新价" "trade";
  change_amount_ ← cell_float_either row "涨跌额" "pricechange";
  change_rate_ ← cell_float_either row "涨跌幅" "changepercent";
  open_price_ ← cell_float_either row "今开" "open";
  high_price_ ← cell_float_either row "最高" "high";
  low_price_ ← cell_float_either row "最低" "low";
  prev_close_ ← cell_float_either row "昨收" "settlement";
  volume_ ← cell_float_either row "成交量" "volume";
  amount_ ← cell_float_either row "成交额" "amount";
  amplitude_ ← _safe_float parse_float (row_get row "振幅" (PyInt 0))
                  FundAnalyzer.default_float;
  turnover_rate_ ← cell_float_either row "换手率" "turnoverratio";
  pe_ratio_ ← cell_float_either row "市盈率-动态" "per";
  pb_ratio_ ← cell_float_either row "市净率" "pb";
  total_market_cap_ ← cell_float_either row "总市值" "mktcap";
  circulating_market_cap_ ← cell_float_either row "流通市值" "nmc";
  Ok {| StockInfo.code := code_;
        StockInfo.name := name_;
        StockInfo.latest_price := latest_price_;
        StockInfo.change_amount := change_amount_;
        StockInfo.change_rate := change_rate_;
        StockInfo.open_price := open_price_;
        StockInfo.high_price := high_price_;
        StockInfo.low_price := low_price_;
        StockInfo.prev_close := prev_close_;
        StockInfo.volume := volume_;
        StockInfo.amount := amount_;
        StockInfo.amplitude := amplitude_;
        StockInfo.turnover_rate := turnover_rate_;
        StockInfo.pe_ratio := pe_ratio_;
        StockInfo.pb_ratio := pb_ratio_;
        StockInfo.total_market_cap := total_market_cap_;
        StockInfo.circulating_market_cap := circulating_market_cap_ |}.

(** [get_stock_realtime(stock_code)] for a string [stock_code].  A table
    without the column 代码 raises [KeyError] inside the [try], which the
    [except Exception] answers with [None]: that branch returns [None]
    directly. *)
Definition get_stock_realtime (akshare_importable : bool) (now : datetime)
    (net : providers) (stock_code : string)
  : coro self_t (option StockInfo.t) :=
  let stock_code := strip stock_code in
  coro_try
    (df ← _get_stock_data akshare_importable now net;
     match df_where_eq df "代码" stock_code with
     | None => coro_ret None
     | Some stock_data =>
         if df_empty stock_data then coro_ret None
         else
           row ← coro_lift (iloc0 stock_data);
           this ← get_self;
           info ← coro_lift
                    (if String.eqb (_current_source this) "sina"
                     then _parse_stock_row_sina row stock_code
                     else _parse_stock_row_eastmoney row stock_code);
           coro_ret (Some info)
     end)
    (fun _ => coro_ret None).

End WithRuntime.

End StockQuotes.

Module QuoteNotions.

(** No numeric field of a fund quote is NaN. *)
Definition fund_info_normalised (info : FundInfo.t) : Prop :=
  Forall (fun x => isnan x = false)
    [FundInfo.latest_price info; FundInfo.change_amount info;
     FundInfo.change_rate info; FundInfo.open_price info;
     FundInfo.high_price info; FundInfo.low_price info;
     FundInfo.prev_close info; FundInfo.volume info; FundInfo.amount info;
     FundInfo.turnover_rate info].

(** No numeric field of a stock quote is NaN. *)
Definition stock_info_normalised (info : StockInfo.t) : Prop :=
  Forall (fun x => isnan x = false)
    [StockInfo.latest_price info; StockInfo.change_amount info;
     StockInfo.change_rate info; StockInfo.open_price info;
     StockInfo.high_price info; StockInfo.low_price info;
     StockInfo.prev_close info; StockInfo.volume info; StockInfo.amount info;
     StockInfo.amplitude info; StockInfo.turnover_rate info;
     StockInfo.pe_ratio info; StockInfo.pb_ratio info;
     StockInfo.total_market_cap info;
     StockInfo.circulating_market_cap info].

(** [str] on a string is the string; on anything else, for the examples,
    the empty string. *)
Definition str_of (v : pyobj) : string :=
  match v with PyStr s => s | _ => "" end.

(** The column labels of the secondary provider that the primary one does
    not use. *)
Definition sina_labels : list string :=
  ["trade"; "pricechange"; "changepercent"; "open"; "high"; "low";
   "settlement"; "volume"; "amount"; "turnoverratio"; "per"; "pb";
   "mktcap"; "nmc"].

End QuoteNotions.
Export QuoteNotions.

(** ** main.py: the plugin's formatter of the indicators *)

Module FundAnalyzerPlugin.

(** The line break of the text templates. *)
Definition nl : string := String (Ascii.ascii_of_nat 10) EmptyString.

(** [indicators.get(key, fallback)] *)
Definition get_or (indicators : gmap string pyval) (key : string)
    (fallback : pyval) : pyval :=
  default fallback (indicators !! key).

(** [bool(v)] *)
Definition val_truthy (v : pyval) : bool :=
  match v with
  | VNone => false
  | VFloat f => truthy f
  | VStr s => negb (String.eqb s "")
  end.

(** [a > b]: floats by value, strings by code points (the order of their
    UTF-8 bytes), [TypeError] for any other pair. *)
Definition val_gt (a b : pyval) : result bool :=
  match a, b with
  | VFloat x, VFloat y => Ok (fgt x y)
  | VStr x, VStr y => Ok (String.ltb y x)
  | _, _ => Raise TypeError
  end.

(** The lookup of the trend in the table of emojis, [❓] for what is not a
    key of it. *)
Definition trend_emoji_of (trend : pyval) : string :=
  match trend with
  | VStr s =>
      if String.eqb s "强势上涨" then "🚀"
      else if String.eqb s "上涨趋势" then "📈"
      else if String.eqb s "强势下跌" then "💥"
      else if String.eqb s "下跌趋势" then "📉"
      else if String.eqb s "震荡" then "↔️"
      else "❓"
  | _ => "❓"
  end.

Section WithFormat.

(** [format(x, spec)] and [str(x)] of the interpreter, for a float [x]. *)
Variable format_float : string -> pyfloat -> string.
Variable float_str : pyfloat -> string.

(** [f"{v:spec}"] for the fixed-point specs of the templates: [None]
    rejects every non-empty spec with [TypeError], a string rejects the
    presentation type [f] with [ValueError]. *)
Definition format_spec (spec : string) (v : pyval) : result string :=
  match v with
  | VFloat f => Ok (format_float spec f)
  | VNone => Raise TypeError
  | VStr _ => Raise ValueError
  end.

(** [f"{v}"] *)
Definition val_str (v : pyval) : string :=
  match v with
  | VNone => "None"
  | VFloat f => float_str f
  | VStr s => s
  end.

(** One [if indicators.get(key): ...] block: what it appends to
    [ma_status]. *)
Definition ma_status_entry (label : string) (current : pyval)
    (indicators : gmap string pyval) (key : string) : result (list string) :=
  let ma := get_or indicators key VNone in
  if val_truthy ma then
    above ← val_gt current ma;
    let status := if above : bool then "上" else "下" in
    text ← format_spec ".4f" ma;
    Ok [String.concat "" [label; "("; text; ")"; status]]
  else Ok [].

(** [_format_analysis(info, indicators)].  The template starts and ends
    with a line break, which the final [strip()] removes; nothing else is
    stripped, the text starting and ending with characters that are not
    white space. *)
Definition _format_analysis (info : FundInfo.t)
    (indicators : gmap string pyval) : result string :=
  if (size indicators =? 0)%nat
  then Ok "📊 暂无足够数据进行技术分析"
  else
    let trend_emoji :=
      trend_emoji_of (get_or indicators "trend" (VStr "震荡")) in
    let current := get_or indicators "current_price" (VFloat (of_Z 0)) in
    s5 ← ma_status_entry "MA5" current indicators "ma5";
    s10 ← ma_status_entry "MA10" current indicators "ma10";
    s20 ← ma_status_entry "MA20" current indicators "ma20";
    let ma_status := s5 ++ s10 ++ s20 in
    let trend := val_str (get_or indicators "trend" (VStr "未知")) in
    let ma_line :=
      match ma_status with
      | [] => "数据不足"
      | _ => String.concat " | " ma_status
      end in
    r5 ← format_spec "+.2f" (get_or indicators "return_5d" (VStr "--"));
    r10 ← format_spec "+.2f" (get_or indicators "return_10d" (VStr "--"));
    r20 ← format_spec "+.2f" (get_or indicators "return_20d" (VStr "--"));
    vol ← format_spec ".4f" (get_or indicators "volatility" (VStr "--"));
    hi ← format_spec ".4f" (get_or indicators "high_20d" (VStr "--"));
    lo ← format_spec ".4f" (get_or indicators "low_20d" (VStr "--"));
    Ok (String.concat nl
          [String.concat "" ["📈 【"; FundInfo.name info; "】技术分析"];
           "━━━━━━━━━━━━━━━━━";
           String.concat "" [trend_emoji; " 趋势判断: "; trend];
           "━━━━━━━━━━━━━━━━━";
           "📊 均线分析:";
           String.concat "" ["  • "; ma_line];
           "━━━━━━━━━━━━━━━━━";
           "📈 区间收益率:";
           String.concat "" ["  • 5日收益: "; r5; "%"];
           String.concat "" ["  • 10日收益: "; r10; "%"];
           String.concat "" ["  • 20日收益: "; r20; "%"];
           "━━━━━━━━━━━━━━━━━";
           "📉 波动分析:";
           String.concat "" ["  • 20日波动率: "; vol];
           String.concat "" ["  • 20日最高: "; hi];
           String.concat "" ["  • 20日最低: "; lo];
           "━━━━━━━━━━━━━━━━━";
           "💡 投资建议: 请结合自身风险承受能力谨慎投资"]).

End WithFormat.

End FundAnalyzerPlugin.

Module FormatNotions.

(** The entries that [_format_analysis] prints with a sign or to four
    places whether or not they hold a number. *)
Definition performance_keys : list string :=
  ["return_5d"; "return_10d"; "return_20d"; "volatility"].

(** A quote with the name [name] and every price 0. *)
Definition fund_named (name : string) : FundInfo.t :=
  {| FundInfo.code := "161226";
     FundInfo.name := name;
     FundInfo.latest_price := Finite 0;
     FundInfo.change_amount := Finite 0;
     FundInfo.change_rate := Finite 0;
     FundInfo.open_price := Finite 0;
     FundInfo.high_price := Finite 0;
     FundInfo.low_price := Finite 0;
     FundInfo.prev_close := Finite 0;
     FundInfo.volume := Finite 0;
     FundInfo.amount := Finite 0;
     FundInfo.turnover_rate := Finite 0 |}.

End FormatNotions.
Export FormatNotions.

(** ** Searching the tables: [search_fund] and [search_stock] *)

Module Search.

(** [df[name]]: the cells of a column; [None] stands for the [KeyError] of
    a table without it. *)
Definition df_column (df : DataFrame) (name : string)
  : option (list pyobj) :=
  if bool_decide (name ∈ columns df) then
    Some (map (fun row => default PyNone (row_series df row !! name))
              (cells df))
  else None.

(** [df[mask]] for a boolean mask; [None] stands for the error pandas
    raises when the mask does not have one entry per row. *)
Definition df_where (df : DataFrame) (mask : list bool) : option DataFrame :=
  if (length mask =? length (cells df))%nat then
    Some {| columns := columns df;
            cells := map fst (List.filter snd (zip (cells df) mask)) |}
  else None.

(** [df.head(n)]: the first [n] rows; for negative [n] every row but the
    last [|n|]. *)
Definition df_head (n : Z) (df : DataFrame) : DataFrame :=
  {| columns := columns df;
     cells :=
       if (0 <=? n)%Z
       then take (Z.to_nat n) (cells df)
       else take (length (cells df) - Z.to_nat (- n)) (cells df) |}.

(** The loop [for _, row in results.iterrows(): ...append(entry(row))] and
    the list comprehension over the same rows. *)
Fixpoint for_rows {A : Type} (entry : Series -> result A) (rows : list Series)
  : result (list A) :=
  match rows with
  | [] => Ok []
  | row :: rest =>
      a ← entry row;
      l ← for_rows entry rest;
      Ok (a :: l)
  end.

(** The value of an expression inside a [try] whose handler does not look
    at the exception. *)
Definition caught {A : Type} (r : result A) : option A :=
  match r with
  | Ok a => Some a
  | Raise _ => None
  end.

(** One entry of the list [search_fund] returns (keys code, name,
    latest_price, change_rate) and of the list [search_stock] returns
    (keys code, name, price, change_rate). *)
Record hit : Type := {
  code : string;
  name : string;
  price : pyfloat;
  change_rate : pyfloat
}.

Section WithRuntime.

Variable parse_float : string -> option pyfloat.
Variable builtin_str : pyobj -> string.

(** [column.str.contains(keyword, case=case, na=False)] of pandas: one
    boolean per cell, or [None] when it raises (a keyword that is not a
    regular expression, a column that holds no strings). *)
Variable str_contains : list pyobj -> string -> bool -> option (list bool).

(** The mask [df["代码"].str.contains(...) | df["名称"].str.contains(...)];
    [None] when one of its steps raises. *)
Definition keyword_mask (df : DataFrame) (keyword : string) (case : bool)
  : option (list bool) :=
  codes ← df_column df "代码";
  by_code ← str_contains codes keyword case;
  names ← df_column df "名称";
  by_name ← str_contains names keyword case;
  if (length by_code =? length by_name)%nat
  then Some (zip_with orb by_code by_name)
  else None.

(** The dictionary [search_fund] builds for one row. *)
Definition fund_hit (row : Series) : result hit :=
  let code_ :=
    match row !! "代码" with Some v => builtin_str v | None => "" end in
  let name_ :=
    match row !! "名称" with Some v => builtin_str v | None => "" end in
  latest_price_ ← FundAnalyzer._safe_float parse_float
                     (cell_or_zero row "最新价") FundAnalyzer.default_float;
  change_rate_ ← FundAnalyzer._safe_float parse_float
                    (cell_or_zero row "涨跌幅") FundAnalyzer.default_float;
  Ok {| code := code_; name := name_; price := latest_price_;
        change_rate := change_rate_ |}.

(** [search_fund(keyword)].  Each step of the [try] block that raises is
    answered by the [except Exception] with the empty list; the steps
    modelled by [None] return it directly. *)
Definition search_fund (akshare_importable : bool) (now : datetime)
    (fund_lof_spot_em : provider DataFrame) (keyword : string)
  : coro FundAnalyzer.self_t (list hit) :=
  FundAnalyzer._ensure_init akshare_importable;;
  coro_try
    (df ← FundAnalyzer._get_lof_data now fund_lof_spot_em;
     match keyword_mask df keyword true with
     | None => coro_ret []
     | Some mask =>
         match df_where df mask with
         | None => coro_ret []
         | Some matched =>
             let results := df_head 10 matched in
             coro_lift (for_rows fund_hit (iterrows results))
         end
     end)
    (fun _ => coro_ret []).

(** The dictionary [search_stock] builds for one row.  [row["代码"]] and
    [row["名称"]] raise [KeyError] on a row without the label, and
    [_safe_float] may raise: [None] stands for an entry whose construction
    raises, all of which the one [except Exception] answers alike. *)
Definition stock_hit (row : Series) : option hit :=
  code_ ← builtin_str <$> row !! "代码";
  name_ ← builtin_str <$> row !! "名称";
  price_ ← caught (FundAnalyzer._safe_float parse_float
                     (row_get row "最新价" (row_get row "trade" (PyInt 0)))
                     FundAnalyzer.default_float);
  change_rate_ ← caught (FundAnalyzer._safe_float parse_float
                           (row_get row "涨跌幅"
                              (row_get row "changepercent" (PyInt 0)))
                           FundAnalyzer.default_float);
  Some {| code := code_; name := name_; price := price_;
          change_rate := change_rate_ |}.

(** [search_stock(keyword, max_results)] *)
Definition search_stock (akshare_importable : bool) (now : datetime)
    (net : StockAnalyzer.providers) (keyword : string) (max_results : Z)
  : coro StockAnalyzer.self_t (list hit) :=
  coro_try
    (df ← StockAnalyzer._get_stock_data akshare_importable now net;
     match keyword_mask df keyword false with
     | None => coro_ret []
     | Some mask =>
         match df_where df mask with
         | None => coro_ret []
         | Some matched =>
             let results := df_head max_results matched in
             coro_ret (default [] (mapM stock_hit (iterrows results)))
         end
     end)
    (fun _ => coro_ret []).

End WithRuntime.

End Search.

Module SearchNotions.

(** A stand-in for [str.contains]: the cell is a string that has the
    keyword as a prefix. *)
Definition starts_with (cells : list pyobj) (keyword : string) (case : bool)
  : option (list bool) :=
  Some (map (fun c => match c with
                      | PyStr s => String.prefix keyword s
                      | _ => false
                      end) cells).

End SearchNotions.
Export SearchNotions.

(** ** ai_analyzer/factors.py *)

Module Factors.

(** [FactorInfo]: [factors] keeps the categories in the order they are
    written, which is the order a dictionary iterates in. *)
Record FactorInfo : Type := {
  type : string;
  underlying : string;
  factors : list (string * list string)
}.

(** 基金类型关键词映射配置, in the order of the source. *)
Definition FUND_TYPE_FACTORS : list (string * FactorInfo) :=
  [("白银",
    {| type := "贵金属";
       underlying := "白银期货";
       factors :=
         [("商品价格", ["白银价格走势"; "COMEX白银"; "上海白银期货"]);
          ("宏观经济", ["美联储利率决议"; "美元指数走势"; "通胀数据"]);
          ("地缘政治", ["地缘政治风险"; "避险情绪"]);
          ("供需关系", ["白银工业需求"; "光伏白银需求"; "白银产量"]);
          ("市场情绪", ["贵金属ETF持仓"; "白银投资需求"])] |});
   ("黄金",
    {| type := "贵金属";
       underlying := "黄金期货";
       factors :=
         [("商品价格", ["黄金价格走势"; "COMEX黄金"; "上海金"]);
          ("宏观经济", ["美联储利率"; "美元走势"; "实际利率"]);
          ("地缘政治", ["地缘风险"; "避险需求"]);
          ("央行政策", ["央行购金"; "黄金储备"]);
          ("市场情绪", ["黄金ETF持仓"; "投资需求"])] |});
   ("原油|石油",
    {| type := "能源";
       underlying := "原油期货";
       factors :=
         [("商品价格", ["原油价格"; "WTI原油"; "布伦特原油"]);
          ("供需关系", ["OPEC减产"; "原油库存"; "美国页岩油"]);
          ("宏观经济", ["全球经济增长"; "制造业PMI"]);
          ("地缘政治", ["中东局势"; "俄乌冲突"])] |});
   ("医药|医疗|生物",
    {| type := "医药行业";
       underlying := "医药股票";
       factors :=
         [("政策因素", ["医药集采"; "医保谈判"; "药品审批"]);
          ("行业动态", ["创新药研发"; "医药企业业绩"]);
          ("市场情绪", ["医药板块资金流向"])] |});
   ("科技|芯片|半导体",
    {| type := "科技行业";
       underlying := "科技股票";
       factors :=
         [("产业政策", ["芯片政策"; "科技自主"]);
          ("行业周期", ["半导体周期"; "消费电子需求"]);
          ("国际贸易", ["芯片出口管制"; "科技摩擦"])] |});
   ("消费|食品|白酒",
    {| type := "消费行业";
       underlying := "消费股票";
       factors :=
         [("宏观数据", ["社会消费品零售"; "CPI数据"]);
          ("政策因素", ["促消费政策"; "消费补贴"]);
          ("企业业绩", ["消费龙头业绩"; "白酒销售"])] |});
   ("新能源|光伏|锂电",
    {| type := "新能源行业";
       underlying := "新能源股票";
       factors :=
         [("产业政策", ["新能源补贴"; "碳中和政策"]);
          ("供需关系", ["锂价走势"; "硅料价格"; "装机量"]);
          ("技术进步", ["电池技术"; "光伏效率"])] |});
   ("银行|金融",
    {| type := "金融行业";
       underlying := "银行股票";
       factors :=
         [("货币政策", ["LPR利率"; "存款准备金率"]);
          ("宏观经济", ["GDP增速"; "信贷数据"]);
          ("监管政策", ["金融监管"; "资本充足率"])] |});
   ("房地产|地产",
    {| type := "房地产行业";
       underlying := "地产股票";
       factors :=
         [("政策因素", ["房地产政策"; "限购限贷"]);
          ("市场数据", ["房价走势"; "销售数据"]);
          ("资金链", ["房企融资"; "债务风险"])] |});
   ("军工|国防",
    {| type := "军工行业";
       underlying := "军工股票";
       factors :=
         [("国防预算", ["军费开支"; "国防预算"]);
          ("地缘局势", ["周边安全形势"; "国际关系"]);
          ("订单交付", ["军工订单"; "装备交付"])] |})].

(** 默认因素（通用） *)
Definition DEFAULT_FACTORS : FactorInfo :=
  {| type := "综合";
     underlying := "多元资产";
     factors :=
       [("宏观经济", ["宏观经济数据"; "GDP增速"; "PMI数据"]);
        ("政策因素", ["货币政策"; "财政政策"]);
        ("市场情绪", ["A股市场走势"; "资金流向"])] |}.

Section WithRegex.

(** [re.search(pattern, text)] finds a match. *)
Variable re_search : string -> string -> bool.

(** [get_factors(fund_name)]: the entry of the first pattern, in the order
    of the table, that the name matches. *)
Definition get_factors (fund_name : string) : FactorInfo :=
  match List.find (fun entry => re_search (fst entry) fund_name)
          FUND_TYPE_FACTORS with
  | Some entry => snd entry
  | None => DEFAULT_FACTORS
  end.

(** [get_search_keywords(fund_name)] *)
Definition get_search_keywords (fund_name : string) : list string :=
  let factors_ := get_factors fund_name in
  let keywords :=
    (if String.eqb (underlying factors_) "" then []
     else [underlying factors_])
    ++ flat_map (fun category => take 2 (snd category)) (factors factors_) in
  take 10 keywords.

End WithRegex.

End Factors.

(** * Properties *)

(** ** Exceptions and arithmetic *)

(** Exposes the plumbing of a coroutine applied to a process. *)
Ltac coro_unfold :=
  unfold mbind, coro_mbind, coro_bind, coro_try, get_self, set_self,
    coro_ret, coro_raise, coro_lift, await_provider, asyncio_sleep;
  cbn [fst snd self trace].

Lemma bind_Ok_inv {A B : Type} (m : result A) (k : A -> result B) (b : B) :
  m ≫= k = Ok b -> exists a, m = Ok a /\ k a = Ok b.
Proof.
  destruct m as [a|e]; cbn; intros H; [eauto | discriminate].
Qed.

Lemma bind_Raise {A B : Type} (m : result A) (k : A -> result B) (e : exn) :
  m = Raise e -> m ≫= k = Raise e.
Proof. intros ->. reflexivity. Qed.

Lemma bind_Ok {A B : Type} (m : result A) (k : A -> result B) (a : A) :
  m = Ok a -> m ≫= k = k a.
Proof. intros ->. reflexivity. Qed.

Lemma is_zero_of_nat (n : nat) : (0 < n)%nat -> is_zero (of_nat n) = false.
Proof.
  destruct n as [|n]; [lia|]. intros _. reflexivity.
Qed.

Lemma fdiv_of_nat (x : pyfloat) (n : nat) :
  (0 < n)%nat -> fdiv x (of_nat n) = Ok (fquot x (of_nat n)).
Proof.
  intros Hn. unfold fdiv. rewrite is_zero_of_nat by exact Hn. reflexivity.
Qed.

Lemma fdiv_zero (x y : pyfloat) :
  is_zero y = true -> fdiv x y = Raise ZeroDivisionError.
Proof. intros H. unfold fdiv. rewrite H. reflexivity. Qed.

Lemma index_from_end_Ok {A : Type} (data : list A) (k : nat) :
  (1 <= k <= length data)%nat ->
  exists x, index_from_end data k = Ok x
            /\ data !! (length data - k)%nat = Some x.
Proof.
  intros [Hk Hlen]. unfold index_from_end.
  destruct (Nat.eqb_spec k 0) as [->|_]; [lia|].
  destruct (Nat.ltb_spec (length data) k) as [?|_]; [lia|]. cbn.
  destruct (data !! (length data - k)%nat) as [x|] eqn:E; [eauto|].
  apply lookup_ge_None in E. lia.
Qed.

Lemma length_slice_last {A : Type} (k : nat) (data : list A) :
  (1 <= k <= length data)%nat -> length (slice_last k data) = k.
Proof.
  intros [Hk Hlen]. destruct k as [|k]; [lia|].
  cbn [slice_last]. rewrite length_drop. lia.
Qed.

(** ** Rounding to binary64 *)

Lemma round_half_even_nonneg (q : Q) :
  (0 <= q)%Q -> (0 <= round_half_even q)%Z.
Proof.
  destruct q as [n d]. intros Hq.
  assert (Hn : (0 <= n)%Z) by (unfold Qle in Hq; cbn in Hq; lia).
  unfold round_half_even. cbn [Qnum Qden].
  assert (Hf : (0 <= n / Z.pos d)%Z) by (apply Z.div_pos; lia).
  destruct (2 * (n mod Z.pos d) ?= Z.pos d)%Z;
    [destruct (Z.even (n / Z.pos d))|..]; lia.
Qed.

Lemma pow2_pos (e : Z) : (0 < pow2 e)%Q.
Proof. apply Qpower_0_lt. reflexivity. Qed.

(** What [round64] returns is never NaN. *)
Lemma round64_not_nan (q : Q) : isnan (round64 q) = false.
Proof.
  unfold round64. destruct (Qeq_bool q 0); [reflexivity|]. cbv zeta.
  destruct (_ || _); [destruct (Qle_bool 0 q)|]; reflexivity.
Qed.

(** Rounding keeps the sign. *)
Lemma round64_nonneg (q : Q) : (0 <= q)%Q -> nonneg (round64 q).
Proof.
  intros Hq. unfold round64. destruct (Qeq_bool q 0); [cbn; lra|].
  cbv zeta. assert (Hle : Qle_bool 0 q = true) by (apply Qle_bool_iff, Hq).
  rewrite Hle. destruct (_ || _); [exact I|]. cbn [nonneg].
  rewrite Qred_correct.
  apply Qmult_le_0_compat; [|apply Qlt_le_weak, pow2_pos].
  change 0%Q with (inject_Z 0). rewrite <- Zle_Qle.
  apply round_half_even_nonneg.
  apply Qle_shift_div_l; [apply pow2_pos|].
  rewrite Qmult_0_l. apply Qabs_nonneg.
Qed.

(** Zero rounds to zero. *)
Lemma round64_zero (q : Q) : (q == 0)%Q -> round64 q = Finite 0.
Proof.
  intros H. unfold round64.
  assert (E : Qeq_bool q 0 = true) by (apply Qeq_bool_iff, H).
  rewrite E. reflexivity.
Qed.

(** ** Technical indicators *)

Section Indicators.
Import FundAnalyzer.

Lemma sma_short (data : list pyfloat) (w : nat) :
  (length data < w)%nat -> sma data w = Ok None.
Proof.
  intros H. unfold sma.
  destruct (Nat.ltb_spec (length data) w); [reflexivity | lia].
Qed.

Lemma sma_long (data : list pyfloat) (w : nat) :
  (0 < w <= length data)%nat -> sma data w = Ok (Some (window_mean data w)).
Proof.
  intros [Hw H]. unfold sma.
  destruct (Nat.ltb_spec (length data) w); [lia|].
  rewrite fdiv_of_nat by exact Hw. reflexivity.
Qed.

(** Under 5 bars the function stops at its first test. *)
Lemma indicators_short (history_data : list bar) :
  (length history_data < 5)%nat ->
  calculate_technical_indicators history_data = Ok ∅.
Proof.
  intros H. unfold calculate_technical_indicators.
  destruct (Nat.ltb_spec (length history_data) 5) as [_|?]; [|lia].
  rewrite orb_true_r. reflexivity.
Qed.

Lemma sma_sma_value (data : list pyfloat) (w : nat) :
  (0 < w)%nat -> sma data w = Ok (sma_value data w).
Proof.
  intros Hw. unfold sma_value.
  destruct (Nat.ltb_spec (length data) w).
  - apply sma_short; lia.
  - apply sma_long; lia.
Qed.

(** From 5 bars on the function is the chain of its fallible steps. *)
Lemma indicators_long (history_data : list bar) :
  (5 <= length history_data)%nat ->
  let closes := map close history_data in
  calculate_technical_indicators history_data =
    (current_price ← index_from_end closes 1;
     r5 ← return_field closes 5;
     r10 ← return_field closes 10;
     r20 ← return_field closes 20;
     vol ← volatility_field closes;
     hi ← high_20d_field closes;
     lo ← low_20d_field closes;
     Ok (indicator_mapping closes current_price r5 r10 r20 vol hi lo)).
Proof.
  intros Hlen closes. unfold calculate_technical_indicators.
  destruct (Nat.eqb_spec (length history_data) 0) as [?|_]; [lia|].
  destruct (Nat.ltb_spec (length history_data) 5) as [?|_]; [lia|].
  cbn [orb]. fold closes.
  rewrite !sma_sma_value by lia. cbn [mbind result_bind].
  destruct closes as [|c0 closes'] eqn:Ecl; [|reflexivity].
  apply (f_equal length) in Ecl. subst closes.
  rewrite length_map in Ecl. cbn in Ecl. lia.
Qed.

(** Runs the function on a concrete series of 5 bars or more. *)
Ltac run_indicators :=
  rewrite indicators_long by (vm_compute; lia);
  cbv -[indicator_mapping]; reflexivity.

(** A call that returns on 5 bars or more built the full mapping, each
    entry from the step that computes it. *)
Lemma indicators_Ok_inv (history_data : list bar) (m : gmap string pyval) :
  (5 <= length history_data)%nat ->
  calculate_technical_indicators history_data = Ok m ->
  let closes := map close history_data in
  exists current_price r5 r10 r20 vol hi lo,
    index_from_end closes 1 = Ok current_price
    /\ return_field closes 5 = Ok r5
    /\ return_field closes 10 = Ok r10
    /\ return_field closes 20 = Ok r20
    /\ volatility_field closes = Ok vol
    /\ high_20d_field closes = Ok hi
    /\ low_20d_field closes = Ok lo
    /\ m = indicator_mapping closes current_price r5 r10 r20 vol hi lo.
Proof.
  intros Hlen H closes. rewrite indicators_long in H by exact Hlen.
  fold closes in H.
  apply bind_Ok_inv in H as (cp & Hcp & H).
  apply bind_Ok_inv in H as (r5 & Hr5 & H).
  apply bind_Ok_inv in H as (r10 & Hr10 & H).
  apply bind_Ok_inv in H as (r20 & Hr20 & H).
  apply bind_Ok_inv in H as (vol & Hvol & H).
  apply bind_Ok_inv in H as (hi & Hhi & H).
  apply bind_Ok_inv in H as (lo & Hlo & H).
  injection H as <-.
  exists cp, r5, r10, r20, vol, hi, lo. repeat split; assumption.
Qed.

(** [calculate_return] fails in one way only, on a zero base price. *)
Lemma calculate_return_cases (data : list pyfloat) (d : nat) :
  (exists o, calculate_return data d = Ok o)
  \/ calculate_return data d = Raise ZeroDivisionError.
Proof.
  unfold calculate_return.
  destruct (Nat.ltb_spec (length data) (d + 1)) as [?|Hlen]; [eauto|].
  destruct (index_from_end_Ok data 1) as (x & -> & _); [lia|].
  destruct (index_from_end_Ok data (d + 1)) as (y & -> & _); [lia|].
  cbn [mbind result_bind]. unfold fdiv.
  destruct (is_zero y); cbn [mbind result_bind]; eauto.
Qed.

Lemma calculate_return_zero_base (data : list pyfloat) (d : nat)
    (base : pyfloat) :
  (d + 1 <= length data)%nat ->
  data !! (length data - (d + 1))%nat = Some base ->
  is_zero base = true ->
  calculate_return data d = Raise ZeroDivisionError.
Proof.
  intros Hlen Hbase Hz. unfold calculate_return.
  destruct (Nat.ltb_spec (length data) (d + 1)) as [?|_]; [lia|].
  destruct (index_from_end_Ok data 1) as (x & -> & _); [lia|].
  destruct (index_from_end_Ok data (d + 1)) as (y & -> & Hy); [lia|].
  assert (y = base) as -> by congruence.
  cbn [mbind result_bind]. rewrite fdiv_zero by exact Hz. reflexivity.
Qed.

Lemma return_field_cases (closes : list pyfloat) (d : nat) :
  (exists v, return_field closes d = Ok v)
  \/ return_field closes d = Raise ZeroDivisionError.
Proof.
  unfold return_field.
  destruct (calculate_return_cases closes d) as [[o ->]| ->]; [|now right].
  cbn [mbind result_bind].
  destruct o as [r|]; cbn [opt_truthy]; [|eauto].
  destruct (truthy r); eauto.
Qed.

Lemma return_field_zero_base (closes : list pyfloat) (d : nat)
    (base : pyfloat) :
  (d + 1 <= length closes)%nat ->
  closes !! (length closes - (d + 1))%nat = Some base ->
  is_zero base = true ->
  return_field closes d = Raise ZeroDivisionError.
Proof.
  intros Hlen Hbase Hz. unfold return_field.
  rewrite (calculate_return_zero_base closes d base) by assumption.
  reflexivity.
Qed.

(** What each key of the returned mapping holds. *)
Lemma indicator_mapping_lookup (closes : list pyfloat) (cp : pyfloat)
    (r5 r10 r20 vol hi lo : pyval) :
  let m := indicator_mapping closes cp r5 r10 r20 vol hi lo in
  m !! "ma5" = Some (ma_field (sma_value closes 5))
  /\ m !! "ma10" = Some (ma_field (sma_value closes 10))
  /\ m !! "ma20" = Some (ma_field (sma_value closes 20))
  /\ m !! "return_5d" = Some r5
  /\ m !! "return_10d" = Some r10
  /\ m !! "return_20d" = Some r20
  /\ m !! "volatility" = Some vol
  /\ m !! "high_20d" = Some hi
  /\ m !! "low_20d" = Some lo
  /\ m !! "trend" = Some (VStr (classify_trend cp (sma_value closes 5)
                                  (sma_value closes 10) (sma_value closes 20)))
  /\ m !! "current_price" = Some (VFloat cp).
Proof. cbv zeta. unfold indicator_mapping. repeat split. Qed.

Lemma return_field_short (closes : list pyfloat) (d : nat) :
  (length closes < d + 1)%nat -> return_field closes d = Ok VNone.
Proof.
  intros H. unfold return_field, calculate_return.
  destruct (Nat.ltb_spec (length closes) (d + 1)); [reflexivity | lia].
Qed.

Lemma volatility_field_short (closes : list pyfloat) :
  (length closes < 20)%nat -> volatility_field closes = Ok VNone.
Proof.
  intros H. unfold volatility_field, calculate_volatility.
  destruct (Nat.ltb_spec (length closes) 20); [reflexivity | lia].
Qed.

Lemma sma_value_short (closes : list pyfloat) (w : nat) :
  (length closes < w)%nat -> sma_value closes w = None.
Proof.
  intros H. unfold sma_value.
  destruct (Nat.ltb_spec (length closes) w); [reflexivity | lia].
Qed.

Lemma sma_value_long (closes : list pyfloat) (w : nat) :
  (w <= length closes)%nat -> sma_value closes w = Some (window_mean closes w).
Proof.
  intros H. unfold sma_value.
  destruct (Nat.ltb_spec (length closes) w); [lia | reflexivity].
Qed.

(** C9.  For every history list with fewer than 5 entries, the empty list
    included, [calculate_technical_indicators] returns the empty mapping:
    no indicator field, no trend label, no current price. *)
Theorem C9_short_history_empty (history_data : list bar) :
  (length history_data < 5)%nat ->
  calculate_technical_indicators history_data = Ok ∅.
Proof. apply indicators_short. Qed.

Lemma C9_short_history_empty_witness :
  (length (series [1; 2; 3; 4]%Q) < 5)%nat
  /\ calculate_technical_indicators (series [1; 2; 3; 4]%Q) = Ok ∅.
Proof.
  split; [cbn; lia|].
  apply (C9_short_history_empty (series [1; 2; 3; 4]%Q)). cbn. lia.
Defined.

(** C1.  The claim that the function never raises fails: whenever the
    series reaches back [d + 1] bars, for [d] one of 5, 10 and 20, and the
    close [d + 1] bars back is zero, the call raises [ZeroDivisionError]
    instead of reporting the [d]-day return absent. *)
Theorem C1_zero_base_close_raises (history_data : list bar) (d : nat)
    (b : bar) :
  d = 5%nat \/ d = 10%nat \/ d = 20%nat ->
  (d + 1 <= length history_data)%nat ->
  history_data !! (length history_data - (d + 1))%nat = Some b ->
  is_zero (close b) = true ->
  calculate_technical_indicators history_data = Raise ZeroDivisionError.
Proof.
  intros Hd Hlen Hb Hz.
  rewrite indicators_long by lia. cbv zeta.
  set (closes := map close history_data).
  assert (Hcl : length closes = length history_data)
    by (unfold closes; apply length_map).
  assert (Hbase : closes !! (length closes - (d + 1))%nat = Some (close b)).
  { rewrite Hcl. unfold closes. rewrite list_lookup_fmap, Hb. reflexivity. }
  assert (Hraise : return_field closes d = Raise ZeroDivisionError).
  { apply (return_field_zero_base closes d (close b)); [lia | assumption..]. }
  destruct (index_from_end_Ok closes 1) as (cp & -> & _); [lia|].
  cbn [mbind result_bind].
  destruct Hd as [-> | [-> | ->]].
  - rewrite Hraise. reflexivity.
  - destruct (return_field_cases closes 5) as [[v ->]| ->]; [|reflexivity].
    cbn [mbind result_bind]. rewrite Hraise. reflexivity.
  - destruct (return_field_cases closes 5) as [[v ->]| ->]; [|reflexivity].
    cbn [mbind result_bind].
    destruct (return_field_cases closes 10) as [[v' ->]| ->]; [|reflexivity].
    cbn [mbind result_bind]. rewrite Hraise. reflexivity.
Qed.

Lemma C1_zero_base_close_raises_witness :
  calculate_technical_indicators (series [0; 1; 1; 1; 1; 1]%Q)
  = Raise ZeroDivisionError.
Proof.
  apply (C1_zero_base_close_raises (series [0; 1; 1; 1; 1; 1]%Q) 5
           (bar_at 0)).
  - left. reflexivity.
  - cbn. lia.
  - reflexivity.
  - reflexivity.
Defined.

(** C2, as amended.  When the call returns, every moving average, every
    percentage return and the volatility are absent for a series shorter
    than their window ([w] bars for MA[w], [d + 1] for the [d]-day return,
    20 for the volatility).  The 20-day high and low are not: from 5 to 19
    bars they are the maximum and minimum of all the closes there are. *)
Theorem C2_short_window_fields (history_data : list bar)
    (m : gmap string pyval) :
  calculate_technical_indicators history_data = Ok m ->
  let closes := map close history_data in
  let n := length history_data in
  (forall w, w = 5%nat \/ w = 10%nat \/ w = 20%nat ->
             (n < w)%nat -> is_absent m (ma_key w))
  /\ (forall d, d = 5%nat \/ d = 10%nat \/ d = 20%nat ->
                (n < d + 1)%nat -> is_absent m (return_key d))
  /\ ((n < 20)%nat -> is_absent m "volatility")
  /\ ((5 <= n < 20)%nat ->
      exists hi lo, py_max closes = Ok hi /\ py_min closes = Ok lo
                    /\ m !! "high_20d" = Some (VFloat hi)
                    /\ m !! "low_20d" = Some (VFloat lo)).
Proof.
  intros H closes n.
  destruct (Nat.ltb_spec n 5) as [Hshort|Hlong].
  - rewrite indicators_short in H by exact Hshort. injection H as <-.
    repeat split; intros; try (left; apply lookup_empty). lia.
  - destruct (indicators_Ok_inv _ _ Hlong H)
      as (cp & r5 & r10 & r20 & vol & hi & lo
          & Hcp & H5 & H10 & H20 & Hvol & Hhi & Hlo & ->).
    fold closes in Hcp, H5, H10, H20, Hvol, Hhi, Hlo |- *.
    assert (Hn : length closes = n) by (unfold closes; apply length_map).
    destruct (indicator_mapping_lookup closes cp r5 r10 r20 vol hi lo)
      as (L1 & L2 & L3 & L4 & L5 & L6 & L7 & L8 & L9 & _).
    repeat split.
    + intros w [-> | [-> | ->]] Hw; right; cbn [ma_key];
        [rewrite L1 | rewrite L2 | rewrite L3];
        rewrite sma_value_short by lia; reflexivity.
    + intros d [-> | [-> | ->]] Hd; right; cbn [return_key].
      * rewrite return_field_short in H5 by lia. congruence.
      * rewrite return_field_short in H10 by lia. congruence.
      * rewrite return_field_short in H20 by lia. congruence.
    + intros Hv. right.
      rewrite volatility_field_short in Hvol by lia. congruence.
    + intros [_ Hlt]. unfold high_20d_field in Hhi. unfold low_20d_field in Hlo.
      destruct (Nat.leb_spec 20 (length closes)) as [?|_]; [lia|].
      apply bind_Ok_inv in Hhi as (x & Hx & Ex).
      apply bind_Ok_inv in Hlo as (y & Hy & Ey).
      injection Ex as <-. injection Ey as <-.
      exists x, y. auto.
Qed.

Lemma C2_short_window_fields_witness :
  let h := series [3; 1; 2; 5; 4]%Q in
  let m := indicator_mapping (map close h) (Finite 4) VNone VNone VNone VNone
             (VFloat (Finite 5)) (VFloat (Finite 1)) in
  calculate_technical_indicators h = Ok m
  /\ is_absent m "ma10" /\ is_absent m "return_5d"
  /\ is_absent m "volatility"
  /\ m !! "high_20d" = Some (VFloat (Finite 5))
  /\ m !! "low_20d" = Some (VFloat (Finite 1)).
Proof.
  intros h m.
  assert (Hrun : calculate_technical_indicators h = Ok m) by run_indicators.
  destruct (C2_short_window_fields h m Hrun) as (Hma & Hret & Hvol & Hhl).
  split; [exact Hrun|].
  split; [apply (Hma 10%nat); [tauto | cbn; lia]|].
  split; [apply (Hret 5%nat); [tauto | cbn; lia]|].
  split; [apply Hvol; cbn; lia|].
  split; reflexivity.
Defined.

(** C2 as stated fails: on 5 bars the 20-day high and low are present,
    computed on the 5 closes there are. *)
Lemma C2_counterexample :
  ~ (forall history_data m,
       calculate_technical_indicators history_data = Ok m ->
       (length history_data < 20)%nat ->
       is_absent m "high_20d" /\ is_absent m "low_20d").
Proof.
  intros claim.
  destruct (claim (series [3; 1; 2; 5; 4]%Q)
              (indicator_mapping (map close (series [3; 1; 2; 5; 4]%Q))
                 (Finite 4) VNone VNone VNone VNone
                 (VFloat (Finite 5)) (VFloat (Finite 1))))
    as [[Habs|Habs] _].
  - run_indicators.
  - cbn. lia.
  - discriminate Habs.
  - discriminate Habs.
Qed.

(** [<] on floats is asymmetric. *)
Lemma flt_asym (x y : pyfloat) : flt x y = true -> flt y x = false.
Proof.
  destruct x as [a| | |], y as [b| | |]; cbn; try congruence.
  unfold Qltb. rewrite !negb_true_iff, negb_false_iff.
  intros H. apply Qle_bool_iff.
  destruct (Qlt_le_dec a b) as [Hlt|Hle]; [apply Qlt_le_weak, Hlt|].
  apply Qle_bool_iff in Hle. congruence.
Qed.

(** A moving-average entry that is a number comes from a true average. *)
Lemma ma_field_present (o : option pyfloat) (v : pyfloat) :
  ma_field o = VFloat v -> exists a, o = Some a /\ truthy a = true.
Proof.
  destruct o as [a|]; cbn; [|discriminate].
  destruct (truthy a) eqn:E; [eauto | discriminate].
Qed.

Lemma ma_field_absent (o : option pyfloat) :
  ma_field o = VNone -> opt_truthy o = false.
Proof.
  destruct o as [a|]; cbn; [|reflexivity].
  destruct (truthy a); [discriminate | reflexivity].
Qed.

Lemma classify_trend_absent (cp : pyfloat) (o5 o10 o20 : option pyfloat) :
  opt_truthy o5 = false \/ opt_truthy o10 = false \/ opt_truthy o20 = false ->
  classify_trend cp o5 o10 o20 = "震荡".
Proof.
  unfold classify_trend.
  destruct o5 as [a|], o10 as [b|], o20 as [c|]; cbn [opt_truthy];
    try reflexivity.
  intros [-> | [-> | ->]]; rewrite ?andb_false_r; reflexivity.
Qed.

(** C3.  When the call returns and the three moving averages are present in
    the result: close > MA5 > MA10 > MA20 gives 强势上涨 (strong uptrend),
    close < MA5 < MA10 < MA20 gives 强势下跌 (strong downtrend), and
    close > MA5 > MA10 without MA10 > MA20 gives 上涨趋势 (uptrend), wherever
    the close stands against MA20.  When one of the three averages is
    reported absent the label is 震荡 (sideways). *)
Theorem C3_trend_ladder (history_data : list bar) (m : gmap string pyval) :
  calculate_technical_indicators history_data = Ok m ->
  let closes := map close history_data in
  (forall cp m5 m10 m20 v5 v10 v20,
      index_from_end closes 1 = Ok cp ->
      sma closes 5 = Ok (Some m5) ->
      sma closes 10 = Ok (Some m10) ->
      sma closes 20 = Ok (Some m20) ->
      m !! "ma5" = Some (VFloat v5) ->
      m !! "ma10" = Some (VFloat v10) ->
      m !! "ma20" = Some (VFloat v20) ->
      (fgt cp m5 = true -> fgt m5 m10 = true -> fgt m10 m20 = true ->
       m !! "trend" = Some (VStr "强势上涨"))
      /\ (flt cp m5 = true -> flt m5 m10 = true -> flt m10 m20 = true ->
          m !! "trend" = Some (VStr "强势下跌"))
      /\ (fgt cp m5 = true -> fgt m5 m10 = true -> fgt m10 m20 = false ->
          m !! "trend" = Some (VStr "上涨趋势")))
  /\ (m !! "ma5" = Some VNone \/ m !! "ma10" = Some VNone
      \/ m !! "ma20" = Some VNone ->
      m !! "trend" = Some (VStr "震荡")).
Proof.
  intros H closes.
  destruct (Nat.ltb_spec (length history_data) 5) as [Hshort|Hlong].
  { rewrite indicators_short in H by exact Hshort. injection H as <-.
    split.
    - intros * _ _ _ _ Hm. rewrite lookup_empty in Hm. discriminate.
    - rewrite !lookup_empty. intros [?|[?|?]]; discriminate. }
  destruct (indicators_Ok_inv _ _ Hlong H)
    as (cp' & r5 & r10 & r20 & vol & hi & lo
        & Hcp & _ & _ & _ & _ & _ & _ & ->).
  fold closes in Hcp |- *.
  destruct (indicator_mapping_lookup closes cp' r5 r10 r20 vol hi lo)
    as (L1 & L2 & L3 & _ & _ & _ & _ & _ & _ & LT & _).
  rewrite L1, L2, L3, LT. split.
  - intros cp m5 m10 m20 v5 v10 v20 Ecp E5 E10 E20 P5 P10 P20.
    assert (cp' = cp) as -> by congruence.
    rewrite sma_sma_value in E5, E10, E20 by lia.
    injection E5 as E5. injection E10 as E10. injection E20 as E20.
    rewrite E5, E10, E20 in *.
    apply (inj Some), ma_field_present in P5 as (? & [= <-] & T5).
    apply (inj Some), ma_field_present in P10 as (? & [= <-] & T10).
    apply (inj Some), ma_field_present in P20 as (? & [= <-] & T20).
    unfold classify_trend. rewrite T5, T10, T20. cbn [andb].
    repeat split.
    + intros -> -> ->. reflexivity.
    + intros A B C. unfold fgt.
      rewrite (flt_asym _ _ A). cbn [andb]. rewrite A, B, C. reflexivity.
    + intros -> -> ->. reflexivity.
  - intros Habs. do 2 f_equal. apply classify_trend_absent.
    destruct Habs as [E|[E|E]]; injection E as E;
      apply ma_field_absent in E; auto.
Qed.

Lemma C3_trend_ladder_witness :
  let h := series (map inject_Z (seqZ 1 30)) in
  let m := indicator_mapping (map close h) (Finite 30)
             (VFloat (Finite 20)) (VFloat (Finite 50)) (VFloat (Finite 200))
             (VFloat (round64 5.7663)) (VFloat (Finite 30))
             (VFloat (Finite 11)) in
  calculate_technical_indicators h = Ok m
  /\ m !! "trend" = Some (VStr "强势上涨").
Proof.
  intros h m.
  assert (Hrun : calculate_technical_indicators h = Ok m) by run_indicators.
  split; [exact Hrun|].
  destruct (C3_trend_ladder h m Hrun) as [Hladder _].
  refine (proj1 (Hladder (Finite 30) (Finite 28) (Finite (51 # 2))
                   (Finite (41 # 2)) (Finite 28) (Finite (51 # 2))
                   (Finite (41 # 2)) _ _ _ _ _ _ _) _ _ _);
    reflexivity.
Defined.

Lemma slice_last_map {A B : Type} (f : A -> B) (k : nat) (l : list A) :
  slice_last k (map f l) = map f (slice_last k l).
Proof.
  destruct k as [|k]; [reflexivity|]. cbn [slice_last].
  rewrite length_map. symmetry. apply (fmap_drop f).
Qed.




(** The steps of the function that cannot raise, or raise on a zero base
    only. *)
Lemma return_field_nonzero_base (closes : list pyfloat) (d : nat)
    (base : pyfloat) :
  (d + 1 <= length closes)%nat ->
  closes !! (length closes - (d + 1))%nat = Some base ->
  is_zero base = false ->
  exists last_,
    closes !! (length closes - 1)%nat = Some last_
    /\ return_field closes d =
         Ok (let r := fmul (fquot (fsub last_ base) base) (of_Z 100) in
             if truthy r then VFloat (round_ndigits r 2) else VNone).
Proof.
  intros Hlen Hbase Hnz. unfold return_field, calculate_return.
  destruct (Nat.ltb_spec (length closes) (d + 1)) as [?|_]; [lia|].
  destruct (index_from_end_Ok closes 1) as (x & -> & Hx); [lia|].
  destruct (index_from_end_Ok closes (d + 1)) as (y & -> & Hy); [lia|].
  assert (y = base) as -> by congruence.
  exists x. split; [exact Hx|].
  cbn [mbind result_bind]. unfold fdiv. rewrite Hnz.
  cbn [mbind result_bind opt_truthy].
  destruct (truthy _); reflexivity.
Qed.

Lemma py_max_Ok (data : list pyfloat) :
  data <> [] -> exists v, py_max data = Ok v.
Proof. destruct data; [congruence | cbn; eauto]. Qed.

Lemma py_min_Ok (data : list pyfloat) :
  data <> [] -> exists v, py_min data = Ok v.
Proof. destruct data; [congruence | cbn; eauto]. Qed.

Lemma slice_last_nonempty {A : Type} (k : nat) (data : list A) :
  data <> [] -> (1 <= k)%nat -> slice_last k data <> [].
Proof.
  intros Hne Hk E. apply (f_equal length) in E.
  destruct k as [|k]; [lia|]. cbn [slice_last] in E.
  rewrite length_drop in E. cbn in E.
  destruct data; [congruence | cbn in E; lia].
Qed.

Lemma high_low_fields_Ok (closes : list pyfloat) :
  closes <> [] ->
  exists hi lo, high_20d_field closes = Ok (VFloat hi)
                /\ low_20d_field closes = Ok (VFloat lo).
Proof.
  intros Hne. unfold high_20d_field, low_20d_field.
  destruct (20 <=? length closes)%nat.
  - destruct (py_max_Ok (slice_last 20 closes)) as [hi ->];
      [apply slice_last_nonempty; [exact Hne | lia]|].
    destruct (py_min_Ok (slice_last 20 closes)) as [lo ->];
      [apply slice_last_nonempty; [exact Hne | lia]|].
    eauto.
  - destruct (py_max_Ok closes Hne) as [hi ->].
    destruct (py_min_Ok closes Hne) as [lo ->]. eauto.
Qed.

(** A variance is never negative, so that rounding its root never meets a
    complex number. *)
Lemma fsquare_nonneg (x y : pyfloat) : fsquare x = Ok y -> nonneg y.
Proof.
  destruct x as [a| | |]; cbn [fsquare]; try (intros [= <-]; exact I).
  pose proof (round64_nonneg (a * a)) as Hsq.
  destruct (round64 (a * a)) as [r| | |]; intros [= <-].
  apply Hsq. nra.
Qed.

Lemma fsquare_cases (x : pyfloat) :
  (exists y, fsquare x = Ok y) \/ fsquare x = Raise OverflowError.
Proof.
  destruct x as [a| | |]; cbn [fsquare]; eauto.
  destruct (round64 (a * a)); eauto.
Qed.

Lemma fadd_nonneg (x y : pyfloat) : nonneg x -> nonneg y -> nonneg (fadd x y).
Proof.
  destruct x as [a| | |], y as [b| | |]; cbn [fadd nonneg]; try tauto.
  intros Ha Hb. apply round64_nonneg. lra.
Qed.

Lemma fsum_nonneg (data : list pyfloat) : Forall nonneg data -> nonneg (fsum data).
Proof.
  unfold fsum. assert (H0 : nonneg (of_Z 0)) by (cbn; discriminate).
  revert H0. generalize (of_Z 0).
  induction data as [|x data IH]; intros acc Hacc Hall; cbn; [exact Hacc|].
  inversion Hall; subst. apply IH; [apply fadd_nonneg|]; assumption.
Qed.

Lemma fquot_nonneg (x : pyfloat) (n : nat) :
  (0 < n)%nat -> nonneg x -> nonneg (fquot x (of_nat n)).
Proof.
  intros Hn. destruct x as [a| | |]; cbn [fquot of_nat of_Z nonneg]; try tauto.
  - intros Ha. apply round64_nonneg. unfold Qdiv.
    apply Qmult_le_0_compat; [exact Ha|].
    apply Qinv_le_0_compat. unfold Qle. cbn. lia.
  - intros _. destruct n as [|n]; [lia|]. exact I.
Qed.

Lemma squared_deviations_cases (recent : list pyfloat) (mean : pyfloat) :
  (exists ds, squared_deviations recent mean = Ok ds /\ Forall nonneg ds)
  \/ squared_deviations recent mean = Raise OverflowError.
Proof.
  induction recent as [|x rest IH]; cbn [squared_deviations].
  - left. exists []. split; [reflexivity|constructor].
  - destruct (fsquare_cases (fsub x mean)) as [[d Hd]| ->]; [|now right].
    rewrite Hd. cbn [mbind result_bind].
    destruct IH as [(ds & -> & Hds)| ->]; [|now right].
    left. exists (d :: ds). split; [reflexivity|].
    constructor; [exact (fsquare_nonneg _ _ Hd)|exact Hds].
Qed.

(** [calculate_volatility] fails in one way only, on a squared deviation
    that overflows. *)
Lemma calculate_volatility_cases (closes : list pyfloat) :
  (exists o, calculate_volatility closes 20 = Ok o
             /\ forall v, o = Some (RootOf v) -> nonneg v)
  \/ calculate_volatility closes 20 = Raise OverflowError.
Proof.
  unfold calculate_volatility.
  destruct (Nat.ltb_spec (length closes) 20) as [?|Hlen].
  { left. eexists. split; [reflexivity|discriminate]. }
  set (recent := slice_last 20 closes).
  assert (Hrecent : length recent = 20%nat)
    by (apply length_slice_last; lia).
  rewrite Hrecent, !fdiv_of_nat by lia. cbn [mbind result_bind].
  destruct (squared_deviations_cases recent
              (fquot (fsum recent) (of_nat 20)))
    as [(ds & -> & Hds)| ->]; [|now right].
  cbn [mbind result_bind]. left. eexists. split; [reflexivity|].
  intros v [= <-]. apply fquot_nonneg; [lia|]. apply fsum_nonneg, Hds.
Qed.

Lemma volatility_field_cases (closes : list pyfloat) :
  (exists v, volatility_field closes = Ok v)
  \/ volatility_field closes = Raise OverflowError.
Proof.
  unfold volatility_field.
  destruct (calculate_volatility_cases closes) as [(o & -> & Hnn)| ->];
    [|now right].
  cbn [mbind result_bind].
  destruct o as [[v]|]; [|left; eauto].
  specialize (Hnn v eq_refl). unfold root_truthy.
  destruct (truthy v); [|left; eauto].
  destruct v as [q| | |]; cbn [round_root mbind result_bind];
    [|left; eauto|left; eauto|destruct Hnn].
  unfold Qltb. cbn in Hnn. apply Qle_bool_iff in Hnn. rewrite Hnn.
  cbn [negb mbind result_bind]. left. eauto.
Qed.

(** The function raises in two ways only: dividing by a zero close, and
    squaring a deviation beyond the range of a float. *)
Lemma indicators_outcomes (history_data : list bar) :
  (exists m, calculate_technical_indicators history_data = Ok m)
  \/ calculate_technical_indicators history_data = Raise ZeroDivisionError
  \/ calculate_technical_indicators history_data = Raise OverflowError.
Proof.
  destruct (Nat.ltb_spec (length history_data) 5) as [Hshort|Hlong].
  { left. rewrite indicators_short by exact Hshort. eauto. }
  rewrite indicators_long by exact Hlong. cbv zeta.
  set (closes := map close history_data).
  assert (Hn : length closes = length history_data)
    by (unfold closes; apply length_map).
  destruct (index_from_end_Ok closes 1) as (cp & -> & _); [lia|].
  cbn [mbind result_bind].
  destruct (return_field_cases closes 5) as [[r5 ->]| ->]; [|now right; left].
  cbn [mbind result_bind].
  destruct (return_field_cases closes 10) as [[r10 ->]| ->];
    [|now right; left].
  cbn [mbind result_bind].
  destruct (return_field_cases closes 20) as [[r20 ->]| ->];
    [|now right; left].
  cbn [mbind result_bind].
  destruct (volatility_field_cases closes) as [[vol ->]| ->];
    [|now right; right].
  destruct (high_low_fields_Ok closes) as (hi & lo & -> & ->).
  { intros E. rewrite E in Hn. cbn in Hn. lia. }
  left. cbn [mbind result_bind]. eauto.
Qed.

Lemma is_zero_Qeq (q : Q) : (q == 0)%Q -> is_zero (Finite q) = true.
Proof. intros H. cbn. apply Qeq_bool_iff, H. Qed.

Lemma is_zero_Qneq (q : Q) : ~ (q == 0)%Q -> is_zero (Finite q) = false.
Proof.
  intros H. cbn. destruct (Qeq_bool q 0) eqn:E; [|reflexivity].
  apply Qeq_bool_iff in E. contradiction.
Qed.

(** C4.  The claim fails on the code for the flat series of 30 bars at the
    price 1.0: the sum of the last 20 closes is 20.0 and their mean 1.0,
    every deviation is 0.0, the standard deviation is computed as 0.0, the
    truth test of the conditional takes 0.0 for false, and the call returns
    with a volatility entry that is [None] instead of 0. *)
Theorem C4_flat_series_volatility_none (history_data : list bar) :
  map close history_data = replicate 30 (Finite 1) ->
  calculate_volatility (map close history_data) 20
  = Ok (Some (RootOf (Finite 0)))
  /\ exists m, calculate_technical_indicators history_data = Ok m
               /\ m !! "volatility" = Some VNone.
Proof.
  intros Hcloses.
  assert (Hlen : length history_data = 30%nat).
  { rewrite <- (length_map close), Hcloses. apply length_replicate. }
  rewrite indicators_long by lia. cbv zeta. rewrite Hcloses.
  split; [vm_compute; reflexivity|].
  set (closes := replicate 30 (Finite 1)).
  assert (Hcp : index_from_end closes 1 = Ok (Finite 1))
    by (vm_compute; reflexivity).
  assert (H5 : return_field closes 5 = Ok VNone)
    by (vm_compute; reflexivity).
  assert (H10 : return_field closes 10 = Ok VNone)
    by (vm_compute; reflexivity).
  assert (H20 : return_field closes 20 = Ok VNone)
    by (vm_compute; reflexivity).
  assert (Hvol : volatility_field closes = Ok VNone)
    by (vm_compute; reflexivity).
  assert (Hhi : high_20d_field closes = Ok (VFloat (Finite 1)))
    by (vm_compute; reflexivity).
  assert (Hlo : low_20d_field closes = Ok (VFloat (Finite 1)))
    by (vm_compute; reflexivity).
  rewrite Hcp, H5, H10, H20, Hvol, Hhi, Hlo.
  cbn [mbind result_bind]. eexists. split; [reflexivity|].
  apply indicator_mapping_lookup.
Qed.

Lemma C4_flat_series_volatility_none_witness :
  let h := series (repeat 1%Q 30) in
  exists m, calculate_technical_indicators h = Ok m
            /\ m !! "volatility" = Some VNone.
Proof.
  intros h.
  exact (proj2 (C4_flat_series_volatility_none h eq_refl)).
Defined.

End Indicators.

(** ** Normalisation of numeric cells *)

Section SafeFloat.
Import FundAnalyzer.
Variable parse_float : string -> option pyfloat.

(** What [_safe_float] returns on every value that is not an integer
    beyond the float range. *)
Lemma safe_float_spec (value : pyobj) (default : pyfloat) :
  _safe_float parse_float value default =
    match value with
    | PyNone | PyObject _ => Ok default
    | PyFloat f => Ok (if isnan f then default else f)
    | PyInt z =>
        if (int_overflow_bound <=? Z.abs z)%Z then Raise OverflowError
        else Ok (round64 (inject_Z z))
    | PyStr s =>
        match parse_float s with
        | Some f => Ok (if isnan f then default else f)
        | None => Ok default
        end
    end.
Proof.
  destruct value as [|f|z|s|r]; cbn; try reflexivity.
  - destruct f; reflexivity.
  - destruct (int_overflow_bound <=? Z.abs z)%Z; [reflexivity|].
    cbn. rewrite round64_not_nan. reflexivity.
  - destruct (parse_float s) as [f|]; [destruct f|]; reflexivity.
Qed.

(** A value it returns is the default or a float that is not NaN. *)
Lemma safe_float_not_nan (value : pyobj) (default f : pyfloat) :
  _safe_float parse_float value default = Ok f ->
  isnan default = false -> isnan f = false.
Proof.
  rewrite safe_float_spec. intros H Hd.
  destruct value as [|g|z|s|r].
  - congruence.
  - injection H as <-. destruct g; cbn; auto.
  - destruct (int_overflow_bound <=? Z.abs z)%Z; [discriminate|].
    injection H as <-. apply round64_not_nan.
  - destruct (parse_float s) as [g|]; injection H as <-; [|exact Hd].
    destruct g; cbn; auto.
  - congruence.
Qed.

(** C8.  The claim that [_safe_float] never raises fails on the code: an
    integer too large for a float makes [float(value)] raise
    [OverflowError], which the [except (ValueError, TypeError)] clause lets
    through. *)
Theorem C8_safe_float_overflow (z : Z) (default : pyfloat) :
  (int_overflow_bound <= Z.abs z)%Z ->
  _safe_float parse_float (PyInt z) default = Raise OverflowError.
Proof.
  intros H. rewrite safe_float_spec.
  destruct (Z.leb_spec int_overflow_bound (Z.abs z)); [reflexivity | lia].
Qed.

End SafeFloat.

Lemma C8_safe_float_overflow_witness :
  (int_overflow_bound <= Z.abs (10 ^ 400))%Z
  /\ FundAnalyzer._safe_float (fun _ => None) (PyInt (10 ^ 400))
       FundAnalyzer.default_float
     = Raise OverflowError
  /\ StockAnalyzer._safe_float (fun _ => None) (PyInt (10 ^ 400))
       FundAnalyzer.default_float
     = Raise OverflowError.
Proof.
  assert (H : (int_overflow_bound <= Z.abs (10 ^ 400))%Z)
    by (vm_compute; discriminate).
  split; [exact H|].
  split;
    apply (C8_safe_float_overflow (fun _ => None) (10 ^ 400)
             FundAnalyzer.default_float H).
Defined.

(** ** History of a fund *)

Section History.
Import FundAnalyzer.
Variable parse_float : string -> option pyfloat.
Variable builtin_str : pyobj -> string.
Variable strip : string -> string.

Lemma history_record_converts (row : Series) (b : bar) :
  history_record parse_float builtin_str row = Ok b ->
  converts_to parse_float builtin_str row b.
Proof.
  unfold history_record. intros H.
  apply bind_Ok_inv in H as (f1 & H1 & H).
  apply bind_Ok_inv in H as (f2 & H2 & H).
  apply bind_Ok_inv in H as (f3 & H3 & H).
  apply bind_Ok_inv in H as (f4 & H4 & H).
  apply bind_Ok_inv in H as (f5 & H5 & H).
  apply bind_Ok_inv in H as (f6 & H6 & H).
  apply bind_Ok_inv in H as (f7 & H7 & H).
  injection H as <-. unfold converts_to. cbn.
  repeat split; assumption.
Qed.

Lemma converts_to_normalised (row : Series) (b : bar) :
  converts_to parse_float builtin_str row b -> normalised b.
Proof.
  intros (_ & H1 & H2 & H3 & H4 & H5 & H6 & H7). unfold normalised.
  repeat split;
    eapply safe_float_not_nan; try eassumption; reflexivity.
Qed.

(** The loop yields one entry per row, converted from it, or raises. *)
Lemma history_records_Ok (rows : list Series) (l : list bar) :
  history_records parse_float builtin_str rows = Ok l ->
  Forall2 (converts_to parse_float builtin_str) rows l.
Proof.
  revert l. induction rows as [|row rows IH]; intros l H; cbn in H.
  - injection H as <-. constructor.
  - apply bind_Ok_inv in H as (b & Hb & H).
    apply bind_Ok_inv in H as (bs & Hbs & H).
    injection H as <-.
    constructor; [apply history_record_converts, Hb | apply IH, Hbs].
Qed.

(** A row whose cells all convert yields its entry. *)
Lemma history_record_complete (row : Series) (b : bar) :
  converts_to parse_float builtin_str row b ->
  history_record parse_float builtin_str row = Ok b.
Proof.
  unfold converts_to, history_record. cbv zeta.
  intros (Hd & -> & -> & -> & -> & -> & -> & ->).
  cbn [mbind result_bind]. rewrite <- Hd. destruct b; reflexivity.
Qed.

(** The loop returns the entries of the rows when each of them converts. *)
Lemma history_records_complete (rows : list Series) (l : list bar) :
  Forall2 (converts_to parse_float builtin_str) rows l ->
  history_records parse_float builtin_str rows = Ok l.
Proof.
  induction 1 as [|row b rows l Hb _ IH]; cbn [history_records];
    [reflexivity|].
  rewrite (history_record_complete _ _ Hb), IH. reflexivity.
Qed.

Lemma length_iterrows (df : DataFrame) : length (iterrows df) = df_len df.
Proof. unfold iterrows, df_len. apply length_map. Qed.

(** [tail(n)] keeps at most [n] rows when [n] is not negative. *)
Lemma df_len_tail (n : Z) (df : DataFrame) :
  (0 <= n)%Z -> df_len (df_tail n df) = Nat.min (Z.to_nat n) (df_len df).
Proof.
  intros Hn. unfold df_len, df_tail. cbn.
  destruct (Z.leb_spec 0 n); [|lia]. rewrite length_drop. lia.
Qed.

(** What [_ensure_init] does to a process. *)
Lemma ensure_init_run (akshare_importable : bool) (w : process self_t) :
  _ensure_init akshare_importable w =
    if _initialized (self w) then (Ok tt, w)
    else if akshare_importable
    then (Ok tt, {| self := {| _initialized := true;
                               _lof_cache := _lof_cache (self w);
                               _lof_cache_time := _lof_cache_time (self w) |};
                    trace := trace w |})
    else (Raise ImportError, w).
Proof.
  unfold _ensure_init. coro_unfold.
  destruct (_initialized (self w)); [reflexivity|].
  destruct akshare_importable; reflexivity.
Qed.

(** The body of [get_lof_history] after [_ensure_init] never raises, and
    its value is decided by what the provider call does. *)
Lemma get_lof_history_body (outcome : fetch_outcome (option DataFrame))
    (days : Z) :
  exists o,
    try_except
      (df ← await_fetch outcome;
       match df with
       | None => Ok None
       | Some df =>
           if df_empty df then Ok None
           else
             result ← history_records parse_float builtin_str
                        (iterrows (df_tail days df));
             Ok (Some result)
       end)
      (fun _ => Ok None) = Ok o
    /\ (forall l, o = Some l ->
          exists df, outcome = Fetched (Some df) /\ df_empty df = false
            /\ history_records parse_float builtin_str
                 (iterrows (df_tail days df)) = Ok l)
    /\ (forall df l, outcome = Fetched (Some df) -> df_empty df = false ->
          history_records parse_float builtin_str
            (iterrows (df_tail days df)) = Ok l ->
          o = Some l).
Proof.
  destruct outcome as [[df|]| |e];
    cbn [await_fetch mbind result_bind try_except];
    try (exists None; split; [reflexivity|]; split; discriminate).
  destruct (df_empty df) eqn:Hempty.
  { exists None. split; [reflexivity|]. split; [discriminate|].
    intros df' l [= <-]. congruence. }
  destruct (history_records parse_float builtin_str
              (iterrows (df_tail days df))) as [l|e] eqn:Hrec;
    cbn [mbind result_bind try_except].
  - exists (Some l). split; [reflexivity|]. split.
    + intros l' [= <-]. exists df. auto.
    + intros df' l' [= <-] _ Hrec'. congruence.
  - exists None. split; [reflexivity|]. split; [discriminate|].
    intros df' l' [= <-] _ Hrec'. congruence.
Qed.

(** A run of [get_lof_history]: [_ensure_init], then one provider call
    whose outcome decides the value. *)
Lemma get_lof_history_run (akshare_importable : bool)
    (fund_lof_hist_em : string -> Z -> string -> provider (option DataFrame))
    (fund_code : option string) (days : Z) (adjust : string)
    (w : process self_t) :
  get_lof_history parse_float builtin_str strip akshare_importable
    fund_lof_hist_em fund_code days adjust w =
  match _ensure_init akshare_importable w with
  | (Raise e, w') => (Raise e, w')
  | (Ok _, w') =>
      (try_except
         (df ← await_fetch
                 (fund_lof_hist_em (strip (default DEFAULT_FUND_CODE fund_code))
                    (days * 2)%Z adjust
                    (attempts "fund_lof_hist_em" (trace w')));
          match df with
          | None => Ok None
          | Some df =>
              if df_empty df then Ok None
              else
                result ← history_records parse_float builtin_str
                           (iterrows (df_tail days df));
                Ok (Some result)
          end)
         (fun _ => Ok None),
       {| self := self w'; trace := trace w' ++ [Called "fund_lof_hist_em"] |})
  end.
Proof.
  unfold get_lof_history. coro_unfold.
  destruct (_ensure_init akshare_importable w) as [[[]|e] w']; [|reflexivity].
  destruct (fund_lof_hist_em _ _ _ _) as [[df|]| |e];
    cbn [await_fetch mbind result_bind try_except]; try reflexivity.
  destruct (df_empty df); [reflexivity|].
  destruct (history_records _ _ _); reflexivity.
Qed.

(** C10, as amended.  [get_lof_history] raises [ImportError] when akshare
    cannot be imported.  Once it is imported the call never raises: it
    returns [None] when the provider times out, fails, or gives no table or
    an empty one.  When the provider delivers a table that is not empty and
    every row of its tail converts, the call returns the list of the
    converted rows; it returns a list in no other case.  That list has at
    most [days] entries (for [days >= 0]), one per row of the tail of the
    table, and every numeric field of every entry is what [_safe_float]
    made of the cell (or of 0 where the column is missing), a float that is
    not NaN. *)
Theorem C10_get_lof_history (akshare_importable : bool)
    (fund_lof_hist_em : string -> Z -> string -> provider (option DataFrame))
    (fund_code : option string) (days : Z) (adjust : string)
    (w : process self_t) :
  let run := get_lof_history parse_float builtin_str strip akshare_importable
               fund_lof_hist_em fund_code days adjust w in
  let outcome := fund_lof_hist_em (strip (default DEFAULT_FUND_CODE fund_code))
                   (days * 2)%Z adjust
                   (attempts "fund_lof_hist_em" (trace w)) in
  (_initialized (self w) = false /\ akshare_importable = false ->
   fst run = Raise ImportError)
  /\ (_initialized (self w) = true \/ akshare_importable = true ->
      exists o, fst run = Ok o
        /\ (outcome = TimedOut \/ (exists e, outcome = Failed e)
            \/ outcome = Fetched None
            \/ (exists df, outcome = Fetched (Some df) /\ df_empty df = true) ->
            o = None)
        /\ (forall l, o = Some l ->
              ((0 <= days)%Z -> (length l <= Z.to_nat days)%nat)
              /\ Forall normalised l
              /\ exists df, outcome = Fetched (Some df)
                   /\ df_empty df = false
                   /\ Forall2 (converts_to parse_float builtin_str)
                        (iterrows (df_tail days df)) l)
        /\ (forall df l, outcome = Fetched (Some df) ->
              df_empty df = false ->
              Forall2 (converts_to parse_float builtin_str)
                (iterrows (df_tail days df)) l ->
              o = Some l)).
Proof.
  intros run outcome. subst run. rewrite get_lof_history_run.
  rewrite ensure_init_run. split.
  - intros [-> ->]. reflexivity.
  - intros Hinit.
    assert (Hrun : exists w',
               (if _initialized (self w) then (Ok tt, w)
                else if akshare_importable
                     then (Ok tt,
                           {| self := {| _initialized := true;
                                         _lof_cache := _lof_cache (self w);
                                         _lof_cache_time :=
                                           _lof_cache_time (self w) |};
                              trace := trace w |})
                     else (Raise ImportError, w)) = (Ok tt, w')
               /\ trace w' = trace w).
    { destruct (_initialized (self w)); [eauto|].
      destruct akshare_importable; [eauto|].
      destruct Hinit; discriminate. }
    destruct Hrun as (w' & -> & ->). cbn [fst]. fold outcome.
    destruct (get_lof_history_body outcome days)
      as (o & -> & Ho & Hlist).
    exists o. split; [reflexivity|]. split; [|split].
    + intros Hfail. destruct o as [l|]; [|reflexivity].
      destruct (Ho l eq_refl) as (df & Hdf & Hne & _).
      destruct Hfail as [E|[[e E]|[E|(df' & E & Hem)]]]; try congruence.
    + intros l ->. destruct (Ho l eq_refl) as (df & Hout & Hne & Hrec).
      apply history_records_Ok in Hrec.
      split; [|split].
      * intros Hdays. rewrite <- (Forall2_length _ _ _ Hrec).
        rewrite length_iterrows, df_len_tail by exact Hdays. lia.
      * clear -Hrec. induction Hrec as [|row b rows l Hb _ IH];
          constructor; [eapply converts_to_normalised, Hb | exact IH].
      * exists df. auto.
    + intros df l Hout Hne Hrows. apply (Hlist df l Hout Hne).
      apply history_records_complete, Hrows.
Qed.

End History.

Lemma C10_get_lof_history_witness :
  fst (FundAnalyzer.get_lof_history (fun _ => None) str_of_cell
         (fun code => code) true
         (fun _ _ _ _ => Fetched (Some history_table)) None 30 "qfq"
         {| self := FundAnalyzer.__init__; trace := [] |})
  = Ok (Some [history_entry])
  /\ fst (FundAnalyzer.get_lof_history (fun _ => None) str_of_cell
            (fun code => code) true (fun _ _ _ _ => TimedOut) None 30 "qfq"
            {| self := FundAnalyzer.__init__; trace := [] |})
     = Ok None.
Proof.
  split.
  - destruct (C10_get_lof_history (fun _ => None) str_of_cell
                (fun code => code) true
                (fun _ _ _ _ => Fetched (Some history_table)) None 30 "qfq"
                {| self := FundAnalyzer.__init__; trace := [] |})
      as [_ Hok].
    destruct Hok as (o & Ho & _ & _ & Hlist); [right; reflexivity|].
    rewrite Ho. f_equal. apply (Hlist history_table); try reflexivity.
    constructor; [|constructor].
    unfold converts_to. repeat split; vm_compute; reflexivity.
  - destruct (C10_get_lof_history (fun _ => None) str_of_cell
                (fun code => code) true (fun _ _ _ _ => TimedOut) None 30
                "qfq" {| self := FundAnalyzer.__init__; trace := [] |})
      as [_ Hok].
    destruct Hok as (o & Ho & Hnone & _); [right; reflexivity|].
    rewrite Ho. f_equal. apply Hnone. left. reflexivity.
Defined.

(** C10 as stated fails: on an analyzer that is not initialised, with
    akshare not importable, the call raises [ImportError] to its caller. *)
Lemma C10_counterexample :
  ~ (forall akshare_importable fund_lof_hist_em fund_code days adjust w,
       exists o,
         fst (FundAnalyzer.get_lof_history (fun _ => None) (fun _ => "")
                (fun code => code) akshare_importable fund_lof_hist_em
                fund_code days adjust w) = Ok o).
Proof.
  intros claim.
  destruct (claim false (fun _ _ _ _ => TimedOut) None 30%Z "qfq"
              {| self := FundAnalyzer.__init__; trace := [] |}) as [o Ho].
  discriminate Ho.
Qed.

(** ** Fetching with retry, fallback and cache *)

Section Fetch.

Lemma attempts_snoc (name : string) (tr : list event) (ev : event) :
  attempts name (tr ++ [ev]) =
    if decide (ev = Called name) then S (attempts name tr)
    else attempts name tr.
Proof.
  unfold attempts. rewrite filter_app, length_app.
  rewrite filter_cons, filter_nil.
  destruct (decide (ev = Called name)); cbn; lia.
Qed.

Lemma attempts_app (name : string) (tr tr' : list event) :
  attempts name (tr ++ tr') = (attempts name tr + attempts name tr')%nat.
Proof. unfold attempts. rewrite filter_app, length_app. reflexivity. Qed.

Lemma attempts_cons_called (name : string) (tr : list event) :
  attempts name (Called name :: tr) = S (attempts name tr).
Proof.
  unfold attempts. rewrite filter_cons.
  destruct (decide (Called name = Called name)); [reflexivity | congruence].
Qed.

Lemma attempts_cons_slept (name : string) (n : Z) (tr : list event) :
  attempts name (Slept n :: tr) = attempts name tr.
Proof.
  unfold attempts. rewrite filter_cons.
  destruct (decide (Slept n = Called name)); [discriminate | reflexivity].
Qed.

Lemma attempts_cons_other (name other : string) (tr : list event) :
  other <> name -> attempts name (Called other :: tr) = attempts name tr.
Proof.
  intros Hne. unfold attempts. rewrite filter_cons.
  destruct (decide (Called other = Called name)); [congruence | reflexivity].
Qed.

(** An awaited attempt delivers a table or fails with an exception. *)
Lemma await_fetch_cases {A : Type} (o : fetch_outcome A) :
  (exists a, o = Fetched a /\ await_fetch o = Ok a)
  \/ (fails o /\ exists e, await_fetch o = Raise e).
Proof.
  destruct o as [a| |e]; cbn; eauto.
Qed.

Lemma fails_not_fetched {A : Type} (o : fetch_outcome A) (a : A) :
  fails o -> o <> Fetched a.
Proof. intros H ->. exact H. Qed.

Lemma attempts_nil (name : string) : attempts name [] = 0%nat.
Proof. reflexivity. Qed.

End Fetch.

(** Counts the calls in a log that ends in a known list of events. *)
Ltac count_attempts :=
  repeat first [ rewrite attempts_cons_called
               | rewrite attempts_cons_slept
               | rewrite attempts_nil ].

(** Settles the case of [with_retry_run] in which an attempt delivered
    after [k] events of the schedule, up to who delivered it. *)
Ltac delivered k :=
  cbn [fst snd trace loop_events];
  split; [exists k; reflexivity|];
  split;
    [intros [(?F0 & ?F1 & ?F2) (?F3 & ?F4 & ?F5)];
     repeat match goal with
            | E : ?o = Fetched _, F : fails ?o |- _ =>
                rewrite E in F; destruct F
            end|];
  split; [intros ? ?Hraise; discriminate Hraise|];
  intros ? ?Hok; injection Hok as <-.

Section StockFetch.
Import StockAnalyzer.

(** One attempt on a provider of an initialised analyzer: the call is
    logged and its outcome awaited. *)
Lemma fetch_eastmoney_run (net : providers) (w : process self_t) :
  _initialized (self w) = true ->
  _fetch_stock_data_eastmoney net w =
    (await_fetch (stock_zh_a_spot_em net (attempts EM (trace w))),
     {| self := self w; trace := trace w ++ [Called EM] |}).
Proof.
  intros Hinit. unfold _fetch_stock_data_eastmoney. coro_unfold.
  rewrite Hinit. reflexivity.
Qed.

Lemma fetch_sina_run (net : providers) (w : process self_t) :
  _initialized (self w) = true ->
  _fetch_stock_data_sina net w =
    (await_fetch (stock_zh_a_spot net (attempts SINA (trace w))),
     {| self := self w; trace := trace w ++ [Called SINA] |}).
Proof.
  intros Hinit. unfold _fetch_stock_data_sina. coro_unfold.
  rewrite Hinit. reflexivity.
Qed.

(** A retry loop over a provider [p] called under [name], run from its
    first attempt: it stops at the first attempt that delivers, sleeps
    [RETRY_DELAY] after each of the first two failures, and after three
    failures leaves the error of the third. *)
Lemma retry_loop_run (fetch : coro self_t DataFrame) (name : string)
    (p : provider DataFrame) (source message : string)
    (last_error : option exn) (w : process self_t) :
  (forall w', self w' = self w ->
     fetch w' = (await_fetch (p (attempts name (trace w'))),
                 {| self := self w'; trace := trace w' ++ [Called name] |})) ->
  let a := attempts name (trace w) in
  retry_loop fetch source message (seq 0 MAX_RETRIES) last_error w =
    match await_fetch (p a) with
    | Ok df =>
        (Ok (inl df), {| self := with_source (self w) source;
                         trace := trace w ++ loop_events name 1 |})
    | Raise _ =>
        match await_fetch (p (a + 1)%nat) with
        | Ok df =>
            (Ok (inl df), {| self := with_source (self w) source;
                             trace := trace w ++ loop_events name 2 |})
        | Raise _ =>
            match await_fetch (p (a + 2)%nat) with
            | Ok df =>
                (Ok (inl df), {| self := with_source (self w) source;
                                 trace := trace w ++ loop_events name 3 |})
            | Raise e =>
                (Ok (inr (Some (caught_error message e))),
                 {| self := self w;
                    trace := trace w ++ loop_events name 3 |})
            end
        end
    end.
Proof.
  intros Hfetch a. subst a.
  cbn [seq MAX_RETRIES retry_loop loop_events].
  rewrite Hfetch by reflexivity.
  destruct (await_fetch (p (attempts name (trace w)))) as [df|e0];
    [reflexivity|].
  unfold set_current_source. coro_unfold.
  cbn [Nat.ltb Nat.leb Nat.sub MAX_RETRIES].
  rewrite Hfetch by reflexivity. cbn [self trace].
  rewrite <- !app_assoc. cbn [app].
  rewrite (attempts_app name (trace w)).
  count_attempts.
  destruct (await_fetch (p (attempts name (trace w) + 1)%nat)) as [df|e1];
    [reflexivity|].
  rewrite Hfetch by reflexivity. cbn [self trace].
  rewrite <- !app_assoc. cbn [app].
  rewrite (attempts_app name (trace w)).
  count_attempts.
  destruct (await_fetch (p (attempts name (trace w) + 2)%nat)) as [df|e2];
    reflexivity.
Qed.

Lemma all_attempts_fail_unfold (net : providers) (tr : list event) :
  all_attempts_fail net tr <->
  (fails (stock_zh_a_spot_em net (attempts EM tr))
   /\ fails (stock_zh_a_spot_em net (attempts EM tr + 1))
   /\ fails (stock_zh_a_spot_em net (attempts EM tr + 2)))
  /\ (fails (stock_zh_a_spot net (attempts SINA tr))
      /\ fails (stock_zh_a_spot net (attempts SINA tr + 1))
      /\ fails (stock_zh_a_spot net (attempts SINA tr + 2))).
Proof.
  unfold all_attempts_fail. split.
  - intros H.
    pose proof (H 0%nat ltac:(lia)) as [H0 H0'].
    pose proof (H 1%nat ltac:(lia)) as [H1 H1'].
    pose proof (H 2%nat ltac:(lia)) as [H2 H2'].
    rewrite Nat.add_0_r in H0, H0'. tauto.
  - intros [(E0 & E1 & E2) (S0 & S1 & S2)] i Hi.
    destruct i as [|[|[|i]]]; [rewrite !Nat.add_0_r| | |lia]; tauto.
Qed.

(** A run of [_get_stock_data_with_retry] on an initialised analyzer.
    The log grows by a prefix of [retry_schedule]; an error comes out
    exactly when the three attempts on each provider all fail, after the
    whole schedule; a table comes out of the first attempt that delivers,
    the secondary provider being tried only after three failures of the
    primary one. *)
Lemma with_retry_run (net : providers) (w : process self_t) :
  _initialized (self w) = true ->
  let run := _get_stock_data_with_retry net w in
  let a := attempts EM (trace w) in
  let b := attempts SINA (trace w) in
  (exists k, trace (snd run) = trace w ++ take k retry_schedule)
  /\ (all_attempts_fail net (trace w) ->
      exists e, await_fetch (stock_zh_a_spot net (b + 2)) = Raise e
        /\ run = (Raise (caught_error "新浪数据获取超时" e),
                  {| self := self w; trace := trace w ++ retry_schedule |}))
  /\ (forall e, fst run = Raise e -> all_attempts_fail net (trace w))
  /\ (forall df, fst run = Ok df ->
        (exists i, (i < 3)%nat
           /\ stock_zh_a_spot_em net (a + i) = Fetched df
           /\ (forall j, (j < i)%nat -> fails (stock_zh_a_spot_em net (a + j)))
           /\ snd run = {| self := with_source (self w) "eastmoney";
                           trace := trace w ++ loop_events EM (S i) |})
        \/ (exists i, (i < 3)%nat
             /\ (forall j, (j < 3)%nat ->
                   fails (stock_zh_a_spot_em net (a + j)))
             /\ stock_zh_a_spot net (b + i) = Fetched df
             /\ (forall j, (j < i)%nat -> fails (stock_zh_a_spot net (b + j)))
             /\ snd run = {| self := with_source (self w) "sina";
                             trace := trace w ++ loop_events EM 3
                                        ++ loop_events SINA (S i) |})).
Proof.
  intros Hinit run a b. subst run.
  rewrite all_attempts_fail_unfold. fold a b.
  unfold _get_stock_data_with_retry. coro_unfold.
  rewrite (retry_loop_run _ EM (stock_zh_a_spot_em net))
    by (intros w' Hw'; apply fetch_eastmoney_run; congruence).
  fold a.
  assert (HneES : EM <> SINA) by discriminate.
  destruct (await_fetch_cases (stock_zh_a_spot_em net a))
    as [(df0 & E0 & ->)|(F0 & e0 & ->)].
  { delivered 1%nat. left. exists 0%nat. rewrite Nat.add_0_r.
    repeat split; [lia | exact E0 | intros j Hj; lia]. }
  destruct (await_fetch_cases (stock_zh_a_spot_em net (a + 1)))
    as [(df1 & E1 & ->)|(F1 & e1 & ->)].
  { delivered 3%nat. left. exists 1%nat.
    repeat split; [lia | exact E1 |].
    intros j Hj. assert (j = 0%nat) as -> by lia.
    rewrite Nat.add_0_r. exact F0. }
  destruct (await_fetch_cases (stock_zh_a_spot_em net (a + 2)))
    as [(df2 & E2 & ->)|(F2 & e2 & ->)].
  { delivered 5%nat. left. exists 2%nat.
    repeat split; [lia | exact E2 |].
    intros j Hj. destruct j as [|[|j]]; [rewrite Nat.add_0_r| |lia];
      assumption. }
  assert (FE : forall j, (j < 3)%nat -> fails (stock_zh_a_spot_em net (a + j))).
  { intros j Hj. destruct j as [|[|[|j]]]; [rewrite Nat.add_0_r| | |lia];
      assumption. }
  rewrite (retry_loop_run _ SINA (stock_zh_a_spot net))
    by (intros w' Hw'; apply fetch_sina_run; cbn [self] in Hw'; congruence).
  cbn [self trace]. rewrite (attempts_app SINA (trace w)).
  cbn [loop_events]. rewrite !(attempts_cons_other SINA EM) by exact HneES.
  count_attempts. rewrite !Nat.add_0_r. fold b.
  rewrite <- !app_assoc. cbn [app loop_events].
  destruct (await_fetch_cases (stock_zh_a_spot net b))
    as [(df3 & E3 & ->)|(F3 & e3 & ->)].
  { delivered 6%nat. right. exists 0%nat. rewrite Nat.add_0_r.
    repeat split; [lia | exact FE | exact E3 | intros j Hj; lia]. }
  destruct (await_fetch_cases (stock_zh_a_spot net (b + 1)))
    as [(df4 & E4 & ->)|(F4 & e4 & ->)].
  { delivered 8%nat. right. exists 1%nat.
    repeat split; [lia | exact FE | exact E4 |].
    intros j Hj. assert (j = 0%nat) as -> by lia.
    rewrite Nat.add_0_r. exact F3. }
  destruct (await_fetch_cases (stock_zh_a_spot net (b + 2)))
    as [(df5 & E5 & E5')|(F5 & e5 & E5)].
  { rewrite E5'. delivered 10%nat. right. exists 2%nat.
    repeat split; [lia | exact FE | exact E5 |].
    intros j Hj. destruct j as [|[|j]]; [rewrite Nat.add_0_r| |lia];
      assumption. }
  rewrite E5. cbn [fst snd trace].
  split; [exists 10%nat; reflexivity|].
  split; [intros _; exists e5; split; reflexivity|].
  split; [|intros df Hdf; discriminate Hdf].
  intros _ _. apply all_attempts_fail_unfold. fold a b. tauto.
Qed.

Lemma stock_ensure_init_run (akshare_importable : bool)
    (w : process self_t) :
  _initialized (self w) = true \/ akshare_importable = true ->
  exists w', _ensure_init akshare_importable w = (Ok tt, w')
    /\ _initialized (self w') = true
    /\ _stock_cache (self w') = _stock_cache (self w)
    /\ _stock_cache_time (self w') = _stock_cache_time (self w)
    /\ trace w' = trace w.
Proof.
  intros Hinit. unfold _ensure_init. coro_unfold.
  destruct (_initialized (self w)) eqn:E; [exists w; auto|].
  destruct akshare_importable; [|destruct Hinit; discriminate].
  eexists. split; [reflexivity|]. cbn. auto.
Qed.

(** A run of [_get_stock_data] after [_ensure_init]: the cache when it is
    still valid, with no provider call; otherwise the retrying fetch, whose
    table is cached, and on its failure the cached table if there is one. *)
Lemma get_stock_data_run (akshare_importable : bool) (now : datetime)
    (net : providers) (w w1 : process self_t) :
  _ensure_init akshare_importable w = (Ok tt, w1) ->
  _get_stock_data akshare_importable now net w =
    match stock_cache_valid (self w1) now with
    | Some cache => (Ok cache, w1)
    | None =>
        match _get_stock_data_with_retry net w1 with
        | (Ok df, w2) =>
            (Ok df,
             {| self := {| _initialized := _initialized (self w2);
                           _stock_cache := Some df;
                           _stock_cache_time := Some now;
                           _current_source := _current_source (self w2) |};
                trace := trace w2 |})
        | (Raise e, w2) =>
            match _stock_cache (self w2) with
            | Some cache => (Ok cache, w2)
            | None => (Raise e, w2)
            end
        end
    end.
Proof.
  intros Hinit. unfold _get_stock_data. coro_unfold. rewrite Hinit.
  destruct (stock_cache_valid (self w1) now) as [cache|]; [reflexivity|].
  destruct (_get_stock_data_with_retry net w1) as [[df|e] w2];
    [reflexivity|].
  destruct (_stock_cache (self w2)); reflexivity.
Qed.

Lemma stock_cache_valid_Some (this : self_t) (now : datetime)
    (cache : DataFrame) :
  stock_cache_valid this now = Some cache -> _stock_cache this = Some cache.
Proof.
  unfold stock_cache_valid.
  destruct (_stock_cache this) as [c|]; [|discriminate].
  destruct (_stock_cache_time this) as [t|]; [|discriminate].
  destruct (age_below now t STOCK_CACHE_TTL); congruence.
Qed.

(** When every attempt on both providers fails, [_get_stock_data] returns
    the cached table if there is one, however old, and raises otherwise. *)
Lemma get_stock_data_all_fail (akshare_importable : bool) (now : datetime)
    (net : providers) (w : process self_t) :
  _initialized (self w) = true \/ akshare_importable = true ->
  all_attempts_fail net (trace w) ->
  let run := _get_stock_data akshare_importable now net w in
  (forall snapshot, _stock_cache (self w) = Some snapshot ->
     fst run = Ok snapshot
     /\ _stock_cache (self (snd run)) = Some snapshot)
  /\ (_stock_cache (self w) = None -> exists e, fst run = Raise e).
Proof.
  intros Hinit Hfail run. subst run.
  destruct (stock_ensure_init_run akshare_importable w Hinit)
    as (w1 & Hrun & Hinit1 & Hcache & Htime & Htrace).
  rewrite (get_stock_data_run _ _ _ _ _ Hrun).
  destruct (with_retry_run net w1 Hinit1) as (_ & Hall & _).
  rewrite Htrace in Hall. destruct (Hall Hfail) as (e & _ & Hretry).
  split.
  - intros snapshot Hsnap.
    destruct (stock_cache_valid (self w1) now) as [cache|] eqn:Hvalid.
    + apply stock_cache_valid_Some in Hvalid. cbn [fst snd].
      split; congruence.
    + rewrite Hretry. cbn [self]. rewrite Hcache, Hsnap. cbn [fst snd self].
      split; congruence.
  - intros Hnone.
    destruct (stock_cache_valid (self w1) now) as [cache|] eqn:Hvalid.
    + apply stock_cache_valid_Some in Hvalid. congruence.
    + rewrite Hretry. cbn [self]. rewrite Hcache, Hnone. cbn [fst]. eauto.
Qed.

End StockFetch.

Section LofFetch.
Import FundAnalyzer.

(** A run of [_get_lof_data] whose cache test fails: one call of the one
    provider, with no retry and no second provider.  A delivered table is
    cached; a timeout gives the cached table if there is one and
    [TimeoutError] otherwise; any other exception comes out as it is. *)
Lemma get_lof_data_miss (now : datetime) (fund_lof_spot_em : provider DataFrame)
    (w : process self_t) :
  _initialized (self w) = true ->
  lof_cache_valid (self w) now = None ->
  let w1 := {| self := self w; trace := trace w ++ [Called LOF] |} in
  _get_lof_data now fund_lof_spot_em w =
    match await_fetch (fund_lof_spot_em (attempts LOF (trace w))) with
    | Ok df =>
        (Ok df, {| self := with_lof_cache (self w) df now;
                   trace := trace w1 |})
    | Raise AsyncioTimeoutError =>
        match _lof_cache (self w) with
        | Some cache => (Ok cache, w1)
        | None => (Raise (TimeoutError "数据获取超时，请稍后重试"), w1)
        end
    | Raise e => (Raise e, w1)
    end.
Proof.
  intros Hinit Hmiss w1. unfold _get_lof_data. coro_unfold.
  rewrite Hmiss, Hinit. coro_unfold. fold LOF.
  destruct (await_fetch (fund_lof_spot_em (attempts LOF (trace w))))
    as [df|e]; [unfold with_lof_cache; rewrite Hinit; reflexivity|].
  destruct e; try reflexivity.
  coro_unfold. destruct (_lof_cache (self w)); reflexivity.
Qed.

(** A valid cache is returned with no provider call. *)
Lemma get_lof_data_hit (now : datetime) (fund_lof_spot_em : provider DataFrame)
    (w : process self_t) (cache : DataFrame) :
  lof_cache_valid (self w) now = Some cache ->
  _get_lof_data now fund_lof_spot_em w = (Ok cache, w).
Proof.
  intros Hhit. unfold _get_lof_data. coro_unfold. rewrite Hhit. reflexivity.
Qed.

Lemma lof_cache_valid_Some (this : self_t) (now : datetime)
    (cache : DataFrame) :
  lof_cache_valid this now = Some cache -> _lof_cache this = Some cache.
Proof.
  unfold lof_cache_valid.
  destruct (_lof_cache this) as [c|]; [|discriminate].
  destruct (_lof_cache_time this) as [t|]; [|discriminate].
  destruct (age_below now t CACHE_TTL); congruence.
Qed.

(** When the one attempt times out, [_get_lof_data] returns the cached
    table if there is one, however old, and raises [TimeoutError]
    otherwise. *)
Lemma get_lof_data_timeout (now : datetime)
    (fund_lof_spot_em : provider DataFrame) (w : process self_t) :
  _initialized (self w) = true ->
  fund_lof_spot_em (attempts LOF (trace w)) = TimedOut ->
  let run := _get_lof_data now fund_lof_spot_em w in
  (forall snapshot, _lof_cache (self w) = Some snapshot ->
     fst run = Ok snapshot /\ _lof_cache (self (snd run)) = Some snapshot)
  /\ (_lof_cache (self w) = None ->
      fst run = Raise (TimeoutError "数据获取超时，请稍后重试")).
Proof.
  intros Hinit Hout run. subst run.
  destruct (lof_cache_valid (self w) now) as [cache|] eqn:Hvalid.
  - rewrite (get_lof_data_hit _ _ _ _ Hvalid).
    apply lof_cache_valid_Some in Hvalid. cbn [fst snd].
    split; [intros snapshot Hs; split; congruence | congruence].
  - rewrite get_lof_data_miss by assumption. rewrite Hout.
    cbn [await_fetch]. cbv iota. split.
    + intros snapshot Hs. rewrite Hs. cbn [fst snd self]. auto.
    + intros Hs. rewrite Hs. reflexivity.
Qed.

End LofFetch.

(** ** The resilience policy of the two fetchers *)

(** C6, as amended.  For the A-share table ([_get_stock_data]): when the
    three attempts on each of the two providers all fail, a cached table,
    however old, is returned (and stays cached) and the failure is raised
    only when nothing was cached.  For the LOF table ([_get_lof_data], one
    provider, one attempt) the same holds when the attempt times out. *)
Theorem C6_stale_snapshot_on_failure :
  (forall akshare_importable now net (w : process StockAnalyzer.self_t),
     StockAnalyzer._initialized (self w) = true \/ akshare_importable = true ->
     all_attempts_fail net (trace w) ->
     let run := StockAnalyzer._get_stock_data akshare_importable now net w in
     (forall snapshot,
        StockAnalyzer._stock_cache (self w) = Some snapshot ->
        fst run = Ok snapshot
        /\ StockAnalyzer._stock_cache (self (snd run)) = Some snapshot)
     /\ (StockAnalyzer._stock_cache (self w) = None ->
         exists e, fst run = Raise e))
  /\ (forall now fund_lof_spot_em (w : process FundAnalyzer.self_t),
        FundAnalyzer._initialized (self w) = true ->
        fund_lof_spot_em (attempts LOF (trace w)) = TimedOut ->
        let run := FundAnalyzer._get_lof_data now fund_lof_spot_em w in
        (forall snapshot,
           FundAnalyzer._lof_cache (self w) = Some snapshot ->
           fst run = Ok snapshot
           /\ FundAnalyzer._lof_cache (self (snd run)) = Some snapshot)
        /\ (FundAnalyzer._lof_cache (self w) = None ->
            fst run = Raise (TimeoutError "数据获取超时，请稍后重试"))).
Proof.
  split.
  - intros. apply get_stock_data_all_fail; assumption.
  - intros. apply get_lof_data_timeout; assumption.
Qed.

Lemma C6_stale_snapshot_on_failure_witness :
  fst (StockAnalyzer._get_stock_data true 601000000%Z dead_network
         stock_with_cache) = Ok sample_table
  /\ fst (FundAnalyzer._get_lof_data 301000000%Z (fun _ => TimedOut)
            lof_with_cache) = Ok sample_table.
Proof.
  destruct C6_stale_snapshot_on_failure as [Hstock Hlof]. split.
  - refine (proj1 (proj1 (Hstock true 601000000%Z dead_network
                            stock_with_cache _ _) sample_table _)).
    + left. reflexivity.
    + intros i _. split; exact I.
    + reflexivity.
  - refine (proj1 (proj1 (Hlof 301000000%Z (fun _ => TimedOut)
                            lof_with_cache _ _) sample_table _));
      reflexivity.
Defined.

(** C6 as stated fails for the LOF table: when its provider fails with an
    exception that is not a timeout, the exception comes out although a
    cached table exists. *)
Lemma C6_counterexample :
  ~ (forall now fund_lof_spot_em (w : process FundAnalyzer.self_t) snapshot,
       FundAnalyzer._initialized (self w) = true ->
       fails (fund_lof_spot_em (attempts LOF (trace w))) ->
       FundAnalyzer._lof_cache (self w) = Some snapshot ->
       fst (FundAnalyzer._get_lof_data now fund_lof_spot_em w) = Ok snapshot).
Proof.
  intros claim.
  specialize (claim 301000000%Z
                (fun _ => Failed (ProviderError "Connection aborted"))
                lof_with_cache sample_table eq_refl I eq_refl).
  discriminate claim.
Qed.

(** C7, as amended.  For the A-share table: a cache that is still valid is
    returned with no provider call; on a cache miss or expiry
    [_get_stock_data] awaits a prefix of the schedule of three primary
    attempts two seconds apart followed by three secondary attempts two
    seconds apart, and raises only after the whole schedule, all six
    attempts having failed; [_get_stock_data_with_retry] raises exactly
    when all six attempts fail and returns the table of the first attempt
    that delivers.  For the LOF table a cache miss or expiry makes exactly
    one attempt on the one provider, with no delay, and an error comes out
    only if that attempt fails. *)
Theorem C7_retry_policy :
  (forall akshare_importable now net (w : process StockAnalyzer.self_t)
          cache,
     StockAnalyzer._initialized (self w) = true \/ akshare_importable = true ->
     StockAnalyzer.stock_cache_valid (self w) now = Some cache ->
     let run := StockAnalyzer._get_stock_data akshare_importable now net w in
     fst run = Ok cache /\ trace (snd run) = trace w)
  /\ (forall akshare_importable now net (w : process StockAnalyzer.self_t),
        StockAnalyzer._initialized (self w) = true
        \/ akshare_importable = true ->
        StockAnalyzer.stock_cache_valid (self w) now = None ->
        let run :=
          StockAnalyzer._get_stock_data akshare_importable now net w in
        (exists k, trace (snd run) = trace w ++ take k retry_schedule)
        /\ (forall e, fst run = Raise e ->
              all_attempts_fail net (trace w)
              /\ trace (snd run) = trace w ++ retry_schedule))
  /\ (forall net (w : process StockAnalyzer.self_t),
        StockAnalyzer._initialized (self w) = true ->
        let run := StockAnalyzer._get_stock_data_with_retry net w in
        (exists k, trace (snd run) = trace w ++ take k retry_schedule)
        /\ (all_attempts_fail net (trace w) ->
            (exists e, fst run = Raise e)
            /\ trace (snd run) = trace w ++ retry_schedule)
        /\ (forall e, fst run = Raise e -> all_attempts_fail net (trace w))
        /\ (forall df, fst run = Ok df ->
              (exists i, (i < 3)%nat
                 /\ StockAnalyzer.stock_zh_a_spot_em net
                      (attempts EM (trace w) + i) = Fetched df
                 /\ trace (snd run) = trace w ++ loop_events EM (S i))
              \/ (exists i, (i < 3)%nat
                   /\ StockAnalyzer.stock_zh_a_spot net
                        (attempts SINA (trace w) + i) = Fetched df
                   /\ trace (snd run)
                      = trace w ++ loop_events EM 3
                          ++ loop_events SINA (S i))))
  /\ (forall now fund_lof_spot_em (w : process FundAnalyzer.self_t),
        FundAnalyzer._initialized (self w) = true ->
        FundAnalyzer.lof_cache_valid (self w) now = None ->
        let run := FundAnalyzer._get_lof_data now fund_lof_spot_em w in
        trace (snd run) = trace w ++ [Called LOF]
        /\ (forall e, fst run = Raise e ->
              fails (fund_lof_spot_em (attempts LOF (trace w))))).
Proof.
  split; [|split; [|split]].
  - intros imp now net w cache Hinit Hvalid run. subst run.
    destruct (stock_ensure_init_run imp w Hinit)
      as (w1 & Hrun & _ & Hcache & Htime & Htrace).
    rewrite (get_stock_data_run _ _ _ _ _ Hrun).
    assert (Hvalid1 : StockAnalyzer.stock_cache_valid (self w1) now
                      = Some cache).
    { unfold StockAnalyzer.stock_cache_valid in *.
      rewrite Hcache, Htime. exact Hvalid. }
    rewrite Hvalid1. cbn [fst snd]. auto.
  - intros imp now net w Hinit Hvalid run. subst run.
    destruct (stock_ensure_init_run imp w Hinit)
      as (w1 & Hrun & Hinit1 & Hcache & Htime & Htrace).
    rewrite (get_stock_data_run _ _ _ _ _ Hrun).
    assert (Hvalid1 : StockAnalyzer.stock_cache_valid (self w1) now = None).
    { unfold StockAnalyzer.stock_cache_valid in *.
      rewrite Hcache, Htime. exact Hvalid. }
    rewrite Hvalid1.
    destruct (with_retry_run net w1 Hinit1) as (Hpre & Hall & Herr & _).
    rewrite Htrace in Hpre, Hall, Herr.
    destruct (StockAnalyzer._get_stock_data_with_retry net w1)
      as [[df|e] w2] eqn:Erun; cbn [fst snd trace] in *.
    + split; [exact Hpre | intros e He; discriminate He].
    + destruct (StockAnalyzer._stock_cache (self w2)); cbn [fst snd].
      * split; [exact Hpre | intros e' He; discriminate He].
      * split; [exact Hpre|]. intros e' _.
        pose proof (Herr e eq_refl) as Hfail. split; [exact Hfail|].
        destruct (Hall Hfail) as (e'' & _ & [= _ ->]). reflexivity.
  - intros net w Hinit run.
    destruct (with_retry_run net w Hinit) as (Hpre & Hall & Herr & Hok).
    fold run in Hpre, Hall, Herr, Hok.
    split; [exact Hpre|]. split; [|split; [exact Herr|]].
    + intros Hfail. destruct (Hall Hfail) as (e & _ & ->).
      cbn [fst snd trace]. eauto.
    + intros df Hdf.
      destruct (Hok df Hdf)
        as [(i & Hi & E & _ & ->)|(i & Hi & _ & E & _ & ->)];
        [left | right]; exists i; cbn [trace]; auto.
  - intros now prov w Hinit Hmiss run. subst run.
    rewrite get_lof_data_miss by assumption.
    destruct (prov (attempts LOF (trace w))) as [df| |e];
      cbn [await_fetch fails].
    + split; [reflexivity | intros e He; discriminate He].
    + destruct (FundAnalyzer._lof_cache (self w)); auto.
    + destruct e; cbn [fst snd trace]; auto.
      destruct (FundAnalyzer._lof_cache (self w)); auto.
Qed.

Lemma C7_retry_policy_witness :
  let run := StockAnalyzer._get_stock_data_with_retry dead_network
               stock_with_cache in
  (exists e, fst run = Raise e) /\ trace (snd run) = retry_schedule.
Proof.
  destruct C7_retry_policy as (_ & _ & Hretry & _).
  destruct (Hretry dead_network stock_with_cache eq_refl)
    as (_ & Hall & _).
  apply Hall. intros i _. split; exact I.
Defined.

(** C7 as stated fails for the LOF table: on a cache miss a timeout of the
    one attempt is surfaced at once, without a second or third attempt. *)
Lemma C7_counterexample :
  ~ (forall now fund_lof_spot_em (w : process FundAnalyzer.self_t) e,
       FundAnalyzer._initialized (self w) = true ->
       let run := FundAnalyzer._get_lof_data now fund_lof_spot_em w in
       fst run = Raise e ->
       attempts LOF (trace (snd run)) = (attempts LOF (trace w) + 3)%nat).
Proof.
  intros claim.
  specialize (claim 0%Z (fun _ => TimedOut) lof_without_cache
                (TimeoutError "数据获取超时，请稍后重试") eq_refl eq_refl).
  discriminate claim.
Qed.

(** * Further properties *)

(** ** Rounding errors *)

Lemma pow2_add (a b : Z) : (pow2 (a + b) == pow2 a * pow2 b)%Q.
Proof. unfold pow2. apply Qpower_plus. discriminate. Qed.

Lemma pow2_Z (z : Z) : (0 <= z)%Z -> (pow2 z == inject_Z (2 ^ z))%Q.
Proof.
  intros Hz. unfold pow2. rewrite Zpower_Qpower by exact Hz. reflexivity.
Qed.

Lemma pow2_le (a b : Z) : (a <= b)%Z -> (pow2 a <= pow2 b)%Q.
Proof.
  intros H. unfold pow2. apply Qpower_le_compat_l; [exact H | discriminate].
Qed.

Lemma pow2_lt_inv (a b : Z) : (pow2 a < pow2 b)%Q -> (a < b)%Z.
Proof.
  intros H. destruct (Z.lt_ge_cases a b) as [?|Hge]; [assumption|].
  apply pow2_le in Hge. lra.
Qed.

Lemma pow2_succ (a : Z) : (pow2 (a + 1) == 2 * pow2 a)%Q.
Proof. rewrite pow2_add. change (pow2 1) with 2%Q. ring. Qed.

(** [binade a] is the exponent of the power of 2 at or next below [a]. *)
Lemma binade_spec (a : Q) :
  (0 < a)%Q -> (pow2 (binade a) <= a < pow2 (binade a + 1))%Q.
Proof.
  intros Ha. unfold binade. cbv zeta.
  destruct a as [n d].
  assert (Hn : (0 < n)%Z) by (unfold Qlt in Ha; cbn in Ha; lia).
  cbn [Qnum Qden].
  pose proof (Z.log2_spec n Hn) as [Hn1 Hn2].
  pose proof (Z.log2_spec (Z.pos d) ltac:(lia)) as [Hd1 Hd2].
  pose proof (Z.log2_nonneg n) as Hln.
  pose proof (Z.log2_nonneg (Z.pos d)) as Hld.
  set (ln := Z.log2 n) in *. set (ld := Z.log2 (Z.pos d)) in *.
  rewrite <- Z.add_1_r in Hn2, Hd2.
  set (k := (ln - ld)%Z).
  assert (Hk : (pow2 ln == pow2 k * pow2 ld)%Q).
  { rewrite <- pow2_add. unfold k. replace (ln - ld + ld)%Z with ln by lia.
    reflexivity. }
  assert (EN : ((n # d) * inject_Z (Z.pos d) == inject_Z n)%Q).
  { rewrite (Qmake_Qdiv n d). field. unfold Qeq. cbn. lia. }
  assert (HD : (0 < inject_Z (Z.pos d))%Q) by (unfold Qlt; cbn; lia).
  rewrite Zle_Qle in Hn1, Hd1. rewrite Zlt_Qlt in Hn2, Hd2.
  rewrite <- pow2_Z in Hn1, Hn2, Hd1, Hd2 by lia.
  rewrite pow2_succ in Hn2, Hd2.
  pose proof (pow2_pos ln) as Pn. pose proof (pow2_pos ld) as Pd.
  pose proof (pow2_pos k) as Pk.
  set (N := inject_Z n) in *. set (D := inject_Z (Z.pos d)) in *.
  set (a := n # d) in *.
  set (A := pow2 ln) in *. set (R := pow2 ld) in *. set (K := pow2 k) in *.
  assert (Hup : (a < 2 * K)%Q).
  { assert (a * D < 2 * K * D)%Q by (rewrite EN; nra).
    nra. }
  assert (Hdown : (K < 2 * a)%Q).
  { assert (K * D < 2 * a * D)%Q by nra. nra. }
  destruct (Qle_bool K a) eqn:E.
  - apply Qle_bool_iff in E. rewrite pow2_succ. fold K.
    split; [exact E | exact Hup].
  - assert (Hlt : (a < K)%Q).
    { apply Qnot_le_lt. intros H. apply Qle_bool_iff in H. congruence. }
    replace (k - 1 + 1)%Z with k by lia. fold K. split; [|exact Hlt].
    assert (EK : (K == 2 * pow2 (k - 1))%Q).
    { unfold K. rewrite <- pow2_succ. replace (k - 1 + 1)%Z with k by lia.
      reflexivity. }
    lra.
Qed.

(** [round_half_even] is within a half of its argument. *)
Lemma round_half_even_within (q : Q) :
  (q - (1 # 2) <= inject_Z (round_half_even q) <= q + (1 # 2))%Q.
Proof.
  destruct q as [n d]. unfold round_half_even. cbn [Qnum Qden].
  pose proof (Z.div_mod n (Z.pos d) ltac:(lia)) as Hdiv.
  pose proof (Z.mod_pos_bound n (Z.pos d) ltac:(lia)) as Hmod.
  set (f := (n / Z.pos d)%Z) in *. set (r := (n mod Z.pos d)%Z) in *.
  assert (Hcases : forall k : Z,
             (2 * Z.abs (k * Z.pos d - n) <= Z.pos d)%Z ->
             ((n # d) - (1 # 2) <= inject_Z k <= (n # d) + (1 # 2))%Q).
  { intros k Hk. unfold Qle, Qminus, Qplus, Qopp, inject_Z.
    cbn [Qnum Qden]. rewrite !Pos2Z.inj_mul. split; nia. }
  destruct (Z.compare_spec (2 * r) (Z.pos d)) as [E|L|G].
  - destruct (Z.even f); apply Hcases; nia.
  - apply Hcases. nia.
  - apply Hcases. nia.
Qed.

(** A value of size at most [B], for a [B] from 2^-1022 to below 2^1023,
    rounds to a finite float within [B * 2^-53] of it: 2^-53 is the unit
    roundoff, and [B * 2^-53] is at least half the spacing of the
    subnormal numbers. *)
Lemma round64_close (q B : Q) :
  (- B <= q <= B)%Q -> (pow2 (-1022) <= B)%Q -> (B < pow2 1023)%Q ->
  exists r, round64 q = Finite r
    /\ (q - B * pow2 (-53) <= r <= q + B * pow2 (-53))%Q.
Proof.
  intros Hq HB HB'. unfold round64.
  pose proof (pow2_pos (-53)) as P53.
  destruct (Qeq_bool q 0) eqn:E0.
  { apply Qeq_bool_iff in E0. exists 0%Q. split; [reflexivity|].
    assert (0 <= B * pow2 (-53))%Q by nra. lra. }
  assert (Hq0 : ~ (q == 0)%Q).
  { intros E. apply Qeq_bool_iff in E. congruence. }
  cbv zeta.
  assert (Ha : (0 < Qabs q)%Q).
  { destruct (Qlt_le_dec q 0) as [Hneg|Hpos].
    - rewrite (Qabs_neg q) by lra. lra.
    - rewrite (Qabs_pos q Hpos).
      apply Qle_lteq in Hpos as [H|H]; [exact H|].
      exfalso. apply Hq0. symmetry. exact H. }
  assert (HaB : (Qabs q <= B)%Q) by (apply Qabs_Qle_condition; exact Hq).
  set (a := Qabs q) in *.
  destruct (binade_spec a Ha) as [Hb1 Hb2].
  set (b := binade a) in *.
  assert (Hb : (b < 1023)%Z) by (apply pow2_lt_inv; lra).
  set (e := Z.max (b - 52) (-1074)).
  assert (He : (e <= 970)%Z) by (unfold e; lia).
  assert (C1 : (971 <? e)%Z = false) by (apply Z.ltb_ge; lia).
  assert (C2 : (e =? 971)%Z = false) by (apply Z.eqb_neq; lia).
  rewrite C1, C2. cbn [orb andb].
  eexists. split; [reflexivity|].
  rewrite Qred_correct.
  pose proof (round_half_even_within (a / pow2 e)) as [Hlo Hhi].
  set (m := inject_Z (round_half_even (a / pow2 e))) in *.
  pose proof (pow2_pos e) as Pe.
  assert (Ediv : (a / pow2 e * pow2 e == a)%Q) by (field; lra).
  assert (Hm : (a - pow2 e * (1 # 2) <= m * pow2 e
                <= a + pow2 e * (1 # 2))%Q).
  { set (t := (a / pow2 e)%Q) in *. nra. }
  assert (Hulp : (pow2 e * (1 # 2) <= B * pow2 (-53))%Q).
  { assert (E2 : (pow2 e == 2 * pow2 (e - 1))%Q).
    { rewrite <- pow2_succ. replace (e - 1 + 1)%Z with e by lia.
      reflexivity. }
    destruct (Z.max_spec (b - 52) (-1074)) as [[_ Emax]|[_ Emax]];
      fold e in Emax.
    - assert (E3 : (pow2 (e - 1) == pow2 (-1022) * pow2 (-53))%Q).
      { rewrite <- pow2_add. rewrite Emax. reflexivity. }
      nra.
    - assert (E3 : (pow2 (e - 1) == pow2 b * pow2 (-53))%Q).
      { rewrite <- pow2_add. rewrite Emax.
        replace (b - 52 - 1)%Z with (b + -53)%Z by lia. reflexivity. }
      nra. }
  destruct (Qle_bool 0 q) eqn:Es.
  - apply Qle_bool_iff in Es.
    assert (Eabs : (a == q)%Q) by (apply Qabs_pos; exact Es).
    lra.
  - assert (Hneg : (q <= 0)%Q).
    { apply Qlt_le_weak, Qnot_le_lt. intros H. apply Qle_bool_iff in H.
      congruence. }
    assert (Eabs : (a == - q)%Q) by (apply Qabs_neg; exact Hneg).
    lra.
Qed.

Lemma inject_nat_S (n : nat) :
  (inject_Z (Z.of_nat (S n)) == inject_Z (Z.of_nat n) + 1)%Q.
Proof. rewrite Nat2Z.inj_succ, <- Z.add_1_r, inject_Z_plus. reflexivity. Qed.

Lemma inject_nat_nonneg (n : nat) : (0 <= inject_Z (Z.of_nat n))%Q.
Proof. change 0%Q with (inject_Z 0). rewrite <- Zle_Qle. lia. Qed.

(** A sum of floats, each at most [M] in size, whose partial sums stay
    within [B]: every addition rounds by at most [B * 2^-53], and the
    roundings add up.  The running sum [a] stands for the exact sum [A]
    up to [err]. *)
Lemma fold_fadd_close (B M : Q) :
  (pow2 (-1022) <= B)%Q -> (B < pow2 1023)%Q ->
  forall (qs : list Q) (a A err : Q),
    (forall x, x ∈ qs -> - M <= x <= M)%Q ->
    (0 <= err)%Q -> (A - err <= a <= A + err)%Q ->
    let n := inject_Z (Z.of_nat (length qs)) in
    (- (B - err - n * (M + B * pow2 (-53))) <= A
     <= B - err - n * (M + B * pow2 (-53)))%Q ->
    exists s, fold_left fadd (map Finite qs) (Finite a) = Finite s
      /\ (fold_left Qplus qs A - (err + n * (B * pow2 (-53))) <= s
          <= fold_left Qplus qs A + (err + n * (B * pow2 (-53))))%Q.
Proof.
  intros HB HB'. pose proof (pow2_pos (-53)) as P53.
  pose proof (pow2_pos (-1022)) as P1022.
  set (eps := (B * pow2 (-53))%Q).
  assert (Heps : (0 <= eps)%Q) by (unfold eps; nra).
  induction qs as [|x qs IH]; intros a A err HM Herr Ha n HA.
  - exists a. split; [reflexivity|]. cbn [fold_left]. subst n.
    cbn [length]. change (inject_Z (Z.of_nat 0)) with 0%Q. lra.
  - cbn [map fold_left fadd].
    assert (Hx : (- M <= x <= M)%Q) by (apply HM; left).
    assert (HM0 : (0 <= M)%Q) by lra.
    subst n. cbn [length] in HA |- *.
    pose proof (inject_nat_nonneg (length qs)) as Hn.
    pose proof (inject_nat_S (length qs)) as ES.
    set (n := inject_Z (Z.of_nat (length qs))) in *.
    set (n' := inject_Z (Z.of_nat (S (length qs)))) in *.
    assert (E1 : (n' * (M + eps) == n * (M + eps) + (M + eps))%Q)
      by (rewrite ES; ring).
    assert (E2 : (n' * eps == n * eps + eps)%Q) by (rewrite ES; ring).
    assert (Hnn : (0 <= n * (M + eps))%Q) by nra.
    rewrite E1 in HA.
    set (t := (n * (M + eps))%Q) in *. set (t2 := (n * eps)%Q) in *.
    set (t2' := (n' * eps)%Q) in *.
    destruct (round64_close (a + x) B) as (a' & Ea' & Hclose);
      [lra | exact HB | exact HB' |].
    fold eps in Hclose. rewrite Ea'.
    destruct (IH a' (A + x)%Q (err + eps)%Q) as (s & Es & Hs).
    + intros y Hy. apply HM. now right.
    + lra.
    + lra.
    + fold n. fold t. lra.
    + exists s. split; [exact Es|]. fold n in Hs. fold t2 in Hs. lra.
Qed.

(** The float sum of at most [N] closes of size at most [M] is within
    [N * B * 2^-53] of their exact sum, for any [B] that bounds the partial
    sums with some room. *)
Lemma fsum_close (B M : Q) (qs : list Q) :
  (pow2 (-1022) <= B)%Q -> (B < pow2 1023)%Q ->
  (forall x, x ∈ qs -> - M <= x <= M)%Q ->
  let n := inject_Z (Z.of_nat (length qs)) in
  (n * (M + B * pow2 (-53)) <= B)%Q ->
  exists s, fsum (map Finite qs) = Finite s
    /\ (Qsum qs - n * (B * pow2 (-53)) <= s
        <= Qsum qs + n * (B * pow2 (-53)))%Q.
Proof.
  intros HB HB' HM n Hn. unfold fsum, of_Z, Qsum.
  destruct (fold_fadd_close B M HB HB' qs (inject_Z 0) 0%Q 0%Q HM)
    as (s & Es & Hs).
  - lra.
  - change (inject_Z 0) with 0%Q. lra.
  - fold n. lra.
  - exists s. split; [exact Es|]. fold n in Hs. lra.
Qed.

Lemma fold_Qplus_between (lo hi : Q) (qs : list Q) (A : Q) :
  (forall x, x ∈ qs -> lo <= x <= hi)%Q ->
  let n := inject_Z (Z.of_nat (length qs)) in
  (A + n * lo <= fold_left Qplus qs A <= A + n * hi)%Q.
Proof.
  revert A. induction qs as [|x qs IH]; intros A HM n.
  - subst n. cbn [length fold_left].
    change (inject_Z (Z.of_nat 0)) with 0%Q. lra.
  - subst n. cbn [length fold_left].
    pose proof (inject_nat_S (length qs)) as ES.
    assert (Hx : (lo <= x <= hi)%Q) by (apply HM; left).
    specialize (IH (A + x)%Q ltac:(intros y Hy; apply HM; now right)).
    cbv zeta in IH.
    set (n := inject_Z (Z.of_nat (length qs))) in *.
    set (n' := inject_Z (Z.of_nat (S (length qs)))) in *.
    assert (E : (n' * lo == n * lo + lo)%Q) by (rewrite ES; ring).
    assert (E' : (n' * hi == n * hi + hi)%Q) by (rewrite ES; ring).
    set (t := (n * lo)%Q) in *. set (t' := (n' * lo)%Q) in *.
    set (u := (n * hi)%Q) in *. set (u' := (n' * hi)%Q) in *. lra.
Qed.

Lemma fold_Qplus_bound (M : Q) (qs : list Q) (A : Q) :
  (forall x, x ∈ qs -> - M <= x <= M)%Q ->
  let n := inject_Z (Z.of_nat (length qs)) in
  (A - n * M <= fold_left Qplus qs A <= A + n * M)%Q.
Proof.
  intros HM n. pose proof (fold_Qplus_between (- M) M qs A HM) as H.
  cbv zeta in H. fold n in H.
  assert (E : (n * - M == - (n * M))%Q) by ring.
  set (t := (n * M)%Q) in *. set (t' := (n * - M)%Q) in *. lra.
Qed.

(** The float mean of a window of [w] closes of size at most [M]: within
    [2 * B * 2^-53] of the exact mean, [B] bounding the sums. *)
Lemma window_mean_close (B M : Q) (qs : list Q) (w : nat) :
  (pow2 (-1022) <= B)%Q -> (B < pow2 1023)%Q ->
  (1 <= w <= length qs)%nat ->
  (forall x, x ∈ slice_last w qs -> - M <= x <= M)%Q ->
  (inject_Z (Z.of_nat w) * (M + B * pow2 (-53)) <= B)%Q ->
  exists mu, window_mean (map Finite qs) w = Finite mu
    /\ (exact_mean qs w - 2 * (B * pow2 (-53)) <= mu
        <= exact_mean qs w + 2 * (B * pow2 (-53)))%Q.
Proof.
  intros HB HB' Hw HM Hroom.
  pose proof (pow2_pos (-53)) as P53. pose proof (pow2_pos (-1022)) as P1022.
  unfold window_mean, exact_mean. rewrite slice_last_map.
  set (rs := slice_last w qs) in *.
  assert (Hlen : length rs = w) by (apply length_slice_last; exact Hw).
  destruct (fsum_close B M rs HB HB' HM) as (s & -> & Hs).
  { rewrite Hlen. exact Hroom. }
  pose proof (fold_Qplus_bound M rs 0%Q HM) as Hsum.
  cbv zeta in Hs, Hsum. rewrite Hlen in Hs, Hsum. fold (Qsum rs) in Hsum.
  set (W := inject_Z (Z.of_nat w)) in *.
  assert (HW : (1 <= W)%Q).
  { unfold W. change 1%Q with (inject_Z 1). rewrite <- Zle_Qle. lia. }
  set (eps := (B * pow2 (-53))%Q) in *.
  assert (Heps : (0 <= eps)%Q) by (unfold eps; nra).
  assert (HiW : (0 < / W <= 1)%Q).
  { split; [apply Qinv_lt_0_compat; lra|].
    apply Qle_shift_inv_r; lra. }
  assert (EW : (W * / W == 1)%Q) by (apply Qmult_inv_r; lra).
  unfold of_nat, of_Z. cbn [fquot]. fold W.
  destruct (round64_close (s / W) B) as (mu & -> & Hmu);
    [| exact HB | exact HB' |].
  - unfold Qdiv. set (i := (/ W)%Q) in *.
    set (T := Qsum rs) in *.
    assert (- B <= s <= B)%Q by nra.
    split; nra.
  - exists mu. split; [reflexivity|]. fold eps in Hmu.
    unfold Qdiv in *. set (i := (/ W)%Q) in *. set (T := Qsum rs) in *.
    assert (- eps <= (s - T) * i <= eps)%Q.
    { assert (E : (eps == W * eps * i)%Q)
        by (rewrite <- (Qmult_1_l eps) at 1; rewrite <- EW; ring).
      split.
      - rewrite E.
        assert (H : (- (W * eps * i) == (- (W * eps)) * i)%Q) by ring.
        rewrite H. apply Qmult_le_compat_r; lra.
      - rewrite E. apply Qmult_le_compat_r; lra. }
    assert (E2 : (s * i == T * i + (s - T) * i)%Q) by ring.
    lra.
Qed.

(** [round(x, n)] on a finite float of size below [B]: within half a unit
    of the [n]-th decimal of [x], and a rounding to binary64. *)
Lemma round_ndigits_close (q B : Q) (n : nat) :
  let half := ((1 # 2) / inject_Z (10 ^ Z.of_nat n))%Q in
  (- (B - half) <= q <= B - half)%Q ->
  (pow2 (-1022) <= B)%Q -> (B < pow2 1023)%Q ->
  exists r, round_ndigits (Finite q) n = Finite r
    /\ (q - (half + B * pow2 (-53)) <= r
        <= q + (half + B * pow2 (-53)))%Q.
Proof.
  intros half Hq HB HB'. cbn [round_ndigits]. cbv zeta.
  set (scale := inject_Z (10 ^ Z.of_nat n)) in *.
  assert (Hs : (0 < scale)%Q).
  { unfold scale. change 0%Q with (inject_Z 0). rewrite <- Zlt_Qlt.
    apply Z.pow_pos_nonneg; lia. }
  pose proof (round_half_even_within (q * scale)) as [Hlo Hhi].
  set (k := inject_Z (round_half_even (q * scale))) in *.
  assert (Hdec : (q - half <= k / scale <= q + half)%Q).
  { unfold half. split.
    - apply Qle_shift_div_l; [exact Hs|].
      assert (E : ((q - (1 # 2) / scale) * scale == q * scale - (1 # 2))%Q)
        by (field; lra).
      rewrite E. exact Hlo.
    - apply Qle_shift_div_r; [exact Hs|].
      assert (E : ((q + (1 # 2) / scale) * scale == q * scale + (1 # 2))%Q)
        by (field; lra).
      rewrite E. exact Hhi. }
  destruct (round64_close (k / scale) B) as (r & -> & Hr);
    [lra | exact HB | exact HB' |].
  exists r. split; [reflexivity|]. lra.
Qed.

(** ** More on the technical indicators *)

Section MoreIndicators.
Import FundAnalyzer.

Lemma closes_lookup (history_data : list bar) (k : nat) :
  map close history_data !! (length (map close history_data) - k)%nat
  = close_from_end history_data k.
Proof.
  unfold close_from_end. rewrite length_map. apply list_lookup_fmap.
Qed.

(** A return entry is computed, not raised, unless its base close is 0. *)
Lemma return_field_Ok_iff (closes : list pyfloat) (d : nat) :
  (exists v, return_field closes d = Ok v) <->
  ((length closes < d + 1)%nat
   \/ exists base, closes !! (length closes - (d + 1))%nat = Some base
                   /\ is_zero base = false).
Proof.
  split.
  - intros [v Hv].
    destruct (Nat.ltb_spec (length closes) (d + 1)) as [?|Hlen]; [now left|].
    right. destruct (index_from_end_Ok closes (d + 1)) as (base & _ & Hb);
      [lia|].
    exists base. split; [exact Hb|].
    destruct (is_zero base) eqn:Hz; [|reflexivity].
    rewrite (return_field_zero_base closes d base) in Hv by assumption.
    discriminate.
  - intros [Hshort|(base & Hb & Hz)].
    + rewrite return_field_short by exact Hshort. eauto.
    + destruct (Nat.ltb_spec (length closes) (d + 1)) as [Hshort|Hlen].
      { rewrite return_field_short by exact Hshort. eauto. }
      destruct (return_field_nonzero_base closes d base Hlen Hb Hz)
        as (? & _ & ->). eauto.
Qed.

(** The function raises [ZeroDivisionError] exactly on a zero base close. *)
Lemma raises_iff_zero_base (history_data : list bar) :
  calculate_technical_indicators history_data = Raise ZeroDivisionError
  <-> zero_base history_data.
Proof.
  split.
  + intros Hraise.
    destruct (Nat.ltb_spec (length history_data) 5) as [Hshort|Hlong].
    { rewrite indicators_short in Hraise by exact Hshort. discriminate. }
    rewrite indicators_long in Hraise by exact Hlong. cbv zeta in Hraise.
    set (closes := map close history_data) in *.
    assert (Hn : length closes = length history_data)
      by (unfold closes; apply length_map).
    assert (Hzero : forall d, (d = 5 \/ d = 10 \/ d = 20)%nat ->
              ~ (exists v, return_field closes d = Ok v) ->
              zero_base history_data).
    { intros d Hd Hno.
      destruct (Nat.ltb_spec (length closes) (d + 1)) as [?|Hlen].
      { destruct Hno. apply return_field_Ok_iff. now left. }
      destruct (index_from_end_Ok closes (d + 1)) as (base & _ & Hb);
        [lia|].
      destruct (is_zero base) eqn:Hz.
      - exists d, base. repeat split; [exact Hd | lia | | exact Hz].
        rewrite <- closes_lookup. exact Hb.
      - destruct Hno. apply return_field_Ok_iff. right. eauto. }
    destruct (index_from_end_Ok closes 1) as (cp & Hcp & _); [lia|].
    rewrite Hcp in Hraise. cbn [mbind result_bind] in Hraise.
    destruct (return_field closes 5) as [r5|e5] eqn:E5;
      [|apply (Hzero 5%nat); [tauto | intros [v Hv]; congruence]].
    cbn [mbind result_bind] in Hraise.
    destruct (return_field closes 10) as [r10|e10] eqn:E10;
      [|apply (Hzero 10%nat); [tauto | intros [v Hv]; congruence]].
    cbn [mbind result_bind] in Hraise.
    destruct (return_field closes 20) as [r20|e20] eqn:E20;
      [|apply (Hzero 20%nat); [tauto | intros [v Hv]; congruence]].
    cbn [mbind result_bind] in Hraise.
    destruct (volatility_field_cases closes) as [[vol Hvol]|Hvol];
      rewrite Hvol in Hraise; [|discriminate Hraise].
    cbn [mbind result_bind] in Hraise.
    destruct (high_low_fields_Ok closes) as (hi & lo & Hhi & Hlo).
    { intros E. rewrite E in Hn. cbn in Hn. lia. }
    rewrite Hhi, Hlo in Hraise. discriminate.
  + intros (d & base & Hd & Hlen & Hb & Hz).
    assert (Hlong : (5 <= length history_data)%nat)
      by (destruct Hd as [-> | [-> | ->]]; lia).
    rewrite indicators_long by exact Hlong. cbv zeta.
    set (closes := map close history_data).
    assert (Hn : length closes = length history_data)
      by (unfold closes; apply length_map).
    assert (Hraise : return_field closes d = Raise ZeroDivisionError).
    { apply (return_field_zero_base closes d base); [lia | | exact Hz].
      unfold closes. rewrite closes_lookup. exact Hb. }
    destruct (index_from_end_Ok closes 1) as (cp & -> & _); [lia|].
    cbn [mbind result_bind].
    destruct (return_field_cases closes 5) as [[v5 E5]|E5];
      [|rewrite E5; reflexivity].
    destruct (return_field_cases closes 10) as [[v10 E10]|E10];
      [|rewrite E5, E10; reflexivity].
    destruct Hd as [-> | [-> | ->]]; [congruence | congruence |].
    rewrite E5, E10, Hraise. reflexivity.
Qed.

(** A squared deviation overflows for some element of the window, or
    the list of squared deviations is returned. *)
Lemma squared_deviations_raise (recent : list pyfloat) (mean : pyfloat) :
  squared_deviations recent mean = Raise OverflowError
  <-> exists x, x ∈ recent /\ fsquare (fsub x mean) = Raise OverflowError.
Proof.
  induction recent as [|y recent IH]; cbn [squared_deviations].
  - split; [discriminate|]. intros (x & Hx & _). inversion Hx.
  - destruct (fsquare_cases (fsub y mean)) as [[d Hd]|Hd]; rewrite Hd;
      cbn [mbind result_bind].
    + destruct (squared_deviations recent mean) as [ds|e] eqn:E;
        cbn [mbind result_bind].
      * split; [discriminate|]. intros (x & Hx & Hraise).
        apply elem_of_cons in Hx as [->|Hx]; [congruence|].
        assert (H : Ok ds = Raise OverflowError)
          by (apply IH; eauto). discriminate H.
      * split.
        -- intros [= ->]. destruct (proj1 IH eq_refl) as (x & Hx & Hraise).
           exists x. split; [now right | exact Hraise].
        -- intros (x & Hx & Hraise).
           apply elem_of_cons in Hx as [->|Hx]; [congruence|].
           f_equal. assert (H : Raise e = Raise OverflowError)
             by (apply IH; eauto). congruence.
    + split; [|reflexivity]. intros _. exists y. split; [left | exact Hd].
Qed.

(** [calculate_volatility] raises exactly when a squared deviation
    overflows. *)
Lemma calculate_volatility_raise (history_data : list bar) :
  calculate_volatility (map close history_data) 20 = Raise OverflowError
  <-> deviation_overflows history_data.
Proof.
  unfold calculate_volatility, deviation_overflows. rewrite length_map.
  destruct (Nat.ltb_spec (length history_data) 20) as [Hshort|Hlong].
  { split; [discriminate | intros [? _]; lia]. }
  cbv zeta. set (recent := slice_last 20 (map close history_data)).
  assert (Hlen : length recent = 20%nat).
  { unfold recent. apply length_slice_last. rewrite length_map. lia. }
  rewrite Hlen. rewrite !fdiv_of_nat by lia. cbn [mbind result_bind].
  destruct (squared_deviations recent _) as [ds|e] eqn:E;
    cbn [mbind result_bind].
  - split; [discriminate|]. intros [_ H].
    apply squared_deviations_raise in H. congruence.
  - split.
    + intros [= ->]. split; [lia|]. apply squared_deviations_raise, E.
    + intros [_ H]. apply squared_deviations_raise in H. congruence.
Qed.

(** The volatility entry raises exactly when [calculate_volatility]
    does. *)
Lemma volatility_field_raise (closes : list pyfloat) :
  volatility_field closes = Raise OverflowError
  <-> calculate_volatility closes 20 = Raise OverflowError.
Proof.
  unfold volatility_field.
  destruct (calculate_volatility_cases closes) as [(o & Ho & Hnn)|Hraise].
  - rewrite Ho. cbn [mbind result_bind].
    split; [|discriminate].
    destruct o as [[v]|]; [|discriminate].
    destruct (root_truthy (RootOf v)); [|discriminate].
    cbn [mbind result_bind]. unfold round_root.
    destruct v as [q| | |]; try discriminate.
    destruct (Qltb q 0); discriminate.
  - rewrite Hraise. cbn [mbind result_bind]. tauto.
Qed.

(** The function raises [OverflowError] exactly when no base close is
    zero and a squared deviation overflows. *)
Lemma raises_overflow_iff (history_data : list bar) :
  calculate_technical_indicators history_data = Raise OverflowError
  <-> ~ zero_base history_data /\ deviation_overflows history_data.
Proof.
  rewrite <- calculate_volatility_raise, <- volatility_field_raise.
  rewrite <- raises_iff_zero_base.
  destruct (Nat.ltb_spec (length history_data) 5) as [Hshort|Hlong].
  { rewrite indicators_short by exact Hshort.
    split; [discriminate|]. intros [_ H].
    apply volatility_field_raise, calculate_volatility_raise in H.
    destruct H as [H _]. lia. }
  rewrite indicators_long by exact Hlong. cbv zeta.
  set (closes := map close history_data).
  assert (Hn : length closes = length history_data)
    by (unfold closes; apply length_map).
  destruct (index_from_end_Ok closes 1) as (cp & -> & _); [lia|].
  cbn [mbind result_bind].
  destruct (return_field_cases closes 5) as [[v5 E5]|E5]; rewrite E5;
    cbn [mbind result_bind];
    [|split; [discriminate | intros [H _]; now destruct H]].
  destruct (return_field_cases closes 10) as [[v10 E10]|E10]; rewrite E10;
    cbn [mbind result_bind];
    [|split; [discriminate | intros [H _]; now destruct H]].
  destruct (return_field_cases closes 20) as [[v20 E20]|E20]; rewrite E20;
    cbn [mbind result_bind];
    [|split; [discriminate | intros [H _]; now destruct H]].
  destruct (volatility_field_cases closes) as [[vol Hvol]|Hvol];
    rewrite Hvol; cbn [mbind result_bind].
  - destruct (high_low_fields_Ok closes) as (hi & lo & -> & ->).
    { intros E. rewrite E in Hn. cbn in Hn. lia. }
    cbn [mbind result_bind].
    split; [discriminate | intros [_ H]; discriminate H].
  - split; [|reflexivity]. intros _. split; [discriminate | reflexivity].
Qed.

(** X1.  [calculate_technical_indicators] raises [ZeroDivisionError]
    exactly when the base close of one of its three returns (the close 6,
    11 or 21 bars from the end) is zero, and [OverflowError] exactly when
    no base close is zero and, among the last 20 closes, the square of a
    deviation from their mean overflows; it raises nothing else. *)
Theorem X1_what_raises (history_data : list bar) :
  (calculate_technical_indicators history_data = Raise ZeroDivisionError
   <-> zero_base history_data)
  /\ (calculate_technical_indicators history_data = Raise OverflowError
      <-> ~ zero_base history_data /\ deviation_overflows history_data)
  /\ (forall e, calculate_technical_indicators history_data = Raise e ->
        e = ZeroDivisionError \/ e = OverflowError).
Proof.
  split; [apply raises_iff_zero_base|].
  split; [apply raises_overflow_iff|].
  intros e He.
  destruct (indicators_outcomes history_data) as [[m Hm]|[Hz|Ho]];
    [congruence | left; congruence | right; congruence].
Qed.

(** Nineteen closes of 1 and one of 2^700: the deviation of the last from
    the mean has a square beyond the floats. *)
Example huge_close_overflows :
  calculate_technical_indicators
    (series (replicate 19 1%Q ++ [inject_Z (2 ^ 700)]))
  = Raise OverflowError.
Proof.
  apply raises_overflow_iff. split.
  - intros (d & base & Hd & _ & Hbase & Hz).
    destruct Hd as [-> | [-> | ->]]; cbn in Hbase;
      try discriminate Hbase; injection Hbase as <-; discriminate Hz.
  - split; [cbn; lia|]. cbv zeta.
    exists (Finite (inject_Z (2 ^ 700))). split.
    + apply list_elem_of_lookup. exists 19%nat. reflexivity.
    + vm_compute. reflexivity.
Qed.

(** Thirty closes of 0.1: the float mean of the last twenty is one unit in
    the last place above 0.1, the deviations are not 0, and the
    volatility entry is 0.0, present. *)
Example flat_tenth_volatility_present :
  let closes := replicate 30 (round64 (1 # 10)) in
  calculate_volatility closes 20 <> Ok (Some (RootOf (Finite 0)))
  /\ volatility_field closes = Ok (VFloat (Finite 0)).
Proof.
  split; [vm_compute; discriminate | vm_compute; reflexivity].
Qed.

Lemma Qltb_true (a b : Q) : Qltb a b = true <-> (a < b)%Q.
Proof.
  unfold Qltb. rewrite negb_true_iff. split.
  - intros H. apply Qnot_le_lt. intros Hle.
    apply Qle_bool_iff in Hle. congruence.
  - intros H. destruct (Qle_bool b a) eqn:E; [|reflexivity].
    apply Qle_bool_iff in E. apply Qlt_not_le in H. contradiction.
Qed.

Lemma Qltb_false (a b : Q) : Qltb a b = false <-> (b <= a)%Q.
Proof.
  unfold Qltb. rewrite negb_false_iff. apply Qle_bool_iff.
Qed.

(** The running maximum of [max] over finite floats. *)
Lemma fold_max_finite (rest : list Q) (acc : Q) :
  exists m,
    fold_left (fun m y => if fgt y m then y else m) (map Finite rest)
      (Finite acc) = Finite m
    /\ (m = acc \/ m ∈ rest)
    /\ (acc <= m)%Q
    /\ (forall x, x ∈ rest -> (x <= m)%Q).
Proof.
  revert acc. induction rest as [|y rest IH]; intros acc; cbn [map fold_left].
  - exists acc. split; [reflexivity|]. split; [now left|].
    split; [apply Qle_refl|]. intros x Hx. inversion Hx.
  - unfold fgt at 2. cbn [flt].
    destruct (Qltb acc y) eqn:E.
    + apply Qltb_true in E.
      destruct (IH y) as (m & Hm & Hin & Hle & Hall). exists m.
      split; [exact Hm|].
      split; [right; destruct Hin as [->|?]; [left | right; assumption]|].
      split; [apply Qlt_le_weak; eapply Qlt_le_trans; eassumption|].
      intros x Hx. apply elem_of_cons in Hx as [->|Hx]; auto.
    + apply Qltb_false in E.
      destruct (IH acc) as (m & Hm & Hin & Hle & Hall). exists m.
      split; [exact Hm|].
      split; [destruct Hin as [->|?]; [now left | right; now right]|].
      split; [exact Hle|].
      intros x Hx. apply elem_of_cons in Hx as [->|Hx]; auto.
      eapply Qle_trans; eassumption.
Qed.

Lemma fold_min_finite (rest : list Q) (acc : Q) :
  exists m,
    fold_left (fun m y => if flt y m then y else m) (map Finite rest)
      (Finite acc) = Finite m
    /\ (m = acc \/ m ∈ rest)
    /\ (m <= acc)%Q
    /\ (forall x, x ∈ rest -> (m <= x)%Q).
Proof.
  revert acc. induction rest as [|y rest IH]; intros acc; cbn [map fold_left].
  - exists acc. split; [reflexivity|]. split; [now left|].
    split; [apply Qle_refl|]. intros x Hx. inversion Hx.
  - cbn [flt].
    destruct (Qltb y acc) eqn:E.
    + apply Qltb_true in E.
      destruct (IH y) as (m & Hm & Hin & Hle & Hall). exists m.
      split; [exact Hm|].
      split; [right; destruct Hin as [->|?]; [left | right; assumption]|].
      split; [apply Qlt_le_weak; eapply Qle_lt_trans; eassumption|].
      intros x Hx. apply elem_of_cons in Hx as [->|Hx]; auto.
    + apply Qltb_false in E.
      destruct (IH acc) as (m & Hm & Hin & Hle & Hall). exists m.
      split; [exact Hm|].
      split; [destruct Hin as [->|?]; [now left | right; now right]|].
      split; [exact Hle|].
      intros x Hx. apply elem_of_cons in Hx as [->|Hx]; auto.
      eapply Qle_trans; eassumption.
Qed.

Lemma py_max_finite (qs : list Q) :
  qs <> [] ->
  exists m, py_max (map Finite qs) = Ok (Finite m)
            /\ m ∈ qs /\ forall x, x ∈ qs -> (x <= m)%Q.
Proof.
  destruct qs as [|q qs]; [congruence|]. intros _. cbn [map py_max].
  destruct (fold_max_finite qs q) as (m & -> & Hin & Hle & Hall).
  exists m. split; [reflexivity|].
  split; [destruct Hin as [->|?]; [left | now right]|].
  intros x Hx. apply elem_of_cons in Hx as [->|Hx]; auto.
Qed.

Lemma py_min_finite (qs : list Q) :
  qs <> [] ->
  exists m, py_min (map Finite qs) = Ok (Finite m)
            /\ m ∈ qs /\ forall x, x ∈ qs -> (m <= x)%Q.
Proof.
  destruct qs as [|q qs]; [congruence|]. intros _. cbn [map py_min].
  destruct (fold_min_finite qs q) as (m & -> & Hin & Hle & Hall).
  exists m. split; [reflexivity|].
  split; [destruct Hin as [->|?]; [left | now right]|].
  intros x Hx. apply elem_of_cons in Hx as [->|Hx]; auto.
Qed.

Lemma slice_last_short {A : Type} (k : nat) (l : list A) :
  (length l <= k)%nat -> slice_last k l = l.
Proof.
  intros H. destruct k as [|k]; [reflexivity|]. cbn [slice_last].
  replace (length l - S k)%nat with 0%nat by lia. reflexivity.
Qed.

(** X2.  On finite closes, when the call returns on 5 bars or more, the
    [high_20d] and [low_20d] entries are closes of the last 20 bars (of all
    the bars when there are fewer), and every close of that window lies
    between them. *)
Theorem X2_high_low_bound_window (history_data : list bar)
    (m : gmap string pyval) (qs : list Q) :
  calculate_technical_indicators history_data = Ok m ->
  map close history_data = map Finite qs ->
  (5 <= length history_data)%nat ->
  exists hi lo,
    m !! "high_20d" = Some (VFloat (Finite hi))
    /\ m !! "low_20d" = Some (VFloat (Finite lo))
    /\ hi ∈ high_low_window qs /\ lo ∈ high_low_window qs
    /\ forall x, x ∈ high_low_window qs -> (lo <= x <= hi)%Q.
Proof.
  intros H Hcloses Hlong.
  destruct (indicators_Ok_inv _ _ Hlong H)
    as (cp & r5 & r10 & r20 & vol & hi & lo
        & _ & _ & _ & _ & _ & Hhi & Hlo & ->).
  rewrite Hcloses in Hhi, Hlo |- *.
  assert (Hn : length qs = length history_data).
  { rewrite <- (length_map Finite qs), <- Hcloses. apply length_map. }
  assert (Hwin : forall (f : list pyfloat -> result pyfloat),
             (if (20 <=? length (map Finite qs))%nat
              then f (slice_last 20 (map Finite qs)) else f (map Finite qs))
             = f (map Finite (high_low_window qs))).
  { intros f. unfold high_low_window. rewrite length_map.
    destruct (Nat.leb_spec 20 (length qs)) as [?|?].
    - rewrite slice_last_map. reflexivity.
    - rewrite slice_last_short by lia. reflexivity. }
  unfold high_20d_field in Hhi. unfold low_20d_field in Hlo.
  rewrite (Hwin py_max) in Hhi. rewrite (Hwin py_min) in Hlo.
  assert (Hne : high_low_window qs <> []).
  { unfold high_low_window. apply slice_last_nonempty; [|lia].
    intros E. rewrite E in Hn. cbn in Hn. lia. }
  destruct (py_max_finite _ Hne) as (a & Ea & Hain & Hamax).
  destruct (py_min_finite _ Hne) as (b & Eb & Hbin & Hbmin).
  rewrite Ea in Hhi. rewrite Eb in Hlo.
  cbn [mbind result_bind] in Hhi, Hlo.
  injection Hhi as <-. injection Hlo as <-.
  exists a, b.
  destruct (indicator_mapping_lookup (map Finite qs) cp r5 r10 r20 vol
              (VFloat (Finite a)) (VFloat (Finite b)))
    as (_ & _ & _ & _ & _ & _ & _ & L8 & L9 & _).
  repeat split; auto.
Qed.

Lemma X2_high_low_bound_window_witness :
  let h := series [3; 1; 2; 5; 4; 2]%Q in
  exists m hi lo,
    calculate_technical_indicators h = Ok m
    /\ m !! "high_20d" = Some (VFloat (Finite hi))
    /\ m !! "low_20d" = Some (VFloat (Finite lo))
    /\ forall x, x ∈ [3; 1; 2; 5; 4; 2]%Q -> (lo <= x <= hi)%Q.
Proof.
  intros h.
  assert (Hrun : calculate_technical_indicators h
                 = Ok (indicator_mapping (map close h) (Finite 2)
                         (VFloat (round64 (-3333 # 100)))
                         VNone VNone VNone
                         (VFloat (Finite 5)) (VFloat (Finite 1)))).
  { rewrite indicators_long by (vm_compute; lia).
    cbv -[indicator_mapping]. reflexivity. }
  destruct (X2_high_low_bound_window h _ [3; 1; 2; 5; 4; 2]%Q Hrun)
    as (hi & lo & Hhi & Hlo & _ & _ & Hall);
    [reflexivity | cbn; lia |].
  eexists _, hi, lo. split; [exact Hrun|]. auto.
Defined.


(** The return of equal closes is 0. *)
Lemma return_value_zero (a b : Q) :
  (a == b)%Q ->
  fmul (fquot (fsub (Finite a) (Finite b)) (Finite b)) (of_Z 100) = Finite 0.
Proof.
  intros E. unfold fsub. cbn [fneg fadd].
  rewrite (round64_zero (a + Qred (- b))) by (rewrite Qred_correct; lra).
  cbn [fquot].
  rewrite (round64_zero (0 / b)) by (unfold Qdiv; ring).
  unfold of_Z. cbn [fmul]. apply round64_zero. ring.
Qed.

(** The return computed on two prices is within 0.00005 of the percentage
    change. *)
Lemma return_value_close (a b : Q) :
  (price_min <= a <= price_max)%Q -> (price_min <= b <= price_max)%Q ->
  exists r,
    fmul (fquot (fsub (Finite a) (Finite b)) (Finite b)) (of_Z 100) = Finite r
    /\ (percent_change a b - (1 # 20000) <= r
        <= percent_change a b + (1 # 20000))%Q
    /\ (- pow2 37 + 1 <= r <= pow2 37 - 1)%Q.
Proof.
  unfold price_min, price_max, percent_change. intros Ha Hb.
  unfold fsub. cbn [fneg fadd].
  assert (Ed : (a + Qred (- b) == a - b)%Q) by (rewrite Qred_correct; ring).
  destruct (round64_close (a + Qred (- b)) (pow2 20)) as (d & -> & Hd);
    [rewrite Ed; change (pow2 20) with 1048576%Q; lra
    | apply pow2_le; lia | unfold pow2; reflexivity |].
  rewrite Ed in Hd.
  assert (E1 : (pow2 20 * pow2 (-53) == pow2 (-33))%Q)
    by (rewrite <- pow2_add; reflexivity).
  rewrite E1 in Hd.
  cbn [fquot].
  assert (Hib : (0 < / b <= 1000)%Q).
  { split; [apply Qinv_lt_0_compat; lra|].
    apply Qle_shift_inv_r; lra. }
  assert (Eb : (b * / b == 1)%Q) by (apply Qmult_inv_r; lra).
  unfold Qdiv in *. set (i := (/ b)%Q) in *.
  change (pow2 (-33)) with (1 # 8589934592)%Q in Hd.
  assert (Hd' : (- (1 # 8589934) <= (d - (a - b)) * i <= 1 # 8589934)%Q).
  { assert (- ((1 # 8589934592) * 1000) <= (d - (a - b)) * i
            <= (1 # 8589934592) * 1000)%Q by (split; nra).
    lra. }
  assert (Hab : (- 1000000000 <= (a - b) * i <= 1000000000)%Q)
    by (split; nra).
  assert (Edi : (d * i == (a - b) * i + (d - (a - b)) * i)%Q) by ring.
  destruct (round64_close (d * i) (pow2 30)) as (q & -> & Hq);
    [change (pow2 30) with 1073741824%Q; lra
    | apply pow2_le; lia | unfold pow2; reflexivity |].
  assert (E2 : (pow2 30 * pow2 (-53) == pow2 (-23))%Q)
    by (rewrite <- pow2_add; reflexivity).
  rewrite E2 in Hq. change (pow2 (-23)) with (1 # 8388608)%Q in Hq.
  unfold of_Z. cbn [fmul]. change (inject_Z 100) with 100%Q.
  destruct (round64_close (q * 100) (pow2 37)) as (r & -> & Hr);
    [change (pow2 37) with 137438953472%Q; lra
    | apply pow2_le; lia | unfold pow2; reflexivity |].
  assert (E3 : (pow2 37 * pow2 (-53) == pow2 (-16))%Q)
    by (rewrite <- pow2_add; reflexivity).
  rewrite E3 in Hr. change (pow2 (-16)) with (1 # 65536)%Q in Hr.
  exists r. split; [reflexivity|].
  set (P := ((a - b) * i)%Q) in *. set (D := ((d - (a - b)) * i)%Q) in *.
  set (di := (d * i)%Q) in *.
  change (pow2 37) with 137438953472%Q.
  split; lra.
Qed.

(** X3.  On finite closes, when the call returns and the series reaches
    back [d + 1] bars ([d] one of 5, 10, 20), the close [d + 1] bars back
    is not 0, and the [d]-day return entry is [None] when the last close
    equals it (a return of 0 is reported absent).  When both closes are
    prices, the entry is a number within 0.0051 of the percentage change,
    or [None] with a percentage change within 0.0001 of 0. *)
Theorem X3_return_entry (history_data : list bar) (m : gmap string pyval)
    (d : nat) (a b : Q) :
  calculate_technical_indicators history_data = Ok m ->
  (d = 5 \/ d = 10 \/ d = 20)%nat ->
  (d + 1 <= length history_data)%nat ->
  close_from_end history_data 1 = Some (Finite a) ->
  close_from_end history_data (d + 1) = Some (Finite b) ->
  ~ (b == 0)%Q
  /\ ((a == b)%Q -> m !! return_key d = Some VNone)
  /\ ((price_min <= a <= price_max)%Q -> (price_min <= b <= price_max)%Q ->
      (m !! return_key d = Some VNone
       /\ (- (1 # 10000) <= percent_change a b <= 1 # 10000)%Q)
      \/ exists r, m !! return_key d = Some (VFloat (Finite r))
           /\ (percent_change a b - (51 # 10000) <= r
               <= percent_change a b + (51 # 10000))%Q).
Proof.
  intros H Hd Hlen Ha Hb.
  assert (Hlong : (5 <= length history_data)%nat)
    by (destruct Hd as [-> | [-> | ->]]; lia).
  destruct (indicators_Ok_inv _ _ Hlong H)
    as (cp & r5 & r10 & r20 & vol & hi & lo
        & _ & H5 & H10 & H20 & _ & _ & _ & ->).
  set (closes := map close history_data) in *.
  assert (Hn : length closes = length history_data)
    by (unfold closes; apply length_map).
  assert (Hfield : exists v, return_field closes d = Ok v
                     /\ indicator_mapping closes cp r5 r10 r20 vol hi lo
                          !! return_key d = Some v).
  { destruct (indicator_mapping_lookup closes cp r5 r10 r20 vol hi lo)
      as (_ & _ & _ & L4 & L5 & L6 & _).
    destruct Hd as [-> | [-> | ->]]; cbn [return_key]; eauto. }
  destruct Hfield as (v & Hv & ->).
  assert (Hbase : closes !! (length closes - (d + 1))%nat = Some (Finite b))
    by (unfold closes; rewrite closes_lookup; exact Hb).
  assert (Hlast : closes !! (length closes - 1)%nat = Some (Finite a))
    by (unfold closes; rewrite closes_lookup; exact Ha).
  assert (Hnz : is_zero (Finite b) = false).
  { destruct (proj1 (return_field_Ok_iff closes d) (ex_intro _ v Hv))
      as [?|(base & Hbase' & Hz)]; [lia | congruence]. }
  assert (Hb0 : ~ (b == 0)%Q).
  { intros E. rewrite (is_zero_Qeq b E) in Hnz. discriminate. }
  destruct (return_field_nonzero_base closes d (Finite b))
    as (last_ & Hlast' & Hret); [lia | exact Hbase | exact Hnz |].
  assert (last_ = Finite a) as -> by congruence.
  cbv zeta in Hret.
  set (ret := fmul (fquot (fsub (Finite a) (Finite b)) (Finite b)) (of_Z 100))
    in Hret.
  rewrite Hret in Hv. injection Hv as <-.
  split; [exact Hb0|]. split.
  - intros E. unfold ret. rewrite (return_value_zero a b E). reflexivity.
  - intros Pa Pb. unfold ret.
    destruct (return_value_close a b Pa Pb) as (r & -> & Hr & Hsize).
    unfold truthy. destruct (is_zero (Finite r)) eqn:Ez; cbn [negb].
    + left. split; [reflexivity|].
      cbn in Ez. apply Qeq_bool_iff in Ez. lra.
    + right.
      destruct (round_ndigits_close r (pow2 37) 2) as (x & -> & Hx);
        [| apply pow2_le; lia | unfold pow2; reflexivity |].
      * change ((1 # 2) / inject_Z (10 ^ Z.of_nat 2))%Q with (1 # 200)%Q.
        lra.
      * exists x. split; [reflexivity|].
        change ((1 # 2) / inject_Z (10 ^ Z.of_nat 2))%Q with (1 # 200)%Q
          in Hx.
        assert (E3 : (pow2 37 * pow2 (-53) == 1 # 65536)%Q)
          by (rewrite <- pow2_add; reflexivity).
        rewrite E3 in Hx. lra.
Qed.

Lemma X3_return_entry_witness :
  let h := series [2; 1; 2; 5; 4; 3]%Q in
  exists m r, calculate_technical_indicators h = Ok m
    /\ m !! "return_5d" = Some (VFloat (Finite r))
    /\ (50 - (51 # 10000) <= r <= 50 + (51 # 10000))%Q.
Proof.
  intros h.
  assert (Hrun : calculate_technical_indicators h
                 = Ok (indicator_mapping (map close h) (Finite 3)
                         (VFloat (Finite 50))
                         VNone VNone VNone
                         (VFloat (Finite 5)) (VFloat (Finite 1)))).
  { rewrite indicators_long by (vm_compute; lia).
    cbv -[indicator_mapping]. reflexivity. }
  assert (E : (percent_change 3 2 == 50)%Q) by reflexivity.
  destruct (X3_return_entry h _ 5 3 2 Hrun) as (_ & _ & Hclose);
    [tauto | cbn; lia | reflexivity | reflexivity |].
  destruct Hclose as [[_ Hzero]|(r & Hr & Hbound)];
    [unfold price_min, price_max; lra
    | unfold price_min, price_max; lra | |].
  - exfalso. rewrite E in Hzero. lra.
  - eexists _, r. split; [exact Hrun|]. split; [exact Hr|].
    rewrite E in Hbound. exact Hbound.
Defined.

Ltac in_labels :=
  repeat first [ apply list_elem_of_here | apply list_elem_of_further ].

Ltac sideways :=
  split; [in_labels | intros Hne; now destruct Hne].

(** What each label of [classify_trend] says of the averages. *)
Lemma classify_trend_sound (cp : pyfloat) (o5 o10 o20 : option pyfloat) :
  let label := classify_trend cp o5 o10 o20 in
  label ∈ trend_labels
  /\ (label <> "震荡" ->
      exists m5 m10 m20,
        o5 = Some m5 /\ o10 = Some m10 /\ o20 = Some m20
        /\ truthy m5 = true /\ truthy m10 = true /\ truthy m20 = true
        /\ (label = "强势上涨" ->
            fgt cp m5 = true /\ fgt m5 m10 = true /\ fgt m10 m20 = true)
        /\ (label = "上涨趋势" ->
            fgt cp m5 = true /\ fgt m5 m10 = true /\ fgt m10 m20 = false)
        /\ (label = "强势下跌" ->
            flt cp m5 = true /\ flt m5 m10 = true /\ flt m10 m20 = true)
        /\ (label = "下跌趋势" ->
            flt cp m5 = true /\ flt m5 m10 = true /\ flt m10 m20 = false)).
Proof.
  cbv zeta. unfold classify_trend, trend_labels.
  destruct o5 as [m5|]; [|sideways].
  destruct o10 as [m10|]; [|sideways].
  destruct o20 as [m20|]; [|sideways].
  destruct (truthy m5) eqn:T5; [|sideways].
  destruct (truthy m10) eqn:T10; [|sideways].
  destruct (truthy m20) eqn:T20; [|sideways].
  cbn [andb].
  destruct (fgt cp m5) eqn:G1, (fgt m5 m10) eqn:G2, (fgt m10 m20) eqn:G3,
    (flt cp m5) eqn:L1, (flt m5 m10) eqn:L2, (flt m10 m20) eqn:L3;
    cbn [andb];
    (split; [in_labels|]); intros Hne;
    try (now destruct Hne);
    exists m5, m10, m20;
    repeat split; try reflexivity; try assumption;
    match goal with
    | E : @eq string _ _ |- _ => discriminate E
    end.
Qed.

(** X4.  When the call returns on 5 bars or more, the trend entry is one of
    the five labels; a label other than 震荡 is given only when the three
    moving averages are present and nonzero, and then 强势上涨 means
    close > MA5 > MA10 > MA20, 上涨趋势 means close > MA5 > MA10 without
    MA10 > MA20, 强势下跌 means close < MA5 < MA10 < MA20 and 下跌趋势
    means close < MA5 < MA10 without MA10 < MA20.  Under 20 bars the label
    is 震荡. *)
Theorem X4_trend_label_sound (history_data : list bar)
    (m : gmap string pyval) :
  calculate_technical_indicators history_data = Ok m ->
  (5 <= length history_data)%nat ->
  let closes := map close history_data in
  exists label cp,
    m !! "trend" = Some (VStr label)
    /\ close_from_end history_data 1 = Some cp
    /\ label ∈ trend_labels
    /\ ((length history_data < 20)%nat -> label = "震荡")
    /\ (label <> "震荡" ->
        exists m5 m10 m20,
          sma closes 5 = Ok (Some m5) /\ sma closes 10 = Ok (Some m10)
          /\ sma closes 20 = Ok (Some m20)
          /\ truthy m5 = true /\ truthy m10 = true /\ truthy m20 = true
          /\ (label = "强势上涨" ->
              fgt cp m5 = true /\ fgt m5 m10 = true /\ fgt m10 m20 = true)
          /\ (label = "上涨趋势" ->
              fgt cp m5 = true /\ fgt m5 m10 = true
              /\ fgt m10 m20 = false)
          /\ (label = "强势下跌" ->
              flt cp m5 = true /\ flt m5 m10 = true /\ flt m10 m20 = true)
          /\ (label = "下跌趋势" ->
              flt cp m5 = true /\ flt m5 m10 = true
              /\ flt m10 m20 = false)).
Proof.
  intros H Hlong closes.
  destruct (indicators_Ok_inv _ _ Hlong H)
    as (cp & r5 & r10 & r20 & vol & hi & lo
        & Hcp & _ & _ & _ & _ & _ & _ & ->).
  fold closes in Hcp |- *.
  assert (Hn : length closes = length history_data)
    by (unfold closes; apply length_map).
  destruct (indicator_mapping_lookup closes cp r5 r10 r20 vol hi lo)
    as (_ & _ & _ & _ & _ & _ & _ & _ & _ & LT & _).
  destruct (classify_trend_sound cp (sma_value closes 5)
              (sma_value closes 10) (sma_value closes 20))
    as [Hin Hsound].
  eexists _, cp. split; [exact LT|].
  split.
  { destruct (index_from_end_Ok closes 1) as (x & Hx & Hlook); [lia|].
    unfold closes in Hlook. rewrite closes_lookup in Hlook. congruence. }
  split; [exact Hin|]. split.
  - intros Hshort. apply classify_trend_absent. right. right.
    rewrite sma_value_short by lia. reflexivity.
  - intros Hne.
    destruct (Hsound Hne) as (m5 & m10 & m20 & E5 & E10 & E20 & Hrest).
    exists m5, m10, m20. rewrite !sma_sma_value by lia.
    split; [f_equal; exact E5|]. split; [f_equal; exact E10|].
    split; [f_equal; exact E20|]. exact Hrest.
Qed.

Lemma X4_trend_label_sound_witness :
  let h := series [3; 1; 2; 5; 4; 3]%Q in
  exists m, calculate_technical_indicators h = Ok m
            /\ m !! "trend" = Some (VStr "震荡").
Proof.
  intros h.
  assert (Hrun : calculate_technical_indicators h
                 = Ok (indicator_mapping (map close h) (Finite 3)
                         VNone VNone VNone VNone
                         (VFloat (Finite 5)) (VFloat (Finite 1)))).
  { rewrite indicators_long by (vm_compute; lia).
    cbv -[indicator_mapping]. reflexivity. }
  eexists. split; [exact Hrun|].
  destruct (X4_trend_label_sound h _ Hrun)
    as (label & cp & Hlabel & _ & _ & Hshort & _); [cbn; lia|].
  rewrite Hlabel, Hshort by (cbn; lia). reflexivity.
Defined.

Lemma slice_last_elem {A : Type} (k : nat) (l : list A) (x : A) :
  x ∈ slice_last k l -> x ∈ l.
Proof.
  destruct k as [|k]; [tauto|]. cbn [slice_last]. intros Hx.
  apply list_elem_of_lookup_1 in Hx as [i Hi]. rewrite lookup_drop in Hi.
  eapply list_elem_of_lookup_2, Hi.
Qed.

(** On prices, the average over a window of at most 20 is a float within
    a hundred-millionth of the exact mean, which is itself a price. *)
Lemma priced_mean (qs : list Q) (w : nat) :
  (1 <= w <= 20)%nat -> (w <= length qs)%nat ->
  priced (slice_last w qs) ->
  exists mu, sma_value (map Finite qs) w = Some (Finite mu)
    /\ (exact_mean qs w - (1 # 100000000) <= mu
        <= exact_mean qs w + (1 # 100000000))%Q
    /\ (price_min <= exact_mean qs w <= price_max)%Q.
Proof.
  intros Hw Hlen Hpriced.
  rewrite sma_value_long by (rewrite length_map; exact Hlen).
  assert (HW : (1 <= inject_Z (Z.of_nat w) <= 20)%Q).
  { change 1%Q with (inject_Z 1). change 20%Q with (inject_Z 20).
    rewrite <- !Zle_Qle. lia. }
  assert (E : (pow2 25 * pow2 (-53) == 1 # 268435456)%Q)
    by (vm_compute; reflexivity).
  destruct (window_mean_close (pow2 25) price_max qs w) as (mu & -> & Hmu).
  - apply pow2_le. lia.
  - unfold pow2. reflexivity.
  - lia.
  - intros x Hx. destruct (Hpriced x Hx) as [Hlo Hhi].
    unfold price_min, price_max in *. lra.
  - rewrite E. change (pow2 25) with 33554432%Q. unfold price_max.
    set (W := inject_Z (Z.of_nat w)) in *. lra.
  - exists mu. split; [reflexivity|]. rewrite E in Hmu.
    split; [lra|].
    unfold exact_mean.
    pose proof (fold_Qplus_between price_min price_max (slice_last w qs) 0%Q
                  Hpriced) as Hsum.
    cbv zeta in Hsum. rewrite length_slice_last in Hsum by lia.
    fold (Qsum (slice_last w qs)) in Hsum.
    set (W := inject_Z (Z.of_nat w)) in *.
    split.
    + apply Qle_shift_div_l; [lra|]. rewrite (Qmult_comm price_min). lra.
    + apply Qle_shift_div_r; [lra|]. rewrite (Qmult_comm price_max). lra.
Qed.

(** On prices no squared deviation overflows. *)
Lemma priced_no_overflow (history_data : list bar) (qs : list Q) :
  map close history_data = map Finite qs ->
  priced (slice_last 20 qs) ->
  ~ deviation_overflows history_data.
Proof.
  intros Hcloses Hpriced [Hlen Hover]. cbv zeta in Hover.
  rewrite Hcloses, slice_last_map in Hover.
  destruct Hover as (x & Hx & Hraise).
  apply list_elem_of_fmap in Hx as (q & -> & Hq).
  assert (Hn : length qs = length history_data).
  { rewrite <- (length_map Finite qs), <- Hcloses. apply length_map. }
  destruct (priced_mean qs 20 ltac:(lia) ltac:(lia) Hpriced)
    as (mu & Hmu & Hclose & Hmean).
  rewrite sma_value_long in Hmu by (rewrite length_map; lia).
  injection Hmu as Hmu. unfold window_mean in Hmu.
  rewrite slice_last_map in Hmu. rewrite Hmu in Hraise.
  destruct (Hpriced q Hq) as [Hlo Hhi].
  unfold price_min, price_max in *.
  unfold fsub in Hraise. cbn [fneg fadd] in Hraise.
  destruct (round64_close (q + Qred (- mu)) (pow2 21)) as (d & Ed & Hd);
    [rewrite Qred_correct; change (pow2 21) with 2097152%Q; lra
    | apply pow2_le; lia | unfold pow2; reflexivity |].
  rewrite Ed in Hraise. cbn [fsquare] in Hraise.
  rewrite Qred_correct in Hd.
  assert (E : (pow2 21 * pow2 (-53) == 1 # 4294967296)%Q)
    by (vm_compute; reflexivity).
  rewrite E in Hd.
  destruct (round64_close (d * d) (pow2 42)) as (sq & Esq & _);
    [change (pow2 42) with 4398046511104%Q; split; nra
    | apply pow2_le; lia | unfold pow2; reflexivity |].
  rewrite Esq in Hraise. discriminate Hraise.
Qed.

(** A series of prices has no zero base and no deviation that overflows:
    the call returns. *)
Lemma priced_series_returns (history_data : list bar) (qs : list Q) :
  map close history_data = map Finite qs ->
  priced qs ->
  exists m, calculate_technical_indicators history_data = Ok m.
Proof.
  intros Hcloses Hpriced.
  destruct (indicators_outcomes history_data) as [Hok|[Hraise|Hraise]];
    [exact Hok | |].
  - apply raises_iff_zero_base in Hraise
      as (d & base & _ & _ & Hbase & Hz).
    unfold close_from_end in Hbase. rewrite <- list_lookup_fmap in Hbase.
    change (map close history_data !! (length history_data - (d + 1))%nat
            = Some base) in Hbase.
    rewrite Hcloses in Hbase.
    change (Finite <$> qs) with (map Finite qs) in Hbase.
    rewrite list_lookup_fmap in Hbase.
    destruct (qs !! (length history_data - (d + 1))%nat) as [q|] eqn:Eq;
      [|discriminate].
    assert (base = Finite q) as -> by (inversion Hbase; reflexivity).
    destruct (Hpriced q) as [Hq _]; [eapply list_elem_of_lookup_2, Eq|].
    cbn in Hz. apply Qeq_bool_iff in Hz. unfold price_min in Hq. lra.
  - apply raises_overflow_iff in Hraise as [_ Hover].
    exfalso. apply (priced_no_overflow _ _ Hcloses); [|exact Hover].
    intros q Hq. apply Hpriced. eapply slice_last_elem, Hq.
Qed.

(** The last 20 closes, named, with the windows of the three averages. *)
Lemma last_twenty (qs : list Q) :
  (20 <= length qs)%nat ->
  exists x1 x2 x3 x4 x5 x6 x7 x8 x9 x10 x11 x12 x13 x14 x15 x16 x17 x18
         x19 x20,
    slice_last 20 qs = [x1; x2; x3; x4; x5; x6; x7; x8; x9; x10; x11; x12;
                        x13; x14; x15; x16; x17; x18; x19; x20]
    /\ slice_last 10 qs = [x11; x12; x13; x14; x15; x16; x17; x18; x19; x20]
    /\ slice_last 5 qs = [x16; x17; x18; x19; x20]
    /\ qs !! (length qs - 1)%nat = Some x20
    /\ forall i, slice_last 20 qs !! i = qs !! (length qs - 20 + i)%nat.
Proof.
  intros Hlen.
  assert (H20 : length (slice_last 20 qs) = 20%nat)
    by (apply length_slice_last; lia).
  assert (H10 : slice_last 10 qs = drop 10 (slice_last 20 qs)).
  { cbn [slice_last]. rewrite drop_drop. f_equal. lia. }
  assert (H5 : slice_last 5 qs = drop 15 (slice_last 20 qs)).
  { cbn [slice_last]. rewrite drop_drop. f_equal. lia. }
  assert (Hlook : forall i,
             slice_last 20 qs !! i = qs !! (length qs - 20 + i)%nat).
  { intros i. cbn [slice_last]. apply lookup_drop. }
  assert (Hlast : qs !! (length qs - 1)%nat = slice_last 20 qs !! 19%nat).
  { rewrite Hlook. f_equal. lia. }
  rewrite H10, H5, Hlast.
  destruct (slice_last 20 qs)
    as [|x1 [|x2 [|x3 [|x4 [|x5 [|x6 [|x7 [|x8 [|x9 [|x10 [|x11 [|x12 [|x13
        [|x14 [|x15 [|x16 [|x17 [|x18 [|x19 [|x20 [|x21 rest]]]]]]]]]]]]]]]]]]]]];
    try discriminate H20.
  exists x1, x2, x3, x4, x5, x6, x7, x8, x9, x10, x11, x12, x13, x14, x15,
    x16, x17, x18, x19, x20.
  repeat split; try reflexivity. exact Hlook.
Qed.

Lemma exact_mean_times (qs : list Q) (w : nat) :
  (0 < w)%nat ->
  (exact_mean qs w * inject_Z (Z.of_nat w) == Qsum (slice_last w qs))%Q.
Proof.
  intros Hw. unfold exact_mean. field. intros E. unfold Qeq in E.
  cbn in E. lia.
Qed.

(** The facts about a series of 20 prices or more that decide its trend:
    the last close and the three averages, each a positive float within a
    hundred-millionth of the exact mean of its window. *)
Lemma trend_inputs (history_data : list bar) (qs : list Q)
    (m : gmap string pyval) :
  calculate_technical_indicators history_data = Ok m ->
  map close history_data = map Finite qs ->
  (20 <= length history_data)%nat ->
  priced qs ->
  exists x1 x2 x3 x4 x5 x6 x7 x8 x9 x10 x11 x12 x13 x14 x15 x16 x17 x18
         x19 x20 mu5 mu10 mu20 e5 e10 e20,
    slice_last 20 qs = [x1; x2; x3; x4; x5; x6; x7; x8; x9; x10; x11; x12;
                        x13; x14; x15; x16; x17; x18; x19; x20]
    /\ (forall i, slice_last 20 qs !! i = qs !! (length qs - 20 + i)%nat)
    /\ (e5 * 5 == x16 + x17 + x18 + x19 + x20)%Q
    /\ (e10 * 10
        == x11 + x12 + x13 + x14 + x15 + x16 + x17 + x18 + x19 + x20)%Q
    /\ (e20 * 20
        == x1 + x2 + x3 + x4 + x5 + x6 + x7 + x8 + x9 + x10 + x11 + x12
           + x13 + x14 + x15 + x16 + x17 + x18 + x19 + x20)%Q
    /\ (e5 - (1 # 100000000) <= mu5 <= e5 + (1 # 100000000))%Q
    /\ (e10 - (1 # 100000000) <= mu10 <= e10 + (1 # 100000000))%Q
    /\ (e20 - (1 # 100000000) <= mu20 <= e20 + (1 # 100000000))%Q
    /\ (0 < mu5)%Q /\ (0 < mu10)%Q /\ (0 < mu20)%Q
    /\ m !! "trend"
       = Some (VStr (classify_trend (Finite x20) (Some (Finite mu5))
                       (Some (Finite mu10)) (Some (Finite mu20)))).
Proof.
  intros H Hcloses Hlen Hpriced.
  assert (Hn : length qs = length history_data).
  { rewrite <- (length_map Finite qs), <- Hcloses. apply length_map. }
  assert (Hlong : (5 <= length history_data)%nat) by lia.
  destruct (indicators_Ok_inv _ _ Hlong H)
    as (cp & r5 & r10 & r20 & vol & hi & lo
        & Hcp & _ & _ & _ & _ & _ & _ & ->).
  rewrite Hcloses in Hcp |- *.
  destruct (last_twenty qs ltac:(lia))
    as (x1 & x2 & x3 & x4 & x5 & x6 & x7 & x8 & x9 & x10 & x11 & x12 & x13
        & x14 & x15 & x16 & x17 & x18 & x19 & x20
        & E20 & E10 & E5 & Elast & Hlook).
  destruct (index_from_end_Ok (map Finite qs) 1) as (cp' & Hcp' & Hlast);
    [rewrite length_map; lia|].
  rewrite length_map in Hlast.
  change (map Finite qs) with (Finite <$> qs) in Hlast.
  rewrite list_lookup_fmap, Elast in Hlast. cbn in Hlast.
  assert (cp = Finite x20) as -> by congruence.
  assert (Hwin : forall w, priced (slice_last w qs)).
  { intros w q Hq. apply Hpriced. eapply slice_last_elem, Hq. }
  destruct (priced_mean qs 5 ltac:(lia) ltac:(lia) (Hwin _))
    as (mu5 & S5 & C5 & P5).
  destruct (priced_mean qs 10 ltac:(lia) ltac:(lia) (Hwin _))
    as (mu10 & S10 & C10 & P10).
  destruct (priced_mean qs 20 ltac:(lia) ltac:(lia) (Hwin _))
    as (mu20 & S20 & C20 & P20).
  pose proof (exact_mean_times qs 5 ltac:(lia)) as M5.
  pose proof (exact_mean_times qs 10 ltac:(lia)) as M10.
  pose proof (exact_mean_times qs 20 ltac:(lia)) as M20.
  rewrite E5 in M5. rewrite E10 in M10. rewrite E20 in M20.
  unfold Qsum in M5, M10, M20. cbn [fold_left] in M5, M10, M20.
  change (inject_Z (Z.of_nat 5)) with 5%Q in M5.
  change (inject_Z (Z.of_nat 10)) with 10%Q in M10.
  change (inject_Z (Z.of_nat 20)) with 20%Q in M20.
  unfold price_min in P5, P10, P20.
  exists x1, x2, x3, x4, x5, x6, x7, x8, x9, x10, x11, x12, x13, x14, x15,
    x16, x17, x18, x19, x20, mu5, mu10, mu20,
    (exact_mean qs 5), (exact_mean qs 10), (exact_mean qs 20).
  split; [exact E20|]. split; [exact Hlook|].
  split; [lra|]. split; [lra|]. split; [lra|].
  split; [exact C5|]. split; [exact C10|]. split; [exact C20|].
  split; [lra|]. split; [lra|]. split; [lra|].
  destruct (indicator_mapping_lookup (map Finite qs) (Finite x20) r5 r10 r20
              vol hi lo)
    as (_ & _ & _ & _ & _ & _ & _ & _ & _ & LT & _).
  rewrite LT, S5, S10, S20. reflexivity.
Qed.

Lemma truthy_positive (q : Q) : (0 < q)%Q -> truthy (Finite q) = true.
Proof.
  intros H. unfold truthy. rewrite is_zero_Qneq; [reflexivity|].
  intros E. rewrite E in H. discriminate H.
Qed.

(** X5.  On a series of 20 bars or more whose closes are prices, each
    above the one before by a millionth or more, the call returns and the
    trend entry is 强势上涨. *)
Theorem X5_rising_series_strong_uptrend (history_data : list bar)
    (qs : list Q) :
  map close history_data = map Finite qs ->
  (20 <= length history_data)%nat ->
  rising qs -> priced qs ->
  exists m, calculate_technical_indicators history_data = Ok m
            /\ m !! "trend" = Some (VStr "强势上涨").
Proof.
  intros Hcloses Hlen Hrise Hpriced.
  destruct (priced_series_returns _ _ Hcloses Hpriced) as [m Hm].
  exists m. split; [exact Hm|].
  destruct (trend_inputs _ _ _ Hm Hcloses Hlen Hpriced)
    as (x1 & x2 & x3 & x4 & x5 & x6 & x7 & x8 & x9 & x10 & x11 & x12 & x13
        & x14 & x15 & x16 & x17 & x18 & x19 & x20 & mu5 & mu10 & mu20
        & e5 & e10 & e20
        & E20 & Hlook & M5 & M10 & M20 & C5 & C10 & C20 & P5 & P10 & P20
        & ->).
  assert (HW : forall i x y,
             slice_last 20 qs !! i = Some x ->
             slice_last 20 qs !! S i = Some y -> (x + price_step <= y)%Q).
  { intros i x y Hx Hy. rewrite Hlook in Hx, Hy.
    apply (Hrise (length qs - 20 + i)%nat); [exact Hx|].
    rewrite <- Hy. f_equal. lia. }
  rewrite E20 in HW. unfold price_step in HW.
  pose proof (HW 0%nat _ _ eq_refl eq_refl) as I1.
  pose proof (HW 1%nat _ _ eq_refl eq_refl) as I2.
  pose proof (HW 2%nat _ _ eq_refl eq_refl) as I3.
  pose proof (HW 3%nat _ _ eq_refl eq_refl) as I4.
  pose proof (HW 4%nat _ _ eq_refl eq_refl) as I5.
  pose proof (HW 5%nat _ _ eq_refl eq_refl) as I6.
  pose proof (HW 6%nat _ _ eq_refl eq_refl) as I7.
  pose proof (HW 7%nat _ _ eq_refl eq_refl) as I8.
  pose proof (HW 8%nat _ _ eq_refl eq_refl) as I9.
  pose proof (HW 9%nat _ _ eq_refl eq_refl) as I10.
  pose proof (HW 10%nat _ _ eq_refl eq_refl) as I11.
  pose proof (HW 11%nat _ _ eq_refl eq_refl) as I12.
  pose proof (HW 12%nat _ _ eq_refl eq_refl) as I13.
  pose proof (HW 13%nat _ _ eq_refl eq_refl) as I14.
  pose proof (HW 14%nat _ _ eq_refl eq_refl) as I15.
  pose proof (HW 15%nat _ _ eq_refl eq_refl) as I16.
  pose proof (HW 16%nat _ _ eq_refl eq_refl) as I17.
  pose proof (HW 17%nat _ _ eq_refl eq_refl) as I18.
  pose proof (HW 18%nat _ _ eq_refl eq_refl) as I19.
  do 2 f_equal. unfold classify_trend.
  rewrite !truthy_positive by assumption. cbn [andb]. unfold fgt.
  cbn [flt].
  rewrite !(proj2 (Qltb_true _ _)) by lra. reflexivity.
Qed.

(** X6.  On a series of 20 bars or more whose closes are prices, each
    below the one before by a millionth or more, the call returns and the
    trend entry is 强势下跌. *)
Theorem X6_falling_series_strong_downtrend (history_data : list bar)
    (qs : list Q) :
  map close history_data = map Finite qs ->
  (20 <= length history_data)%nat ->
  falling qs -> priced qs ->
  exists m, calculate_technical_indicators history_data = Ok m
            /\ m !! "trend" = Some (VStr "强势下跌").
Proof.
  intros Hcloses Hlen Hfall Hpriced.
  destruct (priced_series_returns _ _ Hcloses Hpriced) as [m Hm].
  exists m. split; [exact Hm|].
  destruct (trend_inputs _ _ _ Hm Hcloses Hlen Hpriced)
    as (x1 & x2 & x3 & x4 & x5 & x6 & x7 & x8 & x9 & x10 & x11 & x12 & x13
        & x14 & x15 & x16 & x17 & x18 & x19 & x20 & mu5 & mu10 & mu20
        & e5 & e10 & e20
        & E20 & Hlook & M5 & M10 & M20 & C5 & C10 & C20 & P5 & P10 & P20
        & ->).
  assert (HW : forall i x y,
             slice_last 20 qs !! i = Some x ->
             slice_last 20 qs !! S i = Some y -> (y + price_step <= x)%Q).
  { intros i x y Hx Hy. rewrite Hlook in Hx, Hy.
    apply (Hfall (length qs - 20 + i)%nat); [exact Hx|].
    rewrite <- Hy. f_equal. lia. }
  rewrite E20 in HW. unfold price_step in HW.
  pose proof (HW 0%nat _ _ eq_refl eq_refl) as I1.
  pose proof (HW 1%nat _ _ eq_refl eq_refl) as I2.
  pose proof (HW 2%nat _ _ eq_refl eq_refl) as I3.
  pose proof (HW 3%nat _ _ eq_refl eq_refl) as I4.
  pose proof (HW 4%nat _ _ eq_refl eq_refl) as I5.
  pose proof (HW 5%nat _ _ eq_refl eq_refl) as I6.
  pose proof (HW 6%nat _ _ eq_refl eq_refl) as I7.
  pose proof (HW 7%nat _ _ eq_refl eq_refl) as I8.
  pose proof (HW 8%nat _ _ eq_refl eq_refl) as I9.
  pose proof (HW 9%nat _ _ eq_refl eq_refl) as I10.
  pose proof (HW 10%nat _ _ eq_refl eq_refl) as I11.
  pose proof (HW 11%nat _ _ eq_refl eq_refl) as I12.
  pose proof (HW 12%nat _ _ eq_refl eq_refl) as I13.
  pose proof (HW 13%nat _ _ eq_refl eq_refl) as I14.
  pose proof (HW 14%nat _ _ eq_refl eq_refl) as I15.
  pose proof (HW 15%nat _ _ eq_refl eq_refl) as I16.
  pose proof (HW 16%nat _ _ eq_refl eq_refl) as I17.
  pose proof (HW 17%nat _ _ eq_refl eq_refl) as I18.
  pose proof (HW 18%nat _ _ eq_refl eq_refl) as I19.
  do 2 f_equal. unfold classify_trend.
  rewrite !truthy_positive by assumption. cbn [andb]. unfold fgt.
  cbn [flt].
  rewrite (proj2 (Qltb_false mu5 x20)) by lra. cbn [andb].
  rewrite !(proj2 (Qltb_true _ _)) by lra. reflexivity.
Qed.

Lemma X5_rising_series_strong_uptrend_witness :
  let qs := [1; 2; 3; 4; 5; 6; 7; 8; 9; 10; 11; 12; 13; 14; 15; 16; 17; 18;
             19; 20]%Q in
  exists m, calculate_technical_indicators (series qs) = Ok m
            /\ m !! "trend" = Some (VStr "强势上涨").
Proof.
  intros qs. apply (X5_rising_series_strong_uptrend (series qs) qs).
  - reflexivity.
  - cbn. lia.
  - intros i x y Hx Hy.
    do 20 (destruct i as [|i];
           [cbn in Hx, Hy; try discriminate Hy;
            injection Hx as <-; injection Hy as <-;
            unfold price_step; lra|]).
    discriminate Hx.
  - intros q Hq. unfold price_min, price_max.
    repeat (apply elem_of_cons in Hq as [->|Hq]; [lra|]).
    inversion Hq.
Defined.

Lemma X6_falling_series_strong_downtrend_witness :
  let qs := [20; 19; 18; 17; 16; 15; 14; 13; 12; 11; 10; 9; 8; 7; 6; 5; 4;
             3; 2; 1]%Q in
  exists m, calculate_technical_indicators (series qs) = Ok m
            /\ m !! "trend" = Some (VStr "强势下跌").
Proof.
  intros qs. apply (X6_falling_series_strong_downtrend (series qs) qs).
  - reflexivity.
  - cbn. lia.
  - intros i x y Hx Hy.
    do 20 (destruct i as [|i];
           [cbn in Hx, Hy; try discriminate Hy;
            injection Hx as <-; injection Hy as <-;
            unfold price_step; lra|]).
    discriminate Hx.
  - intros q Hq. unfold price_min, price_max.
    repeat (apply elem_of_cons in Hq as [->|Hq]; [lra|]).
    inversion Hq.
Defined.

(** X7.  When the call returns on a series whose last [w] closes ([w] one
    of 5, 10, 20) are prices, the MA[w] entry is a number within 0.0000501
    of the arithmetic mean of those closes. *)
Theorem X7_moving_average_accuracy (history_data : list bar)
    (m : gmap string pyval) (qs : list Q) (w : nat) :
  calculate_technical_indicators history_data = Ok m ->
  map close history_data = map Finite qs ->
  (w = 5 \/ w = 10 \/ w = 20)%nat ->
  (w <= length history_data)%nat ->
  priced (slice_last w qs) ->
  exists r, m !! ma_key w = Some (VFloat (Finite r))
            /\ (exact_mean qs w - (501 # 10000000) <= r
                <= exact_mean qs w + (501 # 10000000))%Q.
Proof.
  intros H Hcloses Hw Hlen Hpriced.
  assert (Hn : length qs = length history_data).
  { rewrite <- (length_map Finite qs), <- Hcloses. apply length_map. }
  assert (Hlong : (5 <= length history_data)%nat)
    by (destruct Hw as [-> | [-> | ->]]; lia).
  destruct (indicators_Ok_inv _ _ Hlong H)
    as (cp & r5 & r10 & r20 & vol & hi & lo
        & _ & _ & _ & _ & _ & _ & _ & ->).
  rewrite Hcloses.
  destruct (priced_mean qs w) as (mu & Hmu & Emu & Pmu);
    [destruct Hw as [-> | [-> | ->]]; lia | lia | exact Hpriced |].
  assert (Hfield : indicator_mapping (map Finite qs) cp r5 r10 r20 vol hi lo
                     !! ma_key w
                   = Some (ma_field (Some (Finite mu)))).
  { destruct (indicator_mapping_lookup (map Finite qs) cp r5 r10 r20 vol
                hi lo) as (L1 & L2 & L3 & _).
    rewrite <- Hmu.
    destruct Hw as [-> | [-> | ->]]; cbn [ma_key]; assumption. }
  rewrite Hfield. cbn [ma_field].
  unfold price_min, price_max in Pmu.
  rewrite truthy_positive by lra.
  destruct (round_ndigits_close mu (pow2 20) 4) as (r & -> & Hr);
    [| apply pow2_le; lia | unfold pow2; reflexivity |].
  - change ((1 # 2) / inject_Z (10 ^ Z.of_nat 4))%Q with (1 # 20000)%Q.
    change (pow2 20) with 1048576%Q. lra.
  - exists r. split; [reflexivity|].
    change ((1 # 2) / inject_Z (10 ^ Z.of_nat 4))%Q with (1 # 20000)%Q in Hr.
    assert (E : (pow2 20 * pow2 (-53) == 1 # 8589934592)%Q)
      by (vm_compute; reflexivity).
    rewrite E in Hr. lra.
Qed.

Lemma X7_moving_average_accuracy_witness :
  let qs := [3; 1; 2; 5; 4; 2]%Q in
  exists m r, calculate_technical_indicators (series qs) = Ok m
    /\ m !! "ma5" = Some (VFloat (Finite r))
    /\ ((14 # 5) - (501 # 10000000) <= r <= (14 # 5) + (501 # 10000000))%Q.
Proof.
  intros qs.
  assert (Hrun : calculate_technical_indicators (series qs)
                 = Ok (indicator_mapping (map close (series qs)) (Finite 2)
                         (VFloat (round64 (-3333 # 100)))
                         VNone VNone VNone
                         (VFloat (Finite 5)) (VFloat (Finite 1)))).
  { rewrite indicators_long by (vm_compute; lia).
    cbv -[indicator_mapping]. reflexivity. }
  assert (E : (exact_mean qs 5 == 14 # 5)%Q) by (vm_compute; reflexivity).
  destruct (X7_moving_average_accuracy (series qs) _ qs 5 Hrun)
    as (r & Hr & Hbound); [reflexivity | tauto | cbn; lia | |].
  - intros q Hq. unfold price_min, price_max.
    repeat (apply elem_of_cons in Hq as [->|Hq]; [lra|]).
    inversion Hq.
  - eexists _, r. split; [exact Hrun|]. split; [exact Hr|].
    rewrite E in Hbound. exact Hbound.
Defined.

End MoreIndicators.

(** ** Caches over several requests *)

Section Caches.
Import StockAnalyzer StockCache.

Lemma age_below_iff (now t ttl : Z) :
  age_below now t ttl = true <-> (now - t < ttl * 1000000)%Z.
Proof. unfold age_below. apply Z.ltb_lt. Qed.

Lemma ensure_init_cache (akshare_importable : bool) (w w1 : process self_t) :
  _ensure_init akshare_importable w = (Ok tt, w1) ->
  _initialized (self w1) = true
  /\ _stock_cache (self w1) = _stock_cache (self w)
  /\ _stock_cache_time (self w1) = _stock_cache_time (self w)
  /\ _current_source (self w1) = _current_source (self w)
  /\ trace w1 = trace w.
Proof.
  unfold _ensure_init. coro_unfold.
  destruct (_initialized (self w)) eqn:E.
  - intros [= <-]. auto.
  - destruct akshare_importable; [|discriminate].
    intros [= <-]. cbn. auto.
Qed.

Lemma ensure_init_initialised (akshare_importable : bool)
    (w : process self_t) :
  _initialized (self w) = true ->
  _ensure_init akshare_importable w = (Ok tt, w).
Proof.
  intros H. unfold _ensure_init. coro_unfold. rewrite H. reflexivity.
Qed.

Lemma ensure_init_cases (akshare_importable : bool) (w : process self_t) :
  (exists w1, _ensure_init akshare_importable w = (Ok tt, w1))
  \/ (_ensure_init akshare_importable w = (Raise ImportError, w)
      /\ _initialized (self w) = false /\ akshare_importable = false).
Proof.
  unfold _ensure_init. coro_unfold.
  destruct (_initialized (self w)); [left; eauto|].
  destruct akshare_importable; [left; eauto|right; auto].
Qed.

Lemma loop_events_attempts (name : string) (k : nat) :
  attempts name (loop_events name k) = k.
Proof.
  induction k as [|k IH]; [reflexivity|].
  destruct k as [|k].
  - cbn [loop_events]. rewrite attempts_cons_called. reflexivity.
  - change (loop_events name (S (S k)))
      with (Called name :: Slept RETRY_DELAY :: loop_events name (S k)).
    rewrite attempts_cons_called, attempts_cons_slept, IH. reflexivity.
Qed.

(** Every run of the retrying fetch calls the primary provider at least
    once. *)
Lemma with_retry_calls_primary (net : providers) (w : process self_t) :
  _initialized (self w) = true ->
  (attempts EM (trace w)
   < attempts EM (trace (snd (_get_stock_data_with_retry net w))))%nat.
Proof.
  intros Hinit.
  destruct (with_retry_run net w Hinit) as (_ & Hall & Hraise & Hok).
  destruct (_get_stock_data_with_retry net w) as [[df|e] w2] eqn:E;
    cbn [fst snd] in *.
  - destruct (Hok df eq_refl)
      as [(i & _ & _ & _ & ->)|(i & _ & _ & _ & _ & ->)]; cbn [trace].
    + rewrite attempts_app, loop_events_attempts. lia.
    + rewrite !attempts_app, loop_events_attempts. lia.
  - destruct (Hall (Hraise e eq_refl)) as (e' & _ & [= _ ->]). cbn [trace].
    rewrite attempts_app. vm_compute (attempts EM retry_schedule). lia.
Qed.

(** X9.  A table that [_get_stock_data] fetched at time [now] (cache miss,
    some attempt delivering) is what every later call returns as long as
    less than 600 seconds have passed, with no provider call and whatever
    the network does then; from 600 seconds on the primary provider is
    called again. *)
Theorem X9_stock_cache_round_trip (akshare_importable importable' : bool)
    (now now' : datetime) (net net' : providers) (w : process self_t) :
  _initialized (self w) = true \/ akshare_importable = true ->
  stock_cache_valid (self w) now = None ->
  ~ all_attempts_fail net (trace w) ->
  let run := _get_stock_data akshare_importable now net w in
  let again := _get_stock_data importable' now' net' (snd run) in
  exists df,
    fst run = Ok df
    /\ delivered_by net (trace w) df
    /\ ((now' - now < 600 * 1000000)%Z -> again = (Ok df, snd run))
    /\ ((600 * 1000000 <= now' - now)%Z ->
        (attempts EM (trace (snd run))
         < attempts EM (trace (snd again)))%nat).
Proof.
  intros Hinit Hmiss Hlive run again. subst run again.
  destruct (ensure_init_cases akshare_importable w)
    as [[w1 Hw1]|(_ & E & ->)];
    [|destruct Hinit; congruence].
  rewrite (get_stock_data_run _ _ _ _ _ Hw1).
  destruct (ensure_init_cache _ _ _ Hw1) as (I1 & C1 & T1 & S1 & Tr1).
  assert (Hmiss1 : stock_cache_valid (self w1) now = None).
  { unfold stock_cache_valid in *. rewrite C1, T1. exact Hmiss. }
  rewrite Hmiss1.
  destruct (with_retry_run net w1 I1) as (_ & _ & Hraise & Hok).
  rewrite Tr1 in Hraise, Hok.
  destruct (_get_stock_data_with_retry net w1) as [[df|e] w2] eqn:E;
    cbn [fst snd] in *; [|destruct Hlive; eauto].
  exists df. split; [reflexivity|].
  assert (I2 : _initialized (self w2) = true).
  { destruct (Hok df eq_refl)
      as [(i & _ & _ & _ & ->)|(i & _ & _ & _ & _ & ->)]; exact I1. }
  split.
  { destruct (Hok df eq_refl)
      as [(i & Hi & Hf & _)|(i & Hi & _ & Hf & _)]; exists i; auto. }
  remember {| self := _; trace := trace w2 |} as w3 eqn:Ew3.
  assert (I3 : _initialized (self w3) = true) by (subst w3; exact I2).
  assert (C3 : _stock_cache (self w3) = Some df) by (subst w3; reflexivity).
  assert (T3 : _stock_cache_time (self w3) = Some now)
    by (subst w3; reflexivity).
  clear Ew3.
  rewrite (get_stock_data_run _ _ _ _ _ (ensure_init_initialised _ _ I3)).
  unfold stock_cache_valid. rewrite C3, T3.
  split.
  - intros Hfresh.
    assert (A : age_below now' now STOCK_CACHE_TTL = true)
      by (apply age_below_iff; exact Hfresh).
    rewrite A. reflexivity.
  - intros Hold.
    assert (A : age_below now' now STOCK_CACHE_TTL = false).
    { destruct (age_below now' now STOCK_CACHE_TTL) eqn:A; [|reflexivity].
      apply age_below_iff in A. unfold STOCK_CACHE_TTL in A. lia. }
    rewrite A.
    pose proof (with_retry_calls_primary net' w3 I3) as Hcall.
    destruct (_get_stock_data_with_retry net' w3) as [[df'|e'] w4];
      [|destruct (_stock_cache (self w4))];
      cbn [fst snd trace] in *; exact Hcall.
Qed.

Lemma X9_stock_cache_round_trip_witness :
  exists df,
    fst (_get_stock_data true 0%Z live_network fresh_stock) = Ok df
    /\ _get_stock_data false 599999999%Z dead_network
         (snd (_get_stock_data true 0%Z live_network fresh_stock))
       = (Ok df, snd (_get_stock_data true 0%Z live_network fresh_stock)).
Proof.
  destruct (X9_stock_cache_round_trip true false 0%Z 599999999%Z live_network
              dead_network fresh_stock) as (df & Hdf & _ & Hhit & _).
  - right. reflexivity.
  - reflexivity.
  - intros Hall. destruct (Hall 0%nat ltac:(lia)) as [H _]. exact H.
  - exists df. split; [exact Hdf|]. apply Hhit. lia.
Defined.

(** X10.  After [clear_cache], [get_cache_info] reports that nothing is
    cached, and the next [_get_stock_data] returns only a table that one
    of its own attempts delivers: when all six attempts fail it raises,
    whatever was cached before the clearing. *)
Theorem X10_clear_cache_forgets (akshare_importable : bool)
    (now : datetime) (net : providers) (w : process self_t) :
  let cleared := {| self := clear_cache (self w); trace := trace w |} in
  let run := _get_stock_data akshare_importable now net cleared in
  get_cache_info now (self cleared) = NotCached
  /\ (forall df, fst run = Ok df -> delivered_by net (trace w) df)
  /\ (all_attempts_fail net (trace w) -> exists e, fst run = Raise e).
Proof.
  intros cleared run. subst run. split; [reflexivity|].
  destruct (ensure_init_cases akshare_importable cleared)
    as [[w1 Hw1]|(Hraise & _ & _)].
  2:{ unfold _get_stock_data. coro_unfold. rewrite Hraise. cbn [fst].
      split; [discriminate|eauto]. }
  rewrite (get_stock_data_run _ _ _ _ _ Hw1).
  destruct (ensure_init_cache _ _ _ Hw1) as (I1 & C1 & T1 & S1 & Tr1).
  cbn [cleared self trace clear_cache _stock_cache _stock_cache_time] in *.
  unfold stock_cache_valid. rewrite C1.
  destruct (with_retry_run net w1 I1) as (_ & Hall & _ & Hok).
  rewrite Tr1 in Hall, Hok.
  destruct (_get_stock_data_with_retry net w1) as [[df|e] w2] eqn:E;
    cbn [fst snd] in *.
  - split.
    + intros df' [= <-].
      destruct (Hok df eq_refl)
        as [(i & Hi & Hf & _)|(i & Hi & _ & Hf & _)]; exists i; auto.
    + intros Hfail. destruct (Hall Hfail) as (e' & _ & [=]).
  - assert (C2 : _stock_cache (self w2) = None).
    { destruct (_stock_cache (self w2)) as [c|] eqn:C2; [|reflexivity].
      exfalso.
      destruct (with_retry_run net w1 I1) as (_ & Hall' & Hr' & _).
      rewrite E in Hr'. cbn [fst] in Hr'.
      destruct (Hall' (Hr' e eq_refl)) as (e' & _ & Hrun).
      rewrite E in Hrun. injection Hrun as _ ->.
      cbn [self] in C2. congruence. }
    rewrite C2. cbn [fst]. split; [discriminate|eauto].
Qed.

Lemma X10_clear_cache_forgets_witness :
  exists e,
    fst (_get_stock_data true 0%Z dead_network
           {| self := clear_cache (self stock_with_cache);
              trace := trace stock_with_cache |}) = Raise e.
Proof.
  destruct (X10_clear_cache_forgets true 0%Z dead_network stock_with_cache)
    as (_ & _ & Hraise).
  apply Hraise. intros i _. split; exact I.
Defined.

Lemma quot_below (a c : Z) :
  (0 < c)%Z -> (a ÷ 1000000 < c <-> a < c * 1000000)%Z.
Proof.
  intros Hc.
  pose proof (Z.quot_rem' a 1000000) as Hqr.
  destruct (Z.le_gt_cases 0 a) as [Hpos|Hneg].
  - pose proof (Z.rem_bound_pos a 1000000 Hpos ltac:(lia)). nia.
  - pose proof (Z.rem_bound_pos_neg a 1000000 ltac:(lia) ltac:(lia)).
    assert (a ÷ 1000000 <= 0)%Z by nia. lia.
Qed.

(** X11.  With a table and its time stored, [get_cache_info] reports an
    age below the time-to-live exactly when [_get_stock_data] would, at
    the same instant, answer from the cache. *)
Theorem X11_cache_info_agrees (now t : datetime) (this : self_t)
    (cache : DataFrame) :
  _stock_cache this = Some cache ->
  _stock_cache_time this = Some t ->
  exists age,
    get_cache_info now this
    = Cached age 600%Z (df_len cache) (_current_source this)
    /\ ((age < 600)%Z <-> stock_cache_valid this now = Some cache).
Proof.
  intros Hc Ht. unfold get_cache_info, stock_cache_valid. rewrite Hc, Ht.
  eexists. split; [reflexivity|].
  unfold whole_seconds. rewrite quot_below by lia.
  rewrite <- (age_below_iff now t 600).
  change STOCK_CACHE_TTL with 600%Z.
  destruct (age_below now t 600); split; congruence.
Qed.

Lemma X11_cache_info_agrees_witness :
  exists age,
    get_cache_info 599999999%Z (self stock_with_cache)
    = Cached age 600%Z 1%nat "eastmoney"
    /\ ((age < 600)%Z
        <-> stock_cache_valid (self stock_with_cache) 599999999%Z
            = Some sample_table).
Proof.
  exact (X11_cache_info_agrees 599999999%Z 0%Z (self stock_with_cache)
           sample_table eq_refl eq_refl).
Defined.

End Caches.

Section LofCache.
Import FundAnalyzer.

(** X12.  A LOF table that [_get_lof_data] fetched at time [now] is what
    every later call returns as long as less than 300 seconds have passed,
    with no provider call and whatever the network does then; from 300
    seconds on the provider is called again, once. *)
Theorem X12_lof_cache_round_trip (now now' : datetime)
    (fund_lof_spot_em later : provider DataFrame) (w : process self_t)
    (df : DataFrame) :
  _initialized (self w) = true ->
  lof_cache_valid (self w) now = None ->
  fund_lof_spot_em (attempts LOF (trace w)) = Fetched df ->
  let run := _get_lof_data now fund_lof_spot_em w in
  let again := _get_lof_data now' later (snd run) in
  fst run = Ok df
  /\ ((now' - now < 300 * 1000000)%Z -> again = (Ok df, snd run))
  /\ ((300 * 1000000 <= now' - now)%Z ->
      trace (snd again) = trace (snd run) ++ [Called LOF]).
Proof.
  intros Hinit Hmiss Hfetch run again. subst run again.
  rewrite (get_lof_data_miss now fund_lof_spot_em w Hinit Hmiss).
  rewrite Hfetch. cbn [await_fetch fst snd].
  split; [reflexivity|].
  set (w2 := {| self := with_lof_cache (self w) df now; trace := _ |}).
  assert (I2 : _initialized (self w2) = true) by exact Hinit.
  split.
  - intros Hfresh. apply get_lof_data_hit.
    unfold lof_cache_valid. cbn.
    assert (A : age_below now' now CACHE_TTL = true)
      by (apply age_below_iff; exact Hfresh).
    rewrite A. reflexivity.
  - intros Hold.
    assert (Hmiss2 : lof_cache_valid (self w2) now' = None).
    { unfold lof_cache_valid. cbn.
      destruct (age_below now' now CACHE_TTL) eqn:A; [|reflexivity].
      apply age_below_iff in A. unfold CACHE_TTL in A. lia. }
    rewrite (get_lof_data_miss now' later w2 I2 Hmiss2).
    destruct (await_fetch (later (attempts LOF (trace w2)))) as [df'|e];
      [reflexivity|].
    destruct e; reflexivity.
Qed.

Lemma X12_lof_cache_round_trip_witness :
  _get_lof_data 299999999%Z (fun _ => TimedOut)
    (snd (_get_lof_data 0%Z (once sample_table) lof_without_cache))
  = (Ok sample_table,
     snd (_get_lof_data 0%Z (once sample_table) lof_without_cache)).
Proof.
  destruct (X12_lof_cache_round_trip 0%Z 299999999%Z (once sample_table)
              (fun _ => TimedOut) lof_without_cache sample_table)
    as (_ & Hhit & _); [reflexivity..|].
  apply Hhit. lia.
Defined.

End LofCache.

(** ** Realtime quotes *)

Section Quotes.

Variable parse_float : string -> option pyfloat.
Variable builtin_str : pyobj -> string.
Variable strip : string -> string.

Lemma cell_eq_str_true (cell : option pyobj) (value : string) :
  cell_eq_str cell value = true -> cell = Some (PyStr value).
Proof.
  destruct cell as [[| | |s|]|]; cbn; try discriminate.
  intros H. apply String.eqb_eq in H. subst. reflexivity.
Qed.

(** The first row of a selection by value holds that value. *)
Lemma where_eq_first (df sel : DataFrame) (name value : string)
    (row : Series) :
  df_where_eq df name value = Some sel ->
  iloc0 sel = Ok row ->
  row !! name = Some (PyStr value).
Proof.
  unfold df_where_eq. case_bool_decide; [|discriminate].
  intros [= <-]. unfold iloc0. cbn [cells].
  destruct (List.filter _ (cells df)) as [|r rest] eqn:E; [discriminate|].
  intros [= <-].
  assert (Hin : In r (List.filter
                        (fun row => cell_eq_str (row_series df row !! name)
                                      value) (cells df)))
    by (rewrite E; left; reflexivity).
  apply filter_In in Hin as [_ Hin]. apply cell_eq_str_true in Hin.
  exact Hin.
Qed.

(** A selection by a value that no row holds is empty. *)
Lemma where_eq_none (df sel : DataFrame) (name value : string) :
  df_where_eq df name value = Some sel ->
  (forall row, In row (cells df) ->
     row_series df row !! name <> Some (PyStr value)) ->
  df_empty sel = true.
Proof.
  unfold df_where_eq. case_bool_decide; [|discriminate].
  intros [= <-] Hnone. unfold df_empty. cbn [cells columns].
  destruct (List.filter _ (cells df)) as [|r rest] eqn:E; [reflexivity|].
  exfalso.
  assert (Hin : In r (List.filter
                        (fun row => cell_eq_str (row_series df row !! name)
                                      value) (cells df)))
    by (rewrite E; left; reflexivity).
  apply filter_In in Hin as [Hin Heq]. apply cell_eq_str_true in Heq.
  exact (Hnone r Hin Heq).
Qed.

Lemma fund_info_of_row_Ok (row : Series) (fund_code : string)
    (info : FundInfo.t) :
  FundQuotes.fund_info_of_row parse_float builtin_str row fund_code = Ok info ->
  FundInfo.code info
  = match row !! "代码" with Some v => builtin_str v | None => fund_code end
  /\ fund_info_normalised info.
Proof.
  unfold FundQuotes.fund_info_of_row. intros H.
  apply bind_Ok_inv in H as (f1 & H1 & H).
  apply bind_Ok_inv in H as (f2 & H2 & H).
  apply bind_Ok_inv in H as (f3 & H3 & H).
  apply bind_Ok_inv in H as (f4 & H4 & H).
  apply bind_Ok_inv in H as (f5 & H5 & H).
  apply bind_Ok_inv in H as (f6 & H6 & H).
  apply bind_Ok_inv in H as (f7 & H7 & H).
  apply bind_Ok_inv in H as (f8 & H8 & H).
  apply bind_Ok_inv in H as (f9 & H9 & H).
  apply bind_Ok_inv in H as (f10 & H10 & H).
  injection H as <-. split; [reflexivity|].
  unfold fund_info_normalised. cbn.
  repeat constructor;
    eapply (safe_float_not_nan parse_float); try eassumption; reflexivity.
Qed.

(** A run of [get_lof_realtime] once [_ensure_init] has returned: it
    returns, and a quote it returns is the one selected by the code. *)
Lemma get_lof_realtime_run (akshare_importable : bool) (now : datetime)
    (fund_lof_spot_em : provider DataFrame) (fund_code : option string)
    (w w1 : process FundAnalyzer.self_t) :
  (forall s, builtin_str (PyStr s) = s) ->
  FundAnalyzer._ensure_init akshare_importable w = (Ok tt, w1) ->
  exists o w2,
    FundQuotes.get_lof_realtime parse_float builtin_str strip
      akshare_importable now fund_lof_spot_em fund_code w = (Ok o, w2)
    /\ (forall info, o = Some info ->
          FundInfo.code info
          = strip (default FundAnalyzer.DEFAULT_FUND_CODE fund_code)
          /\ fund_info_normalised info).
Proof.
  intros Hstr Hinit. unfold FundQuotes.get_lof_realtime. coro_unfold.
  rewrite Hinit.
  destruct (FundAnalyzer._get_lof_data now fund_lof_spot_em w1)
    as [[df|e] w2]; [|eexists _, _; split; [reflexivity|discriminate]].
  set (code := strip (default FundAnalyzer.DEFAULT_FUND_CODE fund_code)).
  destruct (df_where_eq df "代码" code) as [sel|] eqn:Hsel;
    [|eexists _, _; split; [reflexivity|discriminate]].
  destruct (df_empty sel);
    [eexists _, _; split; [reflexivity|discriminate]|].
  destruct (iloc0 sel) as [row|e] eqn:Hrow;
    [|eexists _, _; split; [reflexivity|discriminate]].
  destruct (FundQuotes.fund_info_of_row parse_float builtin_str row code)
    as [info|e] eqn:Hinfo;
    [|eexists _, _; split; [reflexivity|discriminate]].
  eexists _, _. split; [reflexivity|]. intros info' [= <-].
  destruct (fund_info_of_row_Ok _ _ _ Hinfo) as [Hcode Hnorm].
  split; [|exact Hnorm].
  rewrite Hcode, (where_eq_first _ _ _ _ _ Hsel Hrow). apply Hstr.
Qed.

(** X13.  [get_lof_realtime] raises nothing but the [ImportError] of a
    first use without akshare: a timeout, a provider error or a bad cell
    come out as [None].  A quote it returns carries the requested code
    (stripped, 161226 by default) and no NaN in any numeric field. *)
Theorem X13_lof_realtime_quote (akshare_importable : bool) (now : datetime)
    (fund_lof_spot_em : provider DataFrame) (fund_code : option string)
    (w : process FundAnalyzer.self_t) :
  (forall s, builtin_str (PyStr s) = s) ->
  let run := FundQuotes.get_lof_realtime parse_float builtin_str strip
               akshare_importable now fund_lof_spot_em fund_code w in
  (forall e, fst run = Raise e ->
     e = ImportError
     /\ FundAnalyzer._initialized (self w) = false
     /\ akshare_importable = false)
  /\ (FundAnalyzer._initialized (self w) = true \/ akshare_importable = true ->
      exists o, fst run = Ok o)
  /\ (forall info, fst run = Ok (Some info) ->
        FundInfo.code info
        = strip (default FundAnalyzer.DEFAULT_FUND_CODE fund_code)
        /\ fund_info_normalised info).
Proof.
  intros Hstr run. subst run.
  assert (Hcases :
    (exists w1, FundAnalyzer._ensure_init akshare_importable w = (Ok tt, w1))
    \/ (FundAnalyzer._ensure_init akshare_importable w = (Raise ImportError, w)
        /\ FundAnalyzer._initialized (self w) = false
        /\ akshare_importable = false)).
  { unfold FundAnalyzer._ensure_init. coro_unfold.
    destruct (FundAnalyzer._initialized (self w)); [left; eauto|].
    destruct akshare_importable; [left; eauto|right; auto]. }
  destruct Hcases as [[w1 Hw1]|(Hraise & Hi & Ha)].
  - destruct (get_lof_realtime_run akshare_importable now fund_lof_spot_em
                fund_code w w1 Hstr Hw1) as (o & w2 & -> & Ho).
    cbn [fst]. split; [discriminate|]. split; [eauto|].
    intros info [= ->]. apply Ho. reflexivity.
  - unfold FundQuotes.get_lof_realtime. coro_unfold. rewrite Hraise.
    cbn [fst]. split; [intros e [= <-]; auto|].
    split; [intros [H|H]; congruence|discriminate].
Qed.

Lemma stock_cells_normalised (fs : list pyfloat) (vs : list pyobj) :
  Forall2 (fun v f =>
             FundAnalyzer._safe_float parse_float v FundAnalyzer.default_float
             = Ok f) vs fs ->
  Forall (fun x => isnan x = false) fs.
Proof.
  induction 1 as [|v f vs fs Hv _ IH]; constructor; [|exact IH].
  eapply (safe_float_not_nan parse_float); [exact Hv|reflexivity].
Qed.

Lemma parse_eastmoney_Ok (row : Series) (stock_code : string)
    (info : StockInfo.t) :
  StockQuotes._parse_stock_row_eastmoney parse_float builtin_str row
    stock_code = Ok info ->
  StockInfo.code info
  = match row !! "代码" with Some v => builtin_str v | None => stock_code end
  /\ stock_info_normalised info.
Proof.
  unfold StockQuotes._parse_stock_row_eastmoney, StockQuotes.cell_float,
    StockAnalyzer._safe_float.
  intros H.
  apply bind_Ok_inv in H as (f1 & H1 & H).
  apply bind_Ok_inv in H as (f2 & H2 & H).
  apply bind_Ok_inv in H as (f3 & H3 & H).
  apply bind_Ok_inv in H as (f4 & H4 & H).
  apply bind_Ok_inv in H as (f5 & H5 & H).
  apply bind_Ok_inv in H as (f6 & H6 & H).
  apply bind_Ok_inv in H as (f7 & H7 & H).
  apply bind_Ok_inv in H as (f8 & H8 & H).
  apply bind_Ok_inv in H as (f9 & H9 & H).
  apply bind_Ok_inv in H as (f10 & H10 & H).
  apply bind_Ok_inv in H as (f11 & H11 & H).
  apply bind_Ok_inv in H as (f12 & H12 & H).
  apply bind_Ok_inv in H as (f13 & H13 & H).
  apply bind_Ok_inv in H as (f14 & H14 & H).
  apply bind_Ok_inv in H as (f15 & H15 & H).
  injection H as <-. split; [reflexivity|].
  unfold stock_info_normalised. cbn.
  eapply stock_cells_normalised. repeat (constructor; [eassumption|]).
  constructor.
Qed.

Lemma parse_sina_Ok (row : Series) (stock_code : string)
    (info : StockInfo.t) :
  StockQuotes._parse_stock_row_sina parse_float builtin_str row stock_code
  = Ok info ->
  StockInfo.code info
  = match row !! "代码" with Some v => builtin_str v | None => stock_code end
  /\ stock_info_normalised info.
Proof.
  unfold StockQuotes._parse_stock_row_sina, StockQuotes.cell_float_either,
    StockAnalyzer._safe_float.
  intros H.
  apply bind_Ok_inv in H as (f1 & H1 & H).
  apply bind_Ok_inv in H as (f2 & H2 & H).
  apply bind_Ok_inv in H as (f3 & H3 & H).
  apply bind_Ok_inv in H as (f4 & H4 & H).
  apply bind_Ok_inv in H as (f5 & H5 & H).
  apply bind_Ok_inv in H as (f6 & H6 & H).
  apply bind_Ok_inv in H as (f7 & H7 & H).
  apply bind_Ok_inv in H as (f8 & H8 & H).
  apply bind_Ok_inv in H as (f9 & H9 & H).
  apply bind_Ok_inv in H as (f10 & H10 & H).
  apply bind_Ok_inv in H as (f11 & H11 & H).
  apply bind_Ok_inv in H as (f12 & H12 & H).
  apply bind_Ok_inv in H as (f13 & H13 & H).
  apply bind_Ok_inv in H as (f14 & H14 & H).
  apply bind_Ok_inv in H as (f15 & H15 & H).
  injection H as <-. split; [reflexivity|].
  unfold stock_info_normalised. cbn.
  eapply stock_cells_normalised. repeat (constructor; [eassumption|]).
  constructor.
Qed.

(** X14.  [get_stock_realtime] never raises, not even the [ImportError]
    of a first use without akshare: every failure comes out as [None].  A
    quote it returns carries the requested code, stripped, and no NaN in
    any numeric field. *)
Theorem X14_stock_realtime_quote (akshare_importable : bool)
    (now : datetime) (net : StockAnalyzer.providers) (stock_code : string)
    (w : process StockAnalyzer.self_t) :
  (forall s, builtin_str (PyStr s) = s) ->
  let run := StockQuotes.get_stock_realtime parse_float builtin_str strip
               akshare_importable now net stock_code w in
  (exists o, fst run = Ok o)
  /\ (forall info, fst run = Ok (Some info) ->
        StockInfo.code info = strip stock_code
        /\ stock_info_normalised info).
Proof.
  intros Hstr run. subst run. unfold StockQuotes.get_stock_realtime.
  coro_unfold.
  destruct (StockAnalyzer._get_stock_data akshare_importable now net w)
    as [[df|e] w2]; [|split; [eauto|discriminate]].
  set (code := strip stock_code).
  destruct (df_where_eq df "代码" code) as [sel|] eqn:Hsel;
    [|split; [eauto|discriminate]].
  destruct (df_empty sel); [split; [eauto|discriminate]|].
  destruct (iloc0 sel) as [row|e] eqn:Hrow; [|split; [eauto|discriminate]].
  cbn [fst snd].
  destruct (String.eqb (StockAnalyzer._current_source (self w2)) "sina").
  - destruct (StockQuotes._parse_stock_row_sina parse_float builtin_str row
                code) as [info|e] eqn:Hinfo; [|split; [eauto|discriminate]].
    cbn [fst]. split; [eauto|]. intros info' [= <-].
    destruct (parse_sina_Ok _ _ _ Hinfo) as [Hcode Hnorm].
    split; [|exact Hnorm].
    rewrite Hcode, (where_eq_first _ _ _ _ _ Hsel Hrow). apply Hstr.
  - destruct (StockQuotes._parse_stock_row_eastmoney parse_float builtin_str
                row code) as [info|e] eqn:Hinfo;
      [|split; [eauto|discriminate]].
    cbn [fst]. split; [eauto|]. intros info' [= <-].
    destruct (parse_eastmoney_Ok _ _ _ Hinfo) as [Hcode Hnorm].
    split; [|exact Hnorm].
    rewrite Hcode, (where_eq_first _ _ _ _ _ Hsel Hrow). apply Hstr.
Qed.

Lemma row_get_absent (row : Series) (name other : string) :
  row !! other = None ->
  row_get row name (row_get row other (PyInt 0)) = cell_or_zero row name.
Proof.
  intros H. unfold row_get, cell_or_zero. rewrite H.
  destruct (row !! name); reflexivity.
Qed.

(** X15.  On a row that has none of the column labels particular to the
    secondary provider, the parser for the secondary provider returns, or
    raises, exactly what the parser for the primary one does. *)
Theorem X15_parsers_agree (row : Series) (stock_code : string) :
  (forall label, label ∈ sina_labels -> row !! label = None) ->
  StockQuotes._parse_stock_row_sina parse_float builtin_str row stock_code
  = StockQuotes._parse_stock_row_eastmoney parse_float builtin_str row
      stock_code.
Proof.
  intros Habsent.
  unfold StockQuotes._parse_stock_row_sina,
    StockQuotes._parse_stock_row_eastmoney, StockQuotes.cell_float_either,
    StockQuotes.cell_float.
  rewrite !row_get_absent
    by (apply Habsent; unfold sina_labels;
        repeat first [apply list_elem_of_here | apply list_elem_of_further]).
  replace (row_get row "振幅" (PyInt 0)) with (cell_or_zero row "振幅")
    by (unfold row_get, cell_or_zero; destruct (row !! "振幅"); reflexivity).
  reflexivity.
Qed.

End Quotes.

Lemma X13_lof_realtime_quote_witness :
  exists info,
    fst (FundQuotes.get_lof_realtime (fun _ => None) str_of (fun s => s)
           true 0%Z (once sample_table) None
           {| self := FundAnalyzer.__init__; trace := [] |})
    = Ok (Some info)
    /\ FundInfo.code info = "161226".
Proof.
  assert (Hrun : exists info,
    fst (FundQuotes.get_lof_realtime (fun _ => None) str_of (fun s => s)
           true 0%Z (once sample_table) None
           {| self := FundAnalyzer.__init__; trace := [] |})
    = Ok (Some info)).
  { eexists. vm_compute. reflexivity. }
  destruct Hrun as [info Hinfo]. exists info. split; [exact Hinfo|].
  destruct (X13_lof_realtime_quote (fun _ => None) str_of (fun s => s)
              true 0%Z (once sample_table) None
              {| self := FundAnalyzer.__init__; trace := [] |})
    as (_ & _ & Hcode); [reflexivity|].
  exact (proj1 (Hcode info Hinfo)).
Defined.

Lemma X14_stock_realtime_quote_witness :
  exists info,
    fst (StockQuotes.get_stock_realtime (fun _ => None) str_of (fun s => s)
           true 0%Z live_network "161226" fresh_stock)
    = Ok (Some info)
    /\ StockInfo.code info = "161226".
Proof.
  assert (Hrun : exists info,
    fst (StockQuotes.get_stock_realtime (fun _ => None) str_of (fun s => s)
           true 0%Z live_network "161226" fresh_stock)
    = Ok (Some info)).
  { eexists. vm_compute. reflexivity. }
  destruct Hrun as [info Hinfo]. exists info. split; [exact Hinfo|].
  destruct (X14_stock_realtime_quote (fun _ => None) str_of (fun s => s)
              true 0%Z live_network "161226" fresh_stock)
    as (_ & Hcode); [reflexivity|].
  exact (proj1 (Hcode info Hinfo)).
Defined.

Lemma X15_parsers_agree_witness :
  let row : Series :=
    row_series sample_table [PyStr "161226"; PyStr "国投瑞银白银期货(LOF)A"] in
  StockQuotes._parse_stock_row_sina (fun _ => None) str_of row "161226"
  = StockQuotes._parse_stock_row_eastmoney (fun _ => None) str_of row
      "161226".
Proof.
  intros row. apply X15_parsers_agree. intros label Hlabel.
  unfold sina_labels in Hlabel.
  repeat (apply elem_of_cons in Hlabel as [->|Hlabel];
          [vm_compute; reflexivity|]).
  inversion Hlabel.
Defined.

(** ** Formatting the indicators *)

Section Formatting.
Import FundAnalyzer FundAnalyzerPlugin.

Variable format_float : string -> pyfloat -> string.
Variable float_str : pyfloat -> string.

Lemma return_field_value (closes : list pyfloat) (d : nat) (v : pyval) :
  return_field closes d = Ok v -> v = VNone \/ exists f, v = VFloat f.
Proof.
  unfold return_field. intros H.
  apply bind_Ok_inv in H as (cond & Hcond & H).
  destruct (opt_truthy cond); [|injection H as <-; auto].
  rewrite Hcond in H. cbn [mbind result_bind] in H.
  destruct cond as [r|]; [|discriminate].
  injection H as <-. eauto.
Qed.

Lemma volatility_field_value (closes : list pyfloat) (v : pyval) :
  volatility_field closes = Ok v -> v = VNone \/ exists f, v = VFloat f.
Proof.
  unfold volatility_field. intros H.
  apply bind_Ok_inv in H as (cond & Hcond & H).
  destruct (match cond with Some r => root_truthy r | None => false end);
    [|injection H as <-; auto].
  rewrite Hcond in H. cbn [mbind result_bind] in H.
  destruct cond as [r|]; [|discriminate].
  apply bind_Ok_inv in H as (x & _ & H). injection H as <-. eauto.
Qed.

Lemma high_field_value (closes : list pyfloat) (v : pyval) :
  high_20d_field closes = Ok v -> exists f, v = VFloat f.
Proof.
  unfold high_20d_field. intros H.
  apply bind_Ok_inv in H as (x & _ & H). injection H as <-. eauto.
Qed.

Lemma low_field_value (closes : list pyfloat) (v : pyval) :
  low_20d_field closes = Ok v -> exists f, v = VFloat f.
Proof.
  unfold low_20d_field. intros H.
  apply bind_Ok_inv in H as (x & _ & H). injection H as <-. eauto.
Qed.

(** With a number as current price, a moving-average entry that is [None]
    or a number is printed or skipped without error. *)
Lemma ma_status_entry_Ok (label key : string) (cp : pyfloat)
    (indicators : gmap string pyval) (o : option pyfloat) :
  indicators !! key = Some (ma_field o) ->
  exists l, ma_status_entry format_float label (VFloat cp) indicators key
            = Ok l.
Proof.
  intros H. unfold ma_status_entry, get_or. rewrite H.
  cbn [default from_option id].
  unfold ma_field. destruct o as [m|]; [|eexists; reflexivity].
  destruct (truthy m); [|eexists; reflexivity].
  cbn [val_truthy].
  destruct (truthy (round_ndigits m 4)); eexists; reflexivity.
Qed.

(** What [_format_analysis] does on a mapping built by
    [calculate_technical_indicators], by the four entries it prints
    unconditionally. *)
Lemma format_analysis_mapping (info : FundInfo.t) (closes : list pyfloat)
    (cp hi lo : pyfloat) (r5 r10 r20 vol : pyval) :
  let m := indicator_mapping closes cp r5 r10 r20 vol (VFloat hi)
             (VFloat lo) in
  Forall (fun v => v = VNone \/ exists f, v = VFloat f) [r5; r10; r20; vol] ->
  (In VNone [r5; r10; r20; vol] ->
   _format_analysis format_float float_str info m = Raise TypeError)
  /\ (~ In VNone [r5; r10; r20; vol] ->
      exists text, _format_analysis format_float float_str info m = Ok text).
Proof.
  intros m Hvals.
  destruct (indicator_mapping_lookup closes cp r5 r10 r20 vol (VFloat hi)
              (VFloat lo))
    as (L1 & L2 & L3 & L4 & L5 & L6 & L7 & L8 & L9 & L10 & L11).
  fold m in L1, L2, L3, L4, L5, L6, L7, L8, L9, L10, L11.
  assert (Hsize : (size m =? 0)%nat = false).
  { apply Nat.eqb_neq. apply map_size_non_empty_iff. intros E.
    rewrite E, lookup_empty in L1. discriminate L1. }
  unfold _format_analysis. rewrite Hsize.
  unfold get_or. rewrite L11. cbn [default from_option id].
  destruct (ma_status_entry_Ok "MA5" "ma5" cp m _ L1) as [s5 ->].
  destruct (ma_status_entry_Ok "MA10" "ma10" cp m _ L2) as [s10 ->].
  destruct (ma_status_entry_Ok "MA20" "ma20" cp m _ L3) as [s20 ->].
  cbn [mbind result_bind].
  rewrite L4, L5, L6, L7, L8, L9. cbn [default from_option id].
  apply Forall_cons in Hvals as [H5 Hvals].
  apply Forall_cons in Hvals as [H10 Hvals].
  apply Forall_cons in Hvals as [H20 Hvals].
  apply Forall_cons in Hvals as [Hvol _].
  destruct H5 as [->|[f5 ->]]; [split; [reflexivity|intros H; cbn in H; tauto]|].
  destruct H10 as [->|[f10 ->]];
    [split; [reflexivity|intros H; cbn in H; tauto]|].
  destruct H20 as [->|[f20 ->]];
    [split; [reflexivity|intros H; cbn in H; tauto]|].
  destruct Hvol as [->|[fv ->]];
    [split; [reflexivity|intros H; cbn in H; tauto]|].
  split; [|cbn [format_spec mbind result_bind]; eauto].
  intros H. cbn in H.
  destruct H as [H|[H|[H|[H|[]]]]]; discriminate H.
Qed.

(** X16.  On the mapping that [calculate_technical_indicators] returns
    for five bars or more, [_format_analysis] raises [TypeError] as soon as
    one of the entries return_5d, return_10d, return_20d and volatility is
    [None], and returns the text otherwise.  With fewer than 21 bars the
    20-day return is [None], so the formatting always fails. *)
Theorem X16_format_analysis_needs_numbers (history_data : list bar)
    (m : gmap string pyval) (info : FundInfo.t) :
  (5 <= length history_data)%nat ->
  calculate_technical_indicators history_data = Ok m ->
  ((exists key, key ∈ performance_keys /\ m !! key = Some VNone) ->
   _format_analysis format_float float_str info m = Raise TypeError)
  /\ ((forall key, key ∈ performance_keys -> m !! key <> Some VNone) ->
      exists text, _format_analysis format_float float_str info m = Ok text)
  /\ ((length history_data < 21)%nat ->
      _format_analysis format_float float_str info m = Raise TypeError).
Proof.
  intros Hlen H.
  destruct (indicators_Ok_inv _ _ Hlen H)
    as (cp & r5 & r10 & r20 & vol & hi & lo
        & _ & H5 & H10 & H20 & Hvol & Hhi & Hlo & ->).
  destruct (high_field_value _ _ Hhi) as [fhi ->].
  destruct (low_field_value _ _ Hlo) as [flo ->].
  set (closes := map close history_data) in *.
  assert (Hvals : Forall (fun v => v = VNone \/ exists f, v = VFloat f)
                    [r5; r10; r20; vol]).
  { constructor; [eapply return_field_value; eassumption|].
    constructor; [eapply return_field_value; eassumption|].
    constructor; [eapply return_field_value; eassumption|].
    constructor; [eapply volatility_field_value; eassumption|].
    constructor. }
  destruct (format_analysis_mapping info closes cp fhi flo r5 r10 r20 vol
              Hvals) as [Hraise Hok].
  destruct (indicator_mapping_lookup closes cp r5 r10 r20 vol (VFloat fhi)
              (VFloat flo))
    as (_ & _ & _ & L4 & L5 & L6 & L7 & _).
  split; [|split].
  - intros (key & Hkey & Hnone). apply Hraise.
    unfold performance_keys in Hkey.
    apply elem_of_cons in Hkey as [->|Hkey];
      [left; congruence|].
    apply elem_of_cons in Hkey as [->|Hkey];
      [right; left; congruence|].
    apply elem_of_cons in Hkey as [->|Hkey];
      [right; right; left; congruence|].
    apply elem_of_cons in Hkey as [->|Hkey];
      [right; right; right; left; congruence|].
    inversion Hkey.
  - intros Hall. apply Hok. intros Hin.
    assert (K5 : "return_5d" ∈ performance_keys)
      by (unfold performance_keys;
          repeat first [apply list_elem_of_here | apply list_elem_of_further]).
    assert (K10 : "return_10d" ∈ performance_keys)
      by (unfold performance_keys;
          repeat first [apply list_elem_of_here | apply list_elem_of_further]).
    assert (K20 : "return_20d" ∈ performance_keys)
      by (unfold performance_keys;
          repeat first [apply list_elem_of_here | apply list_elem_of_further]).
    assert (Kv : "volatility" ∈ performance_keys)
      by (unfold performance_keys;
          repeat first [apply list_elem_of_here | apply list_elem_of_further]).
    destruct Hin as [E|[E|[E|[E|[]]]]]; subst.
    + exact (Hall _ K5 L4).
    + exact (Hall _ K10 L5).
    + exact (Hall _ K20 L6).
    + exact (Hall _ Kv L7).
  - intros Hshort. apply Hraise.
    assert (E20 : return_field closes 20 = Ok VNone).
    { apply return_field_short. unfold closes. rewrite length_map. lia. }
    right. right. left. congruence.
Qed.

End Formatting.

Lemma X16_format_analysis_needs_numbers_witness :
  let qs := [3; 1; 2; 5; 4; 2]%Q in
  exists m,
    FundAnalyzer.calculate_technical_indicators (series qs) = Ok m
    /\ FundAnalyzerPlugin._format_analysis (fun _ _ => "") (fun _ => "")
         (fund_named "国投瑞银白银期货(LOF)A") m
       = Raise TypeError.
Proof.
  intros qs.
  assert (Hrun : FundAnalyzer.calculate_technical_indicators (series qs)
                 = Ok (indicator_mapping (map FundAnalyzer.close (series qs))
                         (Finite 2) (VFloat (round64 (-3333 # 100)))
                         VNone VNone VNone
                         (VFloat (Finite 5)) (VFloat (Finite 1)))).
  { rewrite indicators_long by (vm_compute; lia).
    cbv -[indicator_mapping]. reflexivity. }
  eexists. split; [exact Hrun|].
  refine (proj2 (proj2 (X16_format_analysis_needs_numbers
                          (fun _ _ => "") (fun _ => "") (series qs) _
                          (fund_named "国投瑞银白银期货(LOF)A") _ Hrun)) _);
    cbn; lia.
Defined.

(** ** The quote records *)

Section Models.

Lemma Qle_bool_false (a b : Q) : Qle_bool a b = false <-> (b < a)%Q.
Proof.
  split.
  - intros H. apply Qnot_le_lt. intros C. apply Qle_bool_iff in C.
    congruence.
  - intros H. destruct (Qle_bool a b) eqn:E; [|reflexivity].
    apply Qle_bool_iff in E. apply Qlt_not_le in H. contradiction.
Qed.

End Models.

(** Turns the outcomes of the comparisons in the context into facts about
    the rationals compared. *)
Ltac cmp_facts :=
  repeat match goal with
         | H : Qle_bool _ _ = true |- _ => apply Qle_bool_iff in H
         | H : Qle_bool _ _ = false |- _ => apply Qle_bool_false in H
         | H : Qltb _ _ = true |- _ => apply Qltb_true in H
         | H : Qltb _ _ = false |- _ => apply Qltb_false in H
         end.

(** Decides whether a given string is one of a given list of strings. *)
Ltac among :=
  cbn [In];
  repeat match goal with
         | |- _ \/ _ => first [left; reflexivity | right]
         end;
  try reflexivity.

Ltac not_among :=
  repeat match goal with
         | R : In _ _ |- _ => cbn [In] in R
         | R : _ \/ _ |- _ => destruct R as [R|R]; [discriminate R|]
         | R : False |- _ => destruct R
         end.

Ltac emoji_leaf :=
  cmp_facts;
  first
    [ exfalso; lra
    | repeat split; intros ?R;
      first [ solve [among] | discriminate R | solve [not_among] ] ].

Section Emoji.

(** X17.  For a stock quote the two pictures of the change agree:
    [change_symbol] is the rising chart exactly when [trend_emoji] is one
    of the four signs for a rise, the falling chart exactly when it is
    one of the four signs for a fall, and the level arrow exactly when
    [trend_emoji] is the level arrow. *)
Theorem X17_stock_emoji_agrees (info : StockInfo.t) :
  (StockInfo.change_symbol info = "📈"
   <-> In (StockInfo.trend_emoji info) ["🔥涨停"; "🚀"; "↗️"; "↑"])
  /\ (StockInfo.change_symbol info = "📉"
      <-> In (StockInfo.trend_emoji info) ["💀跌停"; "💥"; "↘️"; "↓"])
  /\ (StockInfo.change_symbol info = "➡️"
      <-> StockInfo.trend_emoji info = "➡️").
Proof.
  unfold StockInfo.change_symbol, StockInfo.trend_emoji.
  destruct (StockInfo.change_rate info) as [q| | |];
    unfold fge, fle, fgt, flt, of_Z, of_Q, inject_Z;
    [|cbn; emoji_leaf ..].
  destruct (Qltb (0 # 1) q) eqn:Pos; destruct (Qltb q (0 # 1)) eqn:Neg;
    destruct (Qle_bool (99 # 10) q) eqn:E1; try emoji_leaf;
    destruct (Qle_bool (5 # 1) q) eqn:E2; try emoji_leaf;
    destruct (Qle_bool (2 # 1) q) eqn:E3; try emoji_leaf;
    destruct (Qle_bool q (- 99 # 10)) eqn:E4; try emoji_leaf;
    destruct (Qle_bool q (-5 # 1)) eqn:E5; try emoji_leaf;
    destruct (Qle_bool q (-2 # 1)) eqn:E6; emoji_leaf.
Qed.

(** X18.  The same agreement for a fund quote, whose signs for a rise are
    three and whose signs for a fall are three. *)
Theorem X18_fund_emoji_agrees (info : FundInfo.t) :
  (FundInfo.change_symbol info = "📈"
   <-> In (FundInfo.trend_emoji info) ["🚀"; "↗️"; "↑"])
  /\ (FundInfo.change_symbol info = "📉"
      <-> In (FundInfo.trend_emoji info) ["💥"; "↘️"; "↓"])
  /\ (FundInfo.change_symbol info = "➡️"
      <-> FundInfo.trend_emoji info = "➡️").
Proof.
  unfold FundInfo.change_symbol, FundInfo.trend_emoji.
  destruct (FundInfo.change_rate info) as [q| | |];
    unfold fge, fle, fgt, flt, of_Z, of_Q, inject_Z;
    [|cbn; emoji_leaf ..].
  destruct (Qltb (0 # 1) q) eqn:Pos; destruct (Qltb q (0 # 1)) eqn:Neg;
    destruct (Qle_bool (3 # 1) q) eqn:E1; try emoji_leaf;
    destruct (Qle_bool (1 # 1) q) eqn:E2; try emoji_leaf;
    destruct (Qle_bool q (-3 # 1)) eqn:E4; try emoji_leaf;
    destruct (Qle_bool q (-1 # 1)) eqn:E5; emoji_leaf.
Qed.

End Emoji.

(** ** Searching *)

Section Searching.
Import Search.

Variable parse_float : string -> option pyfloat.
Variable builtin_str : pyobj -> string.
Variable str_contains : list pyobj -> string -> bool -> option (list bool).

Lemma for_rows_Ok {A : Type} (entry : Series -> result A)
    (rows : list Series) (l : list A) :
  for_rows entry rows = Ok l ->
  Forall2 (fun row a => entry row = Ok a) rows l.
Proof.
  revert l. induction rows as [|row rows IH]; intros l H; cbn in H.
  - injection H as <-. constructor.
  - apply bind_Ok_inv in H as (a & Ha & H).
    apply bind_Ok_inv in H as (l' & Hl' & H).
    injection H as <-. constructor; auto.
Qed.

Lemma length_head (n : Z) (df : DataFrame) :
  (0 <= n)%Z -> (Z.of_nat (df_len (df_head n df)) <= n)%Z.
Proof.
  intros Hn. unfold df_len, df_head. cbn [cells].
  destruct (Z.leb_spec 0 n) as [_|?]; [|lia].
  rewrite length_take. lia.
Qed.

Lemma fund_hit_normalised (row : Series) (h : hit) :
  fund_hit parse_float builtin_str row = Ok h ->
  isnan (price h) = false /\ isnan (change_rate h) = false.
Proof.
  unfold fund_hit. intros H.
  apply bind_Ok_inv in H as (f1 & H1 & H).
  apply bind_Ok_inv in H as (f2 & H2 & H).
  injection H as <-. cbn.
  split; eapply (safe_float_not_nan parse_float); try eassumption;
    reflexivity.
Qed.

(** A run of [search_fund] once [_ensure_init] has returned. *)
Lemma search_fund_run (akshare_importable : bool) (now : datetime)
    (fund_lof_spot_em : provider DataFrame) (keyword : string)
    (w w1 : process FundAnalyzer.self_t) :
  FundAnalyzer._ensure_init akshare_importable w = (Ok tt, w1) ->
  exists l w2,
    search_fund parse_float builtin_str str_contains akshare_importable now
      fund_lof_spot_em keyword w = (Ok l, w2)
    /\ (length l <= 10)%nat
    /\ Forall (fun h => isnan (price h) = false
                        /\ isnan (change_rate h) = false) l.
Proof.
  intros Hinit. unfold search_fund. coro_unfold. rewrite Hinit.
  assert (Hempty : forall w2 : process FundAnalyzer.self_t,
    exists l w3, (@Ok (list hit) [], w2) = (Ok l, w3)
      /\ (length l <= 10)%nat
      /\ Forall (fun h => isnan (price h) = false
                          /\ isnan (change_rate h) = false) l).
  { intros w2. exists [], w2. split; [reflexivity|].
    split; [cbn; lia|constructor]. }
  destruct (FundAnalyzer._get_lof_data now fund_lof_spot_em w1)
    as [[df|e] w2]; [|apply Hempty].
  destruct (keyword_mask str_contains df keyword true) as [mask|];
    [|apply Hempty].
  destruct (df_where df mask) as [matched|]; [|apply Hempty].
  destruct (for_rows (fund_hit parse_float builtin_str)
              (iterrows (df_head 10 matched))) as [l|e] eqn:Hl;
    [|apply Hempty].
  exists l, w2. split; [reflexivity|].
  apply for_rows_Ok in Hl.
  split.
  - rewrite <- (Forall2_length _ _ _ Hl), length_iterrows.
    pose proof (length_head 10 matched ltac:(lia)). lia.
  - clear -Hl. induction Hl as [|row h rows l Hh _ IH]; constructor;
      [eapply fund_hit_normalised; exact Hh|exact IH].
Qed.

(** X19.  [search_fund] raises nothing but the [ImportError] of a first
    use without akshare, and a list it returns has at most ten entries,
    none with a NaN price or change. *)
Theorem X19_search_fund_bounded (akshare_importable : bool) (now : datetime)
    (fund_lof_spot_em : provider DataFrame) (keyword : string)
    (w : process FundAnalyzer.self_t) :
  let run := search_fund parse_float builtin_str str_contains
               akshare_importable now fund_lof_spot_em keyword w in
  (forall e, fst run = Raise e ->
     e = ImportError
     /\ FundAnalyzer._initialized (self w) = false
     /\ akshare_importable = false)
  /\ (forall l, fst run = Ok l ->
        (length l <= 10)%nat
        /\ Forall (fun h => isnan (price h) = false
                            /\ isnan (change_rate h) = false) l).
Proof.
  intros run. subst run.
  assert (Hcases :
    (exists w1, FundAnalyzer._ensure_init akshare_importable w = (Ok tt, w1))
    \/ (FundAnalyzer._ensure_init akshare_importable w = (Raise ImportError, w)
        /\ FundAnalyzer._initialized (self w) = false
        /\ akshare_importable = false)).
  { unfold FundAnalyzer._ensure_init. coro_unfold.
    destruct (FundAnalyzer._initialized (self w)); [left; eauto|].
    destruct akshare_importable; [left; eauto|right; auto]. }
  destruct Hcases as [[w1 Hw1]|(Hraise & Hi & Ha)].
  - destruct (search_fund_run akshare_importable now fund_lof_spot_em
                keyword w w1 Hw1) as (l & w2 & -> & Hlen & Hnorm).
    cbn [fst]. split; [discriminate|]. intros l' [= <-]. auto.
  - unfold search_fund. coro_unfold. rewrite Hraise. cbn [fst].
    split; [intros e [= <-]; auto|discriminate].
Qed.

(** X20.  [search_stock] never raises, and for a [max_results] that is
    not negative it returns at most [max_results] entries. *)
Theorem X20_search_stock_bounded (akshare_importable : bool)
    (now : datetime) (net : StockAnalyzer.providers) (keyword : string)
    (max_results : Z) (w : process StockAnalyzer.self_t) :
  (0 <= max_results)%Z ->
  exists l,
    fst (search_stock parse_float builtin_str str_contains
           akshare_importable now net keyword max_results w) = Ok l
    /\ (Z.of_nat (length l) <= max_results)%Z.
Proof.
  intros Hmax. unfold search_stock. coro_unfold.
  destruct (StockAnalyzer._get_stock_data akshare_importable now net w)
    as [[df|e] w2]; [|exists []; split; [reflexivity|cbn; lia]].
  destruct (keyword_mask str_contains df keyword false) as [mask|];
    [|exists []; split; [reflexivity|cbn; lia]].
  destruct (df_where df mask) as [matched|];
    [|exists []; split; [reflexivity|cbn; lia]].
  cbn [fst]. eexists. split; [reflexivity|].
  destruct (mapM (stock_hit parse_float builtin_str)
              (iterrows (df_head max_results matched))) as [l|] eqn:Hl;
    [|cbn; lia].
  cbn [default from_option id]. apply length_mapM in Hl.
  rewrite length_iterrows in Hl.
  pose proof (length_head max_results matched Hmax). lia.
Qed.

End Searching.

Lemma X20_search_stock_bounded_witness :
  exists l,
    fst (Search.search_stock (fun _ => None) str_of starts_with true 0%Z
           live_network "1612" 1 fresh_stock) = Ok l
    /\ (Z.of_nat (length l) <= 1)%Z.
Proof.
  apply (X20_search_stock_bounded (fun _ => None) str_of starts_with true
           0%Z live_network "1612" 1 fresh_stock).
  lia.
Defined.

(** ** Influence factors *)

Section InfluenceFactors.
Import Factors.

Variable re_search : string -> string -> bool.

(** Whatever the name matches, [get_factors] answers with an entry of the
    table or with the default. *)
Lemma get_factors_from_table (fund_name : string) :
  In (get_factors re_search fund_name)
     (DEFAULT_FACTORS :: map snd FUND_TYPE_FACTORS).
Proof.
  unfold get_factors.
  destruct (List.find _ FUND_TYPE_FACTORS) as [entry|] eqn:E;
    [|left; reflexivity].
  right. apply find_some in E as [E _]. apply in_map. exact E.
Qed.

(** X21.  Whatever the fund is called, [get_search_keywords] returns
    between six and ten keywords, the first of which is the underlying
    asset of the fund's type, and none of which occurs twice. *)
Theorem X21_search_keywords (fund_name : string) :
  let keywords := get_search_keywords re_search fund_name in
  (6 <= length keywords <= 10)%nat
  /\ head keywords = Some (underlying (get_factors re_search fund_name))
  /\ NoDup keywords.
Proof.
  unfold get_search_keywords.
  pose proof (get_factors_from_table fund_name) as Hin.
  set (info := get_factors re_search fund_name) in *. clearbody info.
  unfold FUND_TYPE_FACTORS in Hin. cbn [map In snd] in Hin.
  repeat (destruct Hin as [<-|Hin];
          [cbv zeta; split; [vm_compute; lia|];
           split; [reflexivity|];
           refine (@bool_decide_unpack _ (NoDup_dec _) _);
           vm_compute; exact I|]).
  destruct Hin.
Qed.

End InfluenceFactors.
